(** * Realtime slippage pool trader: a shallow embedding and its properties

    The Python program consumes decoded pool events of a DEX feed and
    opens and closes positions on chain.  This development embeds the
    decision-and-execution engine: the price and direction resolver
    ([utils/price_utils.py]), the amount converter
    ([utils/conversion_utils.py]), the gas price policy
    ([utils/gas_utils.py]), the reconciler
    ([utils/transaction_utils.py]), the per-protocol executors and the
    router ([uniswap/uniswap_v2.py], [uniswap/uniswap_v3.py],
    [trader.py]) and the position ledger with its orchestrator
    ([trade.py]).

    Conventions.
    - A Python number (an [int] or a [float]) is modelled by its exact
      rational value in [Q]; comparisons of Python numbers are exact, so
      they are comparisons in [Q].  Operations that round ([/] and [*]
      on floats, conversions between [Decimal] and [float]) are
      parameters of the sections that use them.
    - A dict read with [.get] on a fixed set of keys is a record; a key
      that may be missing has an [option] type, and where the code tests
      the dynamic type of a value the field has type [PyVal].
    - Logging ([print]) is not modelled. *)

From Stdlib Require Import ZArith QArith Qpower Qround Qabs List String Ascii Bool Lia.
From Stdlib Require Import Sorted Permutation.
Import ListNotations.

Local Open Scope Z_scope.

(** ** Python values *)

(** A value whose dynamic type the code inspects: [None], a number, or a
    string left unconverted by the decoder. *)
Inductive PyVal : Type :=
| PyNone
| PyNum (q : Q)
| PyStr (s : string).

Definition Qlt_bool (a b : Q) : bool := negb (Qle_bool b a).


(** Truth value of a [PyVal], as [not v] tests it. *)
Definition truthy (v : PyVal) : bool :=
  match v with
  | PyNone => false
  | PyNum q => negb (Qeq_bool q 0)
  | PyStr s => negb (String.eqb s EmptyString)
  end.

(** ** Data model of a pool event *)

Inductive Direction : Type := AtoB | BtoA.

(** The value under the key [Price]: a finite number, a float that is
    NaN or infinite, a string that the decoder could not convert, or no
    key at all. *)
Inductive PriceValue : Type :=
| PriceNumber (price : Q)
| PriceNotFinite
| PriceString (price : string)
| PriceMissing.

(** One entry of a price bucket.  The decoder writes every entry as a
    non-empty dict. *)
Record PriceEntry : Type := mkPriceEntry {
  SlippageBasisPoints : option Z;
  Price : PriceValue;
  MaxAmountIn : PyVal
}.

(** [PoolPriceTable]: a bucket key is absent when the feed sent no entry
    for that direction. *)
Record PriceTable : Type := mkPriceTable {
  AtoBPrices : option (list PriceEntry);
  BtoAPrices : option (list PriceEntry)
}.

Record LiquidityInfo : Type := mkLiquidity {
  AmountCurrencyA : PyVal;
  AmountCurrencyB : PyVal
}.

Record CurrencyInfo : Type := mkCurrency {
  SmartContract : option string;
  Symbol : string;
  Decimals : Z
}.

Record PoolInfo : Type := mkPool {
  CurrencyA : option CurrencyInfo;
  CurrencyB : option CurrencyInfo;
  PoolId : string
}.

(** A field of type [option] is [None] when the key is missing or holds
    an empty dict, which the code does not tell apart. *)
Record PoolEvent : Type := mkPoolEvent {
  Pool : option PoolInfo;
  Liquidity : option LiquidityInfo;
  PoolPriceTable : option PriceTable;
  ProtocolName : string;
  TransactionGasPrice : option Z;
  HeaderBaseFee : option Z
}.

(** ** utils/price_utils.py *)

Module PriceUtils.

(** [price_table[f'{direction}Prices']], [None] when the key is absent. *)
Definition bucket (price_table : PriceTable) (direction : Direction)
  : option (list PriceEntry) :=
  match direction with
  | AtoB => AtoBPrices price_table
  | BtoA => BtoAPrices price_table
  end.

(** The loop that collects every slippage that is not [None], in bucket
    order. *)
Fixpoint collect_slippages (prices : list PriceEntry) : list Z :=
  match prices with
  | [] => []
  | price_entry :: rest =>
      match SlippageBasisPoints price_entry with
      | Some slippage => slippage :: collect_slippages rest
      | None => collect_slippages rest
      end
  end.

(** [list.sort()] on integers: the ascending arrangement. *)
Fixpoint insert_sorted (x : Z) (l : list Z) : list Z :=
  match l with
  | [] => [x]
  | y :: l' => if x <=? y then x :: l else y :: insert_sorted x l'
  end.

Fixpoint py_sort (l : list Z) : list Z :=
  match l with
  | [] => []
  | x :: l' => insert_sorted x (py_sort l')
  end.

Definition get_best_slippage_bps (price_table : PriceTable) (direction : Direction)
  : option Z :=
  match bucket price_table direction with
  | None => None
  | Some prices =>
      fold_left
        (fun best_slippage price_entry =>
           match SlippageBasisPoints price_entry with
           | Some slippage =>
               match best_slippage with
               | None => Some slippage
               | Some b => if slippage <? b then Some slippage else Some b
               end
           | None => best_slippage
           end)
        prices None
  end.

Definition get_median_slippage_bps (price_table : PriceTable) (direction : Direction)
  : option Z :=
  match bucket price_table direction with
  | None => None
  | Some prices =>
      if (List.length prices =? 0)%nat then None
      else
        let slippages := collect_slippages prices in
        match slippages with
        | [] => None
        | _ :: _ =>
            let median_index := (List.length slippages / 2)%nat in
            nth_error (py_sort slippages) median_index
        end
  end.

(** [price_entry.get('SlippageBasisPoints') == slippage_bps] *)
Definition slippage_matches (slippage_bps : Z) (price_entry : PriceEntry) : bool :=
  match SlippageBasisPoints price_entry with
  | Some s => s =? slippage_bps
  | None => false
  end.

Definition get_price_for_slippage (price_table : PriceTable) (direction : Direction)
  (slippage_bps : Z) : option PriceEntry :=
  match bucket price_table direction with
  | None => None
  | Some prices =>
      match find (slippage_matches slippage_bps) prices with
      | Some price_entry => Some price_entry
      | None =>
          match prices with
          | first :: _ => Some first
          | [] => None
          end
      end
  end.

Section Direction.

(** Python's [/] on two numbers: the quotient rounded to a float. *)
Variable truediv : Q -> Q -> Q.

(** [int(s, 16) if s.startswith('0x') else int(s)]; [None] stands for
    [ValueError]. *)
Variable int_of_str : string -> option Z.

(** Coercion of a liquidity amount in [_compare_liquidity_amounts]. *)
Definition coerce_amount (v : PyVal) : option Q :=
  match v with
  | PyNone => None
  | PyNum q => Some q
  | PyStr s =>
      match int_of_str s with
      | Some z => Some (inject_Z z)
      | None => None
      end
  end.

Definition _compare_liquidity_amounts (liquidity : LiquidityInfo)
  : option Direction :=
  match AmountCurrencyA liquidity, AmountCurrencyB liquidity with
  | PyNone, _ | _, PyNone => None
  | amount_a, amount_b =>
      match coerce_amount amount_a, coerce_amount amount_b with
      | Some amount_a_num, Some amount_b_num =>
          Some (if Qle_bool amount_b_num amount_a_num then AtoB else BtoA)
      | _, _ => None
      end
  end.

(** [price.get('MaxAmountIn') if price else None] *)
Definition max_amount_in (price : option PriceEntry) : PyVal :=
  match price with
  | Some price_entry => MaxAmountIn price_entry
  | None => PyNone
  end.

(** Lines 165-222: the comparison once a price entry was looked up for
    each direction. *)
Definition compare_max_amount_in (liquidity : LiquidityInfo)
  (atob_price btoa_price : option PriceEntry) : option Direction :=
  let amount_a := AmountCurrencyA liquidity in
  let amount_b := AmountCurrencyB liquidity in
  match max_amount_in atob_price, max_amount_in btoa_price with
  | PyNum atob_max, PyNum btoa_max =>
      (* except (ValueError, TypeError, ZeroDivisionError): [v > 0]
         raises [TypeError] when [v] is [None] or a string *)
      let on_error := Some (if Qle_bool btoa_max atob_max then AtoB else BtoA) in
      match amount_a with
      | PyNum amount_a_num =>
          if Qlt_bool 0 amount_a_num then
            match amount_b with
            | PyNum amount_b_num =>
                if Qlt_bool 0 amount_b_num then
                  let atob_ratio := truediv atob_max amount_a_num in
                  let btoa_ratio := truediv btoa_max amount_b_num in
                  Some (if Qle_bool btoa_ratio atob_ratio then AtoB else BtoA)
                else _compare_liquidity_amounts liquidity
            | _ => on_error
            end
          else _compare_liquidity_amounts liquidity
      | _ => on_error
      end
  | _, _ => _compare_liquidity_amounts liquidity
  end.

(** The price entries compared; [None] when a median is missing and
    the code falls back to the raw liquidity amounts. *)
Definition select_prices (price_table : PriceTable) (slippage_bps : option Z)
  : option (option PriceEntry * option PriceEntry) :=
  match slippage_bps with
  | None =>
      match get_median_slippage_bps price_table AtoB,
            get_median_slippage_bps price_table BtoA with
      | Some atob_slippage, Some btoa_slippage =>
          Some (get_price_for_slippage price_table AtoB atob_slippage,
                get_price_for_slippage price_table BtoA btoa_slippage)
      | _, _ => None
      end
  | Some s =>
      Some (get_price_for_slippage price_table AtoB s,
            get_price_for_slippage price_table BtoA s)
  end.

Definition get_best_direction_by_liquidity (pool_event : PoolEvent)
  (slippage_bps : option Z) : option Direction :=
  match Liquidity pool_event, PoolPriceTable pool_event with
  | Some liquidity, Some price_table =>
      match select_prices price_table slippage_bps with
      | None => _compare_liquidity_amounts liquidity
      | Some (atob_price, btoa_price) =>
          compare_max_amount_in liquidity atob_price btoa_price
      end
  | _, _ => None
  end.

End Direction.

End PriceUtils.

(** ** Python's [decimal.Decimal] in the default context

    A [Decimal] is a coefficient and an exponent; the sign is carried by
    the coefficient.  Every arithmetic operation computes its result and
    then rounds it to the context precision of 28 significant digits,
    half to even ([_fix]).  The arithmetic below is the one within the
    exponent range of the context; [overflows] tells when a result is
    above that range, where the context raises [Overflow].  Results
    below the range (an exponent under -1000026), which Python rounds
    towards zero without raising, are not modelled; neither are NaN and
    the infinities. *)

Module PyDecimal.

Record Decimal : Type := mkDec { coeff : Z; exp : Z }.

(** [getcontext().prec] *)
Definition prec : Z := 28.

(** [len(self._int)]: the number of decimal digits of the coefficient;
    the coefficient 0 is the one digit "0". *)
Definition ndigits (c : Z) : Z :=
  Z.of_nat (Decimal.nb_digits (N.to_uint (Z.abs_N c))).

(** The value denoted: [coeff * 10 ^ exp]. *)
Definition value (d : Decimal) : Q :=
  (inject_Z (coeff d) * (10 # 1) ^ exp d)%Q.

(** [Decimal(str(n))] for an [int] [n], and [Decimal(n)]. *)
Definition of_Z (n : Z) : Decimal := mkDec n 0.

(** [Decimal._fix]: round to [prec] significant digits, half to even.
    With [drop] digits too many, [q] keeps the leading digits and [r] is
    what is dropped; rounding up may carry into one more digit, which is
    then cut and the exponent raised. *)
Definition _fix (d : Decimal) : Decimal :=
  let n := ndigits (coeff d) in
  if n <=? prec then d
  else
    let drop := n - prec in
    let p := 10 ^ drop in
    let a := Z.abs (coeff d) in
    let q := a / p in
    let r := a mod p in
    if (2 * r >? p) || ((2 * r =? p) && Z.odd q) then
      let q1 := q + 1 in
      if ndigits q1 >? prec
      then mkDec (Z.sgn (coeff d) * (q1 / 10)) (exp d + drop + 1)
      else mkDec (Z.sgn (coeff d) * q1) (exp d + drop)
    else mkDec (Z.sgn (coeff d) * q) (exp d + drop).

(** The context flag [Inexact]: [_fix] drops a digit that is not 0. *)
Definition inexact (d : Decimal) : bool :=
  let n := ndigits (coeff d) in
  if n <=? prec then false
  else negb (Z.abs (coeff d) mod 10 ^ (n - prec) =? 0).

(** The results before rounding. *)
Definition mul_raw (a b : Decimal) : Decimal :=
  mkDec (coeff a * coeff b) (exp a + exp b).

Definition sub_raw (a b : Decimal) : Decimal :=
  let e := Z.min (exp a) (exp b) in
  mkDec (coeff a * 10 ^ (exp a - e) - coeff b * 10 ^ (exp b - e)) e.

(** [Decimal.__mul__] *)
Definition mul (a b : Decimal) : Decimal := _fix (mul_raw a b).

(** [Decimal.__sub__]: the operands are aligned on the smaller exponent
    and subtracted; the shortcut Python takes for operands more than a
    precision apart gives the same rounded value and is not modelled. *)
Definition sub (a b : Decimal) : Decimal := _fix (sub_raw a b).

(** The loop of [__truediv__] that brings an exact quotient as close to
    the ideal exponent as its trailing zeros allow; [n] bounds the number
    of steps by the distance to the ideal exponent. *)
Fixpoint strip_zeros (n : nat) (c e : Z) : Z * Z :=
  match n with
  | O => (c, e)
  | S n' => if c mod 10 =? 0 then strip_zeros n' (c / 10) (e + 1) else (c, e)
  end.

(** The quotient of [__truediv__] before [_fix]; the flag tells whether
    the long division left a remainder.  [None] stands for the exception
    of a division by zero. *)
Definition div_raw (a b : Decimal) : option (Decimal * bool) :=
  if coeff b =? 0 then None
  else if coeff a =? 0 then Some (mkDec 0 (exp a - exp b), false)
  else
    let sign := Z.sgn (coeff a) * Z.sgn (coeff b) in
    let shift := ndigits (coeff b) - ndigits (coeff a) + prec + 1 in
    let e := exp a - exp b - shift in
    let '(c, remainder) :=
      if 0 <=? shift
      then (Z.abs (coeff a) * 10 ^ shift / Z.abs (coeff b),
            (Z.abs (coeff a) * 10 ^ shift) mod Z.abs (coeff b))
      else (Z.abs (coeff a) / (Z.abs (coeff b) * 10 ^ (- shift)),
            Z.abs (coeff a) mod (Z.abs (coeff b) * 10 ^ (- shift))) in
    if remainder =? 0 then
      let ideal_exp := exp a - exp b in
      let '(c', e') := strip_zeros (Z.to_nat (ideal_exp - e)) c e in
      Some (mkDec (sign * c') e', false)
    else
      let c' := if c mod 5 =? 0 then c + 1 else c in
      Some (mkDec (sign * c') e, true).

(** [Decimal.__truediv__] *)
Definition div (a b : Decimal) : option Decimal :=
  match div_raw a b with
  | Some (d, _) => Some (_fix d)
  | None => None
  end.

(** [Decimal(10) ** n] for an [int] [n]: the exact power, written with
    at most [prec] zeros after the 1 when [n] is not negative. *)
Definition pow10 (n : Z) : Decimal :=
  if 0 <=? n then
    let zeros := Z.min n prec in
    _fix (mkDec (10 ^ zeros) (n - zeros))
  else mkDec 1 n.

(** [int(d)]: truncation towards zero. *)
Definition to_int (d : Decimal) : Z :=
  if 0 <=? exp d then coeff d * 10 ^ exp d
  else Z.quot (coeff d) (10 ^ (- exp d)).

(** [getcontext().Emax] *)
Definition Emax : Z := 999999.

(** [Decimal.adjusted]: the exponent of the first digit. *)
Definition adjusted (d : Decimal) : Z := exp d + ndigits (coeff d) - 1.

(** The trap [Overflow] of the default context, on a result [d] that
    [_fix] has rounded: a result that is not zero and whose adjusted
    exponent exceeds [Emax] raises. *)
Definition overflows (d : Decimal) : bool :=
  negb (coeff d =? 0) && (Emax <? adjusted d).

End PyDecimal.

(** ** Python floats

    A finite float is the rational it denotes. *)

Module PyFloat.

(** Rounding to the nearest integer, ties to the even one. *)
Definition round_half_even (x : Q) : Z :=
  let f := Qfloor x in
  match (x - inject_Z f ?= 1 # 2)%Q with
  | Lt => f
  | Gt => f + 1
  | Eq => if Z.even f then f else f + 1
  end.

(** The exponent [e] of a positive [x]: 2^e <= x < 2^(e+1). *)
Definition exponent (x : Q) : Z :=
  let e := Z.log2 (Qnum x) - Z.log2 (Zpos (Qden x)) in
  if Qle_bool (2 ^ e) x then e else e - 1.

(** The binary64 value nearest to a positive [x], ties to the even
    significand: 53 significant bits, and steps of 2^-1074 below
    2^-1022. *)
Definition round_positive (x : Q) : Q :=
  let ulp := Z.max (exponent x - 52) (-1074) in
  (inject_Z (round_half_even (x / 2 ^ ulp)) * 2 ^ ulp)%Q.

Definition round (x : Q) : Q :=
  if Qeq_bool x 0 then 0%Q
  else if Qlt_bool x 0 then (- round_positive (- x))%Q
  else round_positive x.


(** [a / b] for two ints or for two floats, [b] not zero: the exact
    quotient rounded once.  The result is the one of Python when the
    quotient is [in_range]; beyond it the division of two ints raises
    [OverflowError]. *)
Definition truediv (a b : Q) : Q := round (a / b).

End PyFloat.

(** Truncation of a rational towards zero. *)
Definition Qtrunc (q : Q) : Z := Z.quot (Qnum q) (Zpos (Qden q)).

(** ** utils/conversion_utils.py

    An amount arrives as a [float] or an [int] and enters the decimal
    arithmetic through [Decimal(str(amount))]; the functions below take
    the [Decimal] so obtained. *)

Module ConversionUtils.
Import PyDecimal.

Definition convert_amount_to_smallest_unit (amount : Decimal) (decimals : Z) : Z :=
  to_int (mul amount (pow10 decimals)).

(** [None] stands for an exception of the decimal division. *)
Definition calculate_amount_out_min (amount_in : Decimal) (price : Decimal)
  (decimals_out : Z) (slippage_bps : Z) : option Z :=
  let expected_out := mul amount_in price in
  match div (of_Z slippage_bps) (of_Z 10000) with
  | None => None
  | Some quotient =>
      let slippage_multiplier := sub (of_Z 1) quotient in
      let amount_out_min := mul expected_out slippage_multiplier in
      Some (to_int (mul amount_out_min (pow10 decimals_out)))
  end.


(** [convert_amount_to_smallest_unit] raises [Overflow]: the power of
    ten or the product is above the exponent range. *)
Definition convert_amount_overflows (amount : Decimal) (decimals : Z) : bool :=
  overflows (pow10 decimals) || overflows (mul amount (pow10 decimals)).

(** [calculate_amount_out_min] raises [Overflow]: one of its results is
    above the exponent range. *)
Definition amount_out_min_overflows (amount_in : Decimal) (price : Decimal)
  (decimals_out : Z) (slippage_bps : Z) : bool :=
  let expected_out := mul amount_in price in
  overflows expected_out
  || match div (of_Z slippage_bps) (of_Z 10000) with
     | None => false
     | Some quotient =>
         let slippage_multiplier := sub (of_Z 1) quotient in
         let amount_out_min := mul expected_out slippage_multiplier in
         overflows quotient
         || overflows slippage_multiplier
         || overflows amount_out_min
         || overflows (pow10 decimals_out)
         || overflows (mul amount_out_min (pow10 decimals_out))
     end.


End ConversionUtils.


(** ** Effects: exceptions, the chain client and the broadcast log *)

(** The outcome of a Python call: a value, or an exception of class
    [Exception]. *)
Inductive Res (A : Type) : Type :=
| Ok (a : A)
| Raise.

Arguments Ok {A} a.
Arguments Raise {A}.

(** A call on a contract, as the executors build it. *)
Inductive ContractCall : Type :=
| swapExactETHForTokens (amountOutMin : Z) (path : list string) (to : string) (deadline : Z)
| swapExactTokensForETH (amountIn amountOutMin : Z) (path : list string) (to : string) (deadline : Z)
| swapExactTokensForTokens (amountIn amountOutMin : Z) (path : list string) (to : string) (deadline : Z)
| exactInputSingle (tokenIn tokenOut : string) (fee : Z) (recipient : string)
    (deadline amountIn amountOutMinimum sqrtPriceLimitX96 : Z)
| approve (spender : string) (amount : Z).

(** The dict given to [build_transaction], with the contract called. *)
Record Transaction : Type := mkTransaction {
  tx_contract : string;
  tx_call : ContractCall;
  tx_from : string;
  tx_value : option Z;
  tx_gas : Z;
  tx_gasPrice : Z;
  tx_nonce : Z
}.

Module Receipt.
Record t : Type := mk {
  status : Z;
  blockNumber : Z;
  gasUsed : Z;
  effectiveGasPrice : Z
}.
End Receipt.

(** The state the program runs in: the state of the chain client (node,
    clock) and, as a ghost, every transaction handed to
    [send_raw_transaction] so far. *)
Record Env (W : Type) : Type := mkEnv {
  chain : W;
  broadcasts : list Transaction
}.

Arguments mkEnv {W} chain broadcasts.
Arguments chain {W} e.
Arguments broadcasts {W} e.

(** A computation that reads and changes the environment and returns or
    raises. *)
Definition M (W A : Type) : Type := Env W -> Res A * Env W.

Definition ret {W A : Type} (a : A) : M W A := fun s => (Ok a, s).

Definition bind {W A B : Type} (m : M W A) (k : A -> M W B) : M W B :=
  fun s =>
    match m s with
    | (Ok a, s') => k a s'
    | (Raise, s') => (Raise, s')
    end.

(** [try: m except Exception: handler] *)
Definition try_except {W A : Type} (m handler : M W A) : M W A :=
  fun s =>
    match m s with
    | (Ok a, s') => (Ok a, s')
    | (Raise, s') => handler s'
    end.

(** A pure library call that may raise. *)
Definition lift_res {W A : Type} (r : Res A) : M W A := fun s => (r, s).

(** A call of the chain client. *)
Definition call {W A : Type} (f : W -> Res A * W) : M W A :=
  fun s => let (r, c) := f (chain s) in (r, mkEnv c (broadcasts s)).

Notation "x <- m ;; k" := (bind m (fun x => k))
  (at level 61, m at next level, right associativity).

(** The chain client ([web3]) and the clock, as the program calls them.
    A block identifier [None] is the latest block. *)
Record ChainClient (W : Type) : Type := mkChainClient {
  eth_gas_price : W -> Res Z * W;
  eth_get_balance : string -> option Z -> W -> Res Z * W;
  eth_block_number : W -> Res Z * W;
  eth_get_transaction_count : string -> W -> Res Z * W;
  erc20_balanceOf : string -> string -> option Z -> W -> Res Z * W;
  erc20_allowance : string -> string -> string -> W -> Res Z * W;
  build_transaction : Transaction -> W -> Res Transaction * W;
  sign_transaction : Transaction -> W -> Res Transaction * W;
  eth_send_raw_transaction : Transaction -> W -> Res string * W;
  eth_wait_for_transaction_receipt : string -> W -> Res Receipt.t * W;
  time_time : W -> Q * W
}.

Arguments eth_gas_price {W} c.
Arguments eth_get_balance {W} c.
Arguments eth_block_number {W} c.
Arguments eth_get_transaction_count {W} c.
Arguments erc20_balanceOf {W} c.
Arguments erc20_allowance {W} c.
Arguments build_transaction {W} c.
Arguments sign_transaction {W} c.
Arguments eth_send_raw_transaction {W} c.
Arguments eth_wait_for_transaction_receipt {W} c.
Arguments time_time {W} c.

(** Library functions the program relies on, outside the repository. *)
Record PyLib : Type := mkPyLib {
  (** [eth_utils.to_checksum_address]; raises on a malformed address *)
  to_checksum_address : string -> Res string;
  (** [w3.to_wei(x, 'gwei')]; raises when the result is not between 0
      and 2^256 - 1 *)
  to_wei_gwei : Q -> Res Z;
  (** [a / b] on numbers, rounded to a float *)
  truediv : Q -> Q -> Q;
  (** [a * b] on floats, rounded to a float *)
  fmul : Q -> Q -> Q;
  (** [a - b] on floats, rounded to a float *)
  fsub : Q -> Q -> Q;
  (** [int(s, 16) if s.startswith('0x') else int(s)] *)
  int_of_str : string -> option Z;
  (** [Decimal(str(x))] for a number [x] *)
  decimal_of_number : Q -> PyDecimal.Decimal;
  (** [float(d)] for a [Decimal] [d] *)
  float_of_decimal : PyDecimal.Decimal -> Q;
  (** [w3.from_wei(n, 'ether')], which a log line formats; raises when
      [n] is not between 0 and 2^256 - 1 *)
  from_wei_ether : Z -> Res Q;
  (** [Decimal(s)] for a string [s]; raises when [s] is not a number.
      A string that reads as a NaN or an infinity raises here too: the
      arithmetic and the [int()] that follow it in [execute_trade] raise
      on such a value, with nothing done in between. *)
  decimal_of_str : string -> Res PyDecimal.Decimal
}.

(** ** Strings *)

(** [str.lower] on ASCII letters.  No character outside ASCII lower-cases
    to a "v", a "2" or a "3", so the substring tests of the router see
    the same on the string Python computes. *)
Definition lower_ascii (c : ascii) : ascii :=
  let n := nat_of_ascii c in
  if ((65 <=? n) && (n <=? 90))%nat then ascii_of_nat (n + 32) else c.

Fixpoint lower (s : string) : string :=
  match s with
  | EmptyString => EmptyString
  | String c s' => String (lower_ascii c) (lower s')
  end.

(** [needle in haystack] *)
Fixpoint contains (needle haystack : string) : bool :=
  String.prefix needle haystack
  || match haystack with
     | EmptyString => false
     | String _ rest => contains needle rest
     end.

(** [s.startswith(p)] *)
Definition startswith (p s : string) : bool := String.prefix p s.

(** ** utils/gas_utils.py *)

(** [wei / 1e9] in a log line, for an [int] [wei]: the conversion of
    the int to a float raises [OverflowError] when its magnitude reaches
    2^1024 - 2^970, the first int that rounds beyond the largest
    float. *)
Definition log_gwei (wei : Z) : Res unit :=
  if 2 ^ 1024 - 2 ^ 970 <=? Z.abs wei then Raise else Ok tt.

Module GasManager.
Record t : Type := mk {
  gas_price_gwei : option Q;
  max_gas_price_gwei : Q
}.
End GasManager.

Section GasUtils.

Variable W : Type.
Variable lib : PyLib.
Variable client : ChainClient W.

(** [if self.gas_price_gwei:], the truth value of the configured price:
    [None] and 0 are both false. *)
Definition fixed_gas_price (gm : GasManager.t) : option Q :=
  match GasManager.gas_price_gwei gm with
  | Some g => if Qeq_bool g 0 then None else Some g
  | None => None
  end.

(** The conversions [w3.to_wei] of the first two tiers stand outside
    the [try] block; the ones of the third tier are inside it and in its
    handler.  Every tier logs the price it found through [log_gwei]. *)
Definition get_gas_price (gm : GasManager.t) (stream_gas_price_wei : option Z)
  : M W Z :=
  match stream_gas_price_wei with
  | Some stream_gas_price =>
      (* Priority 1: gas price from the stream *)
      max_gas_price <- lift_res (to_wei_gwei lib (GasManager.max_gas_price_gwei gm)) ;;
      if stream_gas_price >? max_gas_price then
        line <- lift_res (log_gwei stream_gas_price) ;;
        ret max_gas_price
      else
        line <- lift_res (log_gwei stream_gas_price) ;;
        ret stream_gas_price
  | None =>
      match fixed_gas_price gm with
      | Some g =>
          (* Priority 2: fixed gas price *)
          fixed_gas_wei <- lift_res (to_wei_gwei lib g) ;;
          line <- lift_res (log_gwei fixed_gas_wei) ;;
          ret fixed_gas_wei
      | None =>
          (* Priority 3: the network *)
          try_except
            (gas_price <- call (eth_gas_price client) ;;
             max_gas_price <-
               lift_res (to_wei_gwei lib (GasManager.max_gas_price_gwei gm)) ;;
             if gas_price >? max_gas_price then
               line <- lift_res (log_gwei gas_price) ;;
               ret max_gas_price
             else
               line <- lift_res (log_gwei gas_price) ;;
               ret gas_price)
            (fallback_gas <- lift_res (to_wei_gwei lib 30) ;;
             ret fallback_gas)
      end
  end.

End GasUtils.

Definition extract_gas_from_stream (pool_event : PoolEvent) : option Z :=
  match TransactionGasPrice pool_event with
  | Some gas_price => Some gas_price
  | None => HeaderBaseFee pool_event
  end.


(** ** utils/token_utils.py, utils/balance_utils.py *)

Definition WETH_ADDRESS : string := "0xC02aaA39b223FE8D0A0e5C4F27eAD9083C756Cc2".

Section Executors.

Variable W : Type.
Variable lib : PyLib.
Variable client : ChainClient W.

(** [time.time()] *)
Definition now : M W Q :=
  fun s => let (t, c) := time_time client (chain s) in (Ok t, mkEnv c (broadcasts s)).

(** [w3.eth.send_raw_transaction], recording what is handed over. *)
Definition send_raw_transaction (signed : Transaction) : M W string :=
  fun s =>
    let (r, c) := eth_send_raw_transaction client signed (chain s) in
    (r, mkEnv c (broadcasts s ++ [signed])).

Definition get_token_address (currency_info : CurrencyInfo) : option string :=
  match SmartContract currency_info with
  | None => None
  | Some address =>
      if String.eqb address "" || String.eqb address "0x" then None
      else if startswith "0x" address then
        match to_checksum_address lib address with
        | Ok a => Some a
        | Raise => None
        end
      else None
  end.

(** [token_info] is [None] for the empty dict [{}]. *)
Definition get_token_balance (token_info : option CurrencyInfo) (address : string)
  : M W (option Q) :=
  try_except
    (match token_info with
     | None => ret None
     | Some info =>
         match get_token_address info with
         | None => ret None
         | Some token_address =>
             if String.eqb token_address "" then ret None
             else
               let decimals := Decimals info in
               balance_wei <- call (erc20_balanceOf client token_address address None) ;;
               match PyDecimal.div (PyDecimal.of_Z balance_wei) (PyDecimal.pow10 decimals) with
               | Some d => ret (Some (float_of_decimal lib d))
               | None => lift_res Raise
               end
         end
     end)
    (ret None).

Definition check_eth_balance (amount_in : Z) (address : string)
  (gas_manager : GasManager.t) (stream_gas_price_wei : option Z) : M W bool :=
  gas_price <- get_gas_price W lib client gas_manager stream_gas_price_wei ;;
  balance_wei <- call (eth_get_balance client address None) ;;
  let estimated_gas_cost := gas_price * 300000 in
  let total_needed := amount_in + estimated_gas_cost in
  if balance_wei <? total_needed then
    (* the warning formats both amounts in ether *)
    need <- lift_res (from_wei_ether lib total_needed) ;;
    have <- lift_res (from_wei_ether lib balance_wei) ;;
    ret false
  else ret true.

Definition check_and_approve_token (token_address router_address : string)
  (amount : Z) (address : string) (gas_manager : GasManager.t)
  (stream_gas_price_wei : option Z) : M W bool :=
  token <- lift_res (to_checksum_address lib token_address) ;;
  (* the balance check, in its own try block *)
  insufficient <-
    try_except
      (token_balance <- call (erc20_balanceOf client token address None) ;;
       ret (token_balance <? amount))
      (ret true) ;;
  if insufficient then ret false
  else
    gas_price <- get_gas_price W lib client gas_manager stream_gas_price_wei ;;
    balance_wei <- call (eth_get_balance client address None) ;;
    let estimated_gas_cost := gas_price * 300000 in
    if balance_wei <? estimated_gas_cost then
      (* the warning formats both amounts in ether *)
      need <- lift_res (from_wei_ether lib estimated_gas_cost) ;;
      have <- lift_res (from_wei_ether lib balance_wei) ;;
      ret false
    else
      allowance <- call (erc20_allowance client token address router_address) ;;
      if allowance <? amount then
        nonce <- call (eth_get_transaction_count client address) ;;
        approve_txn <- call (build_transaction client
          (mkTransaction token (approve router_address (2 ^ 256 - 1))
             address None 150000 gas_price nonce)) ;;
        signed_approve <- call (sign_transaction client approve_txn) ;;
        approve_tx_hash <- send_raw_transaction signed_approve ;;
        receipt <- call (eth_wait_for_transaction_receipt client approve_tx_hash) ;;
        if negb (Receipt.status receipt =? 1) then ret false
        else ret true
      else ret true.

(** ** utils/transaction_utils.py *)

(** The amount received according to the balances: the balance of the
    output asset at the block of the receipt minus the balance one block
    before, the gas cost added back when the output is the native asset,
    converted to human units. *)
Definition balance_delta_amount (receipt : Receipt.t) (token_out_address : string)
  (decimals_out : Z) (address : string) : M W Q :=
  let is_eth_out := String.eqb (lower token_out_address) (lower WETH_ADDRESS) in
  actual_amount_out_wei <-
    (if is_eth_out then
       balance_after <- call (eth_get_balance client address
                                (Some (Receipt.blockNumber receipt))) ;;
       balance_before <- call (eth_get_balance client address
                                 (Some (Receipt.blockNumber receipt - 1))) ;;
       let gas_cost := Receipt.gasUsed receipt * Receipt.effectiveGasPrice receipt in
       ret (balance_after - balance_before + gas_cost)
     else
       token <- lift_res (to_checksum_address lib token_out_address) ;;
       balance_after <- call (erc20_balanceOf client token address
                                (Some (Receipt.blockNumber receipt))) ;;
       let block_before := Receipt.blockNumber receipt - 1 in
       balance_before <- call (erc20_balanceOf client token address
                                 (Some block_before)) ;;
       ret (balance_after - balance_before)) ;;
  match PyDecimal.div (PyDecimal.of_Z actual_amount_out_wei)
          (PyDecimal.pow10 decimals_out) with
  | Some d => ret (float_of_decimal lib d)
  | None => lift_res Raise
  end.

(** [float(expected_out) * 0.5] halves a float exactly. *)
Definition calculate_actual_amount_out (receipt : Receipt.t)
  (token_out_address : string) (decimals_out : Z) (address : string)
  (expected_out : Q) : M W Q :=
  try_except
    (actual_amount_out <-
       balance_delta_amount receipt token_out_address decimals_out address ;;
     if Qle_bool actual_amount_out 0 then ret expected_out
     else if Qlt_bool actual_amount_out (expected_out * (1 # 2)) then ret expected_out
     else ret actual_amount_out)
    (ret expected_out).

(** ** uniswap/uniswap_v2.py, uniswap/uniswap_v3.py *)

Definition UNISWAP_V2_ROUTER : string := "0x7a250d5630B4cF539739dF2C5dAcb4c659F2488D".
Definition UNISWAP_V3_ROUTER : string := "0xE592427A0AEce92De3Edee1F18E0157C05861564".

(** [int(time.time()) + 1200] when no deadline is given. *)
Definition default_deadline (deadline : option Z) : M W Z :=
  match deadline with
  | Some d => ret d
  | None => t <- now ;; ret (Qfloor t + 1200)
  end.

Inductive V2Function : Type :=
| FnSwapExactETHForTokens
| FnSwapExactTokensForETH
| FnSwapExactTokensForTokens.

(** [UniswapV2Swapper.execute_swap]; [address] and [gas_manager] are the
    fields of [self]. *)
Definition uniswap_v2_execute_swap (address : string) (gas_manager : GasManager.t)
  (token_in_address token_out_address : string) (amount_in amount_out_min : Z)
  (deadline : option Z) (stream_gas_price_wei : option Z) : M W (option string) :=
  deadline <- default_deadline deadline ;;
  path_in <- lift_res (to_checksum_address lib token_in_address) ;;
  path_out <- lift_res (to_checksum_address lib token_out_address) ;;
  let path := [path_in; path_out] in
  let is_eth_in := String.eqb (lower token_in_address) (lower WETH_ADDRESS) in
  let is_eth_out := String.eqb (lower token_out_address) (lower WETH_ADDRESS) in
  let function_name :=
    if is_eth_in then FnSwapExactETHForTokens
    else if is_eth_out then FnSwapExactTokensForETH
    else FnSwapExactTokensForTokens in
  try_except
    (gas_price <- get_gas_price W lib client gas_manager stream_gas_price_wei ;;
     ok <- match function_name with
           | FnSwapExactETHForTokens =>
               check_eth_balance amount_in address gas_manager stream_gas_price_wei
           | _ =>
               check_and_approve_token token_in_address UNISWAP_V2_ROUTER amount_in
                 address gas_manager stream_gas_price_wei
           end ;;
     if negb ok then ret None
     else
       nonce <- call (eth_get_transaction_count client address) ;;
       transaction <- call (build_transaction client
         match function_name with
         | FnSwapExactETHForTokens =>
             mkTransaction UNISWAP_V2_ROUTER
               (swapExactETHForTokens amount_out_min path address deadline)
               address (Some amount_in) 300000 gas_price nonce
         | FnSwapExactTokensForETH =>
             mkTransaction UNISWAP_V2_ROUTER
               (swapExactTokensForETH amount_in amount_out_min path address deadline)
               address None 300000 gas_price nonce
         | FnSwapExactTokensForTokens =>
             mkTransaction UNISWAP_V2_ROUTER
               (swapExactTokensForTokens amount_in amount_out_min path address deadline)
               address None 300000 gas_price nonce
         end) ;;
       signed_txn <- call (sign_transaction client transaction) ;;
       tx_hash <- send_raw_transaction signed_txn ;;
       ret (Some tx_hash))
    (ret None).

(** [UniswapV3Swapper.execute_swap] *)
Definition uniswap_v3_execute_swap (address : string) (gas_manager : GasManager.t)
  (token_in_address token_out_address : string) (amount_in amount_out_min : Z)
  (fee : Z) (deadline : option Z) (stream_gas_price_wei : option Z)
  : M W (option string) :=
  deadline <- default_deadline deadline ;;
  try_except
    (gas_price <- get_gas_price W lib client gas_manager stream_gas_price_wei ;;
     let is_eth_in := String.eqb (lower token_in_address) (lower WETH_ADDRESS) in
     ok <- (if is_eth_in
            then check_eth_balance amount_in address gas_manager stream_gas_price_wei
            else check_and_approve_token token_in_address UNISWAP_V3_ROUTER amount_in
                   address gas_manager stream_gas_price_wei) ;;
     if negb ok then ret None
     else
       nonce <- call (eth_get_transaction_count client address) ;;
       token_in <- lift_res (to_checksum_address lib token_in_address) ;;
       token_out <- lift_res (to_checksum_address lib token_out_address) ;;
       transaction <- call (build_transaction client
         (mkTransaction UNISWAP_V3_ROUTER
            (exactInputSingle token_in token_out fee address deadline
               amount_in amount_out_min 0)
            address (Some (if is_eth_in then amount_in else 0))
            300000 gas_price nonce)) ;;
       signed_txn <- call (sign_transaction client transaction) ;;
       tx_hash <- send_raw_transaction signed_txn ;;
       ret (Some tx_hash))
    (ret None).

End Executors.


(** ** trader.py *)

Module TradeResult.

Inductive Status : Type := confirmed | failed | pending.

(** The dict [execute_trade] returns; a key that a failed or pending
    result does not carry is [None]. *)
Record t : Type := mk {
  tx_hash : string;
  status : Status;
  block_number : option Z;
  direction : option Direction;
  amount_in : option Q;
  amount_out : option Q;
  price : option Q;
  currency_a : option string;
  currency_b : option string;
  pool_id : option string;
  protocol : option string;
  slippage_bps : option Z
}.

Definition bare (tx_hash : string) (status : Status) : t :=
  mk tx_hash status None None None None None None None None None None.

End TradeResult.

Module DEXTrader.
Record t : Type := mk {
  address : string;
  gas_manager : GasManager.t;
  default_slippage_bps : Z
}.
End DEXTrader.

(** Which executor a protocol name selects. *)
Inductive Route : Type := RouteV2 | RouteV3 | Unsupported.

(** Lines 261-282 of [execute_trade], on the lower-cased protocol name. *)
Definition route (protocol : string) : Route :=
  if contains "uniswap_v2" protocol || contains "v2" protocol then RouteV2
  else if contains "uniswap_v3" protocol || contains "v3" protocol then RouteV3
  else Unsupported.

(** What [execute_trade] has computed when it reaches the routing. *)
Record TradeInputs : Type := mkTradeInputs {
  token_in_info : CurrencyInfo;
  token_out_info : CurrencyInfo;
  token_in_address : string;
  token_out_address : string;
  decimals_out : Z;
  amount_in_smallest : Z;
  amount_out_min_smallest : Z;
  trade_price : PyDecimal.Decimal;
  expected_out : PyDecimal.Decimal;
  stream_gas_price_wei : option Z
}.

Section Trader.

Variable W : Type.
Variable lib : PyLib.
Variable client : ChainClient W.

Definition execute_swap_uniswap_v2 (self : DEXTrader.t)
  (token_in_address token_out_address : string) (amount_in amount_out_min : Z)
  (deadline : option Z) (stream_gas_price_wei : option Z) : M W (option string) :=
  uniswap_v2_execute_swap W lib client
    (DEXTrader.address self) (DEXTrader.gas_manager self)
    token_in_address token_out_address amount_in amount_out_min
    deadline stream_gas_price_wei.

Definition execute_swap_uniswap_v3 (self : DEXTrader.t)
  (token_in_address token_out_address : string) (amount_in amount_out_min : Z)
  (fee : Z) (deadline : option Z) (stream_gas_price_wei : option Z)
  : M W (option string) :=
  uniswap_v3_execute_swap W lib client
    (DEXTrader.address self) (DEXTrader.gas_manager self)
    token_in_address token_out_address amount_in amount_out_min
    fee deadline stream_gas_price_wei.

(** [Decimal(str(price_entry.get('Price', 0)))].  A NaN or an infinity
    becomes a [Decimal] without an error, and lines 247-250 raise on it
    in every case ([InvalidOperation] of a product with zero, or the
    [int()] that ends [calculate_amount_out_min]), with nothing done in
    between: the exception is placed here. *)
Definition price_of_entry (price_entry : PriceEntry) : Res PyDecimal.Decimal :=
  match Price price_entry with
  | PriceMissing => Ok (PyDecimal.of_Z 0)
  | PriceNumber price => Ok (decimal_of_number lib price)
  | PriceNotFinite => Raise
  | PriceString price => decimal_of_str lib price
  end.

(** Lines 191-253 of [execute_trade]: validation and amounts.
    [Ok None] is the early [return None]; [Raise] is an exception of
    the decimal arithmetic of lines 235 and 246-250, which stand outside
    any [try] block. *)
Definition prepare_trade (pool_event : PoolEvent) (direction : Direction)
  (amount_in : Q) (slippage_bps : Z) : Res (option TradeInputs) :=
  match Pool pool_event with
  | None => Ok None
  | Some pool =>
      match CurrencyA pool, CurrencyB pool with
      | Some currency_a, Some currency_b =>
          let (token_in_info, token_out_info) :=
            match direction with
            | AtoB => (currency_a, currency_b)
            | BtoA => (currency_b, currency_a)
            end in
          let token_in_address := get_token_address lib token_in_info in
          let token_out_address := get_token_address lib token_out_info in
          match token_in_address, token_out_address with
          | Some token_in_address, Some token_out_address =>
              if String.eqb token_in_address "" || String.eqb token_out_address ""
              then Ok None
              else
                let decimals_in := Decimals token_in_info in
                let decimals_out := Decimals token_out_info in
                if ConversionUtils.convert_amount_overflows
                     (decimal_of_number lib amount_in) decimals_in
                then Raise
                else
                  let amount_in_smallest :=
                    ConversionUtils.convert_amount_to_smallest_unit
                      (decimal_of_number lib amount_in) decimals_in in
                  let price_entry :=
                    match PoolPriceTable pool_event with
                    | Some pool_price_table =>
                        PriceUtils.get_price_for_slippage pool_price_table direction
                          slippage_bps
                    | None => None
                    end in
                  match price_entry with
                  | None => Ok None
                  | Some price_entry =>
                      match price_of_entry price_entry with
                      | Raise => Raise
                      | Ok price =>
                          if ConversionUtils.amount_out_min_overflows
                               (decimal_of_number lib amount_in) price decimals_out
                               slippage_bps
                          then Raise
                          else
                            let expected_out :=
                              PyDecimal.mul (decimal_of_number lib amount_in) price in
                            match ConversionUtils.calculate_amount_out_min
                                    (decimal_of_number lib amount_in) price
                                    decimals_out slippage_bps with
                            | None => Raise
                            | Some amount_out_min_smallest =>
                                Ok (Some (mkTradeInputs token_in_info token_out_info
                                            token_in_address token_out_address
                                            decimals_out amount_in_smallest
                                            amount_out_min_smallest price expected_out
                                            (extract_gas_from_stream pool_event)))
                            end
                      end
                  end
          | _, _ => Ok None
          end
      | _, _ => Ok None
      end
  end.

(** Lines 284-321 of [execute_trade]: the wait for the receipt and the
    result dict. *)
Definition confirm_trade (self : DEXTrader.t) (pool_event : PoolEvent)
  (direction : Direction) (amount_in : Q) (slippage_bps : Z)
  (inputs : TradeInputs) (tx_hash : option string)
  : M W (option TradeResult.t) :=
  match tx_hash with
  | None => ret None
  | Some tx_hash =>
      if String.eqb tx_hash "" then ret None
      else
        try_except
          (receipt <- call (eth_wait_for_transaction_receipt client tx_hash) ;;
           if Receipt.status receipt =? 1 then
             actual_amount_out <-
               calculate_actual_amount_out W lib client receipt
                 (token_out_address inputs) (decimals_out inputs)
                 (DEXTrader.address self)
                 (float_of_decimal lib (expected_out inputs)) ;;
             ret (Some (TradeResult.mk tx_hash TradeResult.confirmed
                          (Some (Receipt.blockNumber receipt))
                          (Some direction)
                          (Some amount_in)
                          (Some actual_amount_out)
                          (Some (float_of_decimal lib (trade_price inputs)))
                          (Some (Symbol (token_in_info inputs)))
                          (Some (Symbol (token_out_info inputs)))
                          (match Pool pool_event with
                           | Some pool => Some (PoolId pool)
                           | None => None
                           end)
                          (Some (ProtocolName pool_event))
                          (Some slippage_bps)))
           else ret (Some (TradeResult.bare tx_hash TradeResult.failed)))
          (ret (Some (TradeResult.bare tx_hash TradeResult.pending)))
  end.

Definition execute_trade (self : DEXTrader.t) (pool_event : PoolEvent)
  (direction : Direction) (amount_in : Q) (slippage_bps : option Z)
  : M W (option TradeResult.t) :=
  let slippage_bps :=
    match slippage_bps with
    | Some s => s
    | None => DEXTrader.default_slippage_bps self
    end in
  prepared <- lift_res (prepare_trade pool_event direction amount_in slippage_bps) ;;
  match prepared with
  | None => ret None
  | Some inputs =>
      let protocol := lower (ProtocolName pool_event) in
      let fee := 3000 in
      match route protocol with
      | RouteV2 =>
          tx_hash <- execute_swap_uniswap_v2 self
            (token_in_address inputs) (token_out_address inputs)
            (amount_in_smallest inputs) (amount_out_min_smallest inputs)
            None (stream_gas_price_wei inputs) ;;
          confirm_trade self pool_event direction amount_in slippage_bps inputs tx_hash
      | RouteV3 =>
          tx_hash <- execute_swap_uniswap_v3 self
            (token_in_address inputs) (token_out_address inputs)
            (amount_in_smallest inputs) (amount_out_min_smallest inputs)
            fee None (stream_gas_price_wei inputs) ;;
          confirm_trade self pool_event direction amount_in slippage_bps inputs tx_hash
      | Unsupported => ret None
      end
  end.

End Trader.


(** ** trade.py *)

Module Position.

Inductive Status : Type := open | closed | close_failed | close_error.

Definition Status_eqb (a b : Status) : bool :=
  match a, b with
  | open, open | closed, closed
  | close_failed, close_failed | close_error, close_error => true
  | _, _ => false
  end.

Record t : Type := mk {
  open_block : Z;
  direction : Direction;
  opposite_direction : Direction;
  pool_event : PoolEvent;
  amount_out : Q;
  pool_id : string;
  currency_a : string;
  currency_b : string;
  slippage_bps : Z;
  status : Status;
  close_tx : option string;
  close_block : option Z
}.

(** [p.get('status') == 'open'] *)
Definition is_open (p : t) : bool := Status_eqb (status p) open.

(** [position['status'] = s] *)
Definition set_status (p : t) (s : Status) : t :=
  mk (open_block p) (direction p) (opposite_direction p) (pool_event p)
     (amount_out p) (pool_id p) (currency_a p) (currency_b p) (slippage_bps p)
     s (close_tx p) (close_block p).

(** The three assignments of a confirmed close. *)
Definition set_closed (p : t) (tx : string) (block : option Z) : t :=
  mk (open_block p) (direction p) (opposite_direction p) (pool_event p)
     (amount_out p) (pool_id p) (currency_a p) (currency_b p) (slippage_bps p)
     closed (Some tx) block.

End Position.

Module TradingStrategy.

Record t : Type := mk {
  trader : DEXTrader.t;
  trade_amount : Q;
  slippage_bps : Z;
  trade_direction : option Direction;
  enabled : bool;
  last_trade_time : Q;
  min_trade_interval : Q;
  total_trades : Z;
  successful_trades : Z;
  failed_trades : Z;
  close_blocks : Z;
  open_positions : list Position.t
}.

(** [TradingStrategy.__init__] *)
Definition init (trader : DEXTrader.t) (trade_amount : Q) (slippage_bps : Z)
  (trade_direction : option Direction) (enabled : bool) (close_blocks : Z) : t :=
  mk trader trade_amount slippage_bps trade_direction enabled 0 5 0 0 0
     close_blocks [].

Definition set_open_positions (s : t) (l : list Position.t) : t :=
  mk (trader s) (trade_amount s) (slippage_bps s) (trade_direction s) (enabled s)
     (last_trade_time s) (min_trade_interval s) (total_trades s)
     (successful_trades s) (failed_trades s) (close_blocks s) l.

(** [self.total_trades += 1; self.last_trade_time = time.time()] *)
Definition count_attempt (s : t) (time : Q) : t :=
  mk (trader s) (trade_amount s) (slippage_bps s) (trade_direction s) (enabled s)
     time (min_trade_interval s) (total_trades s + 1)
     (successful_trades s) (failed_trades s) (close_blocks s) (open_positions s).

Definition count_success (s : t) : t :=
  mk (trader s) (trade_amount s) (slippage_bps s) (trade_direction s) (enabled s)
     (last_trade_time s) (min_trade_interval s) (total_trades s)
     (successful_trades s + 1) (failed_trades s) (close_blocks s) (open_positions s).

Definition count_failure (s : t) : t :=
  mk (trader s) (trade_amount s) (slippage_bps s) (trade_direction s) (enabled s)
     (last_trade_time s) (min_trade_interval s) (total_trades s)
     (successful_trades s) (failed_trades s + 1) (close_blocks s) (open_positions s).

End TradingStrategy.

(** The float literal [0.000001]: the double nearest to 10^-6. *)
Definition EPSILON : Q := 4722366482869645 # 4722366482869645213696.

(** [len([p for p in positions if p.get('status') == 'open'])] *)
Definition count_open (positions : list Position.t) : nat :=
  List.length (filter Position.is_open positions).

(** Lines 222-248 of [check_and_close_positions]: the amount to close
    with, from the stored amount and the live balance ([None] when the
    balance could not be read).  [None] is the outcome in which the
    position is marked [close_failed] and the loop continues. *)
Definition resolve_close_amount (stored_amount_out : Q) (actual_balance : option Q)
  : option Q :=
  let final_check (amount_out : Q) :=
    if Qle_bool amount_out 0 then None else Some amount_out in
  if Qle_bool stored_amount_out EPSILON then
    match actual_balance with
    | None => None
    | Some actual => if Qle_bool actual 0 then None else final_check actual
    end
  else
    match actual_balance with
    | None => final_check stored_amount_out
    | Some actual =>
        (* min(stored_amount_out, actual_balance) *)
        final_check (if Qlt_bool actual stored_amount_out then actual
                     else stored_amount_out)
    end.

Section Strategy.

Variable W : Type.
Variable lib : PyLib.
Variable client : ChainClient W.

Definition should_trade (self : TradingStrategy.t) (pool_event : PoolEvent)
  : M W bool :=
  if negb (TradingStrategy.enabled self) then ret false
  else
    let open_positions_count := count_open (TradingStrategy.open_positions self) in
    if (0 <? open_positions_count)%nat then ret false
    else
      current_time <- now W client ;;
      if Qlt_bool (fsub lib current_time (TradingStrategy.last_trade_time self))
           (TradingStrategy.min_trade_interval self)
      then ret false
      else
        match PoolPriceTable pool_event with
        | None => ret false
        | Some _ =>
            match Liquidity pool_event with
            | None => ret false
            | Some liquidity =>
                if negb (truthy (AmountCurrencyA liquidity))
                   || negb (truthy (AmountCurrencyB liquidity))
                then ret false
                else ret true
            end
        end.

Definition opposite (direction : Direction) : Direction :=
  match direction with AtoB => BtoA | BtoA => AtoB end.

(** Lines 141-171 of [execute_strategy]: the position a confirmed result
    opens, if it carries a block number. *)
Definition position_of_result (self : TradingStrategy.t) (pool_event : PoolEvent)
  (direction : Direction) (median_slippage : Z) (result : TradeResult.t)
  : option Position.t :=
  match TradeResult.block_number result with
  | None => None
  | Some block_number =>
      if block_number =? 0 then None
      else
        let opposite_direction := opposite direction in
        let amount_in :=
          match TradeResult.amount_in result with
          | Some a => a
          | None => TradingStrategy.trade_amount self
          end in
        let price :=
          match TradeResult.price result with Some p => p | None => 0%Q end in
        let fallback :=
          if Qlt_bool 0 price then fmul lib amount_in price
          else TradingStrategy.trade_amount self in
        let amount_out :=
          match TradeResult.amount_out result with
          | Some a => if Qle_bool a EPSILON then fallback else a
          | None => fallback
          end in
        Some (Position.mk block_number direction opposite_direction pool_event
                amount_out
                (match TradeResult.pool_id result with Some s => s | None => ""%string end)
                (match TradeResult.currency_a result with Some s => s | None => ""%string end)
                (match TradeResult.currency_b result with Some s => s | None => ""%string end)
                (match TradeResult.slippage_bps result with
                 | Some s => s
                 | None => median_slippage
                 end)
                Position.open None None)
  end.

Definition execute_strategy (self : TradingStrategy.t) (pool_event : PoolEvent)
  : M W (option TradeResult.t * TradingStrategy.t) :=
  ok <- should_trade self pool_event ;;
  if negb ok then ret (None, self)
  else
    let direction :=
      match TradingStrategy.trade_direction self with
      | None =>
          match PriceUtils.get_best_direction_by_liquidity
                  (truediv lib) (int_of_str lib) pool_event None with
          | None => AtoB
          | Some d => d
          end
      | Some d => d
      end in
    let median_slippage :=
      match PoolPriceTable pool_event with
      | Some pool_price_table =>
          match PriceUtils.get_median_slippage_bps pool_price_table direction with
          | Some m => m
          | None => TradingStrategy.slippage_bps self
          end
      | None => TradingStrategy.slippage_bps self
      end in
    result <-
      try_except
        (execute_trade W lib client (TradingStrategy.trader self) pool_event
           direction (TradingStrategy.trade_amount self) (Some median_slippage))
        (ret None) ;;
    time <- now W client ;;
    let self := TradingStrategy.count_attempt self time in
    match result with
    | Some r =>
        match TradeResult.status r with
        | TradeResult.confirmed =>
            let self := TradingStrategy.count_success self in
            match position_of_result self pool_event direction median_slippage r with
            | Some position =>
                ret (result,
                     TradingStrategy.set_open_positions self
                       (TradingStrategy.open_positions self ++ [position]))
            | None => ret (result, self)
            end
        | TradeResult.failed => ret (result, TradingStrategy.count_failure self)
        | TradeResult.pending => ret (result, self)
        end
    | None => ret (result, TradingStrategy.count_failure self)
    end.

(** [blocks_elapsed >= self.close_blocks] for a position still open. *)
Definition is_due (self : TradingStrategy.t) (current_block : Z)
  (position : Position.t) : bool :=
  Position.is_open position
  && (TradingStrategy.close_blocks self <=? current_block - Position.open_block position).

(** The token received by the opening trade, which the close swaps back. *)
Definition token_to_swap (position : Position.t) : option CurrencyInfo :=
  match Pool (Position.pool_event position) with
  | None => None
  | Some pool =>
      match Position.opposite_direction position with
      | BtoA => CurrencyB pool
      | AtoB => CurrencyA pool
      end
  end.

(** The body of the closing loop for one due position. *)
Definition close_position (self : TradingStrategy.t) (position : Position.t)
  : M W Position.t :=
  try_except
    (let pool_event := Position.pool_event position in
     let opposite_direction := Position.opposite_direction position in
     let stored_amount_out := Position.amount_out position in
     let slippage_bps := Position.slippage_bps position in
     actual_balance <-
       get_token_balance W lib client (token_to_swap position)
         (DEXTrader.address (TradingStrategy.trader self)) ;;
     match resolve_close_amount stored_amount_out actual_balance with
     | None => ret (Position.set_status position Position.close_failed)
     | Some amount_out =>
         result <-
           execute_trade W lib client (TradingStrategy.trader self) pool_event
             opposite_direction amount_out (Some slippage_bps) ;;
         match result with
         | Some r =>
             match TradeResult.status r with
             | TradeResult.confirmed =>
                 ret (Position.set_closed position (TradeResult.tx_hash r)
                        (TradeResult.block_number r))
             | TradeResult.failed =>
                 ret (Position.set_status position Position.close_failed)
             | TradeResult.pending => ret position
             end
         | None => ret (Position.set_status position Position.close_failed)
         end
     end)
    (ret (Position.set_status position Position.close_error)).

(** The two loops over the positions: a position is selected when it is
    due on entry, and the selected ones are closed in list order.
    Closing one position changes no other, so the selection can be
    tested as the list is walked. *)
Fixpoint close_due_positions (self : TradingStrategy.t) (current_block : Z)
  (positions : list Position.t) : M W (list Position.t) :=
  match positions with
  | [] => ret []
  | position :: rest =>
      position' <-
        (if is_due self current_block position
         then close_position self position
         else ret position) ;;
      rest' <- close_due_positions self current_block rest ;;
      ret (position' :: rest')
  end.

(** [p.get('status') in ['open', 'close_failed', 'close_error']] *)
Definition kept (p : Position.t) : bool :=
  match Position.status p with
  | Position.closed => false
  | _ => true
  end.

Definition check_and_close_positions (self : TradingStrategy.t) (current_block : Z)
  : M W TradingStrategy.t :=
  if negb (TradingStrategy.enabled self) then ret self
  else
    positions <-
      close_due_positions self current_block (TradingStrategy.open_positions self) ;;
    ret (TradingStrategy.set_open_positions self (filter kept positions)).

End Strategy.

(** ** Specification vocabulary and sample data *)

(** The slippage values a bucket defines, in bucket order. *)
Definition defined_slippages (prices : list PriceEntry) : list Z :=
  flat_map
    (fun e => match SlippageBasisPoints e with Some s => [s] | None => [] end)
    prices.

Definition list_min (x : Z) (l : list Z) : Z := fold_right Z.min x l.
Definition list_max (x : Z) (l : list Z) : Z := fold_right Z.max x l.

(** The lower median of an ascending list of [n] values sits at index
    [(n - 1) / 2]: the smaller of the two middle values when [n] is
    even. *)
Definition lower_median_index (n : nat) : nat := ((n - 1) / 2)%nat.

(** The median statement with the lower median for even counts. *)
Definition median_is_lower_median (price_table : PriceTable) (direction : Direction)
  : Prop :=
  forall prices sorted,
    PriceUtils.bucket price_table direction = Some prices ->
    defined_slippages prices <> [] ->
    Sorted Z.le sorted ->
    Permutation sorted (defined_slippages prices) ->
    exists r,
      PriceUtils.get_median_slippage_bps price_table direction = Some r
      /\ nth_error sorted (List.length sorted / 2) = Some r
      /\ (Nat.even (List.length sorted) = true ->
          nth_error sorted (lower_median_index (List.length sorted)) = Some r).


Module Samples.

Definition entry (slippage : Z) : PriceEntry :=
  mkPriceEntry (Some slippage) (PriceNumber 2) (PyNum 1000).

(** A table whose AtoB bucket defines the slippages 10 and 50. *)
Definition table_10_50 : PriceTable :=
  mkPriceTable (Some [entry 50; entry 10]) None.

(** A table with three levels in each direction. *)
Definition table_3 : PriceTable :=
  mkPriceTable (Some [entry 100; entry 10; entry 50])
               (Some [entry 50; entry 100; entry 10]).

End Samples.

Module SampleEvents.

Definition weth : CurrencyInfo :=
  mkCurrency (Some WETH_ADDRESS) "WETH" 18.

Definition usdc : CurrencyInfo :=
  mkCurrency (Some "0xA0b86991c6218b36c1d19D4a2e9Eb0cE3606eB48"%string) "USDC" 6.

(** An event of a V2 pool with liquidity 1000 and 500 and three price
    levels in each direction. *)
Definition event (protocol : string) : PoolEvent :=
  mkPoolEvent
    (Some (mkPool (Some weth) (Some usdc) "pool-1"))
    (Some (mkLiquidity (PyNum 1000) (PyNum 500)))
    (Some Samples.table_3)
    protocol
    (Some 20000000000)
    None.



End SampleEvents.

Module SampleChain.

(** Wei amounts are between 0 and 2^256 - 1. *)
Definition is_wei (n : Z) : bool := (0 <=? n) && (n <=? 2 ^ 256 - 1).

Fixpoint decimal_digits (acc : Z) (s : string) : option Z :=
  match s with
  | EmptyString => Some acc
  | String c rest =>
      let n := Z.of_nat (nat_of_ascii c) in
      if (48 <=? n) && (n <=? 57) then decimal_digits (acc * 10 + (n - 48)) rest
      else None
  end.

(** [Decimal(s)] for the examples: strings of decimal digits are read,
    every other string raises. *)
Definition decimal_of_digits (s : string) : Res PyDecimal.Decimal :=
  if String.eqb s "" then Raise
  else match decimal_digits 0 s with
       | Some n => Ok (PyDecimal.of_Z n)
       | None => Raise
       end.

(** An instance of the library interface for the examples: addresses of
    42 characters are accepted as they are, and the arithmetic is exact
    in place of the rounding to a float. *)
Definition lib : PyLib :=
  mkPyLib
    (fun s => if (String.length s =? 42)%nat then Ok s else Raise)
    (fun gwei =>
       let wei := Qfloor (gwei * inject_Z (10 ^ 9)) in
       if is_wei wei then Ok wei else Raise)
    Qdiv Qmult Qminus
    (fun _ => None)
    (fun x => PyDecimal.mkDec (Qfloor (x * inject_Z (10 ^ 18))) (-18))
    PyDecimal.value
    (fun n => if is_wei n then Ok (n # 10 ^ 18) else Raise)
    decimal_of_digits.

(** A chain client with fixed answers: the network gas price, the
    balance (of the native asset and of every token) at a block, an
    allowance that always suffices, and the receipt of every
    transaction. *)
Definition client (gas_price : Res Z) (balance : option Z -> Res Z)
  (receipt : Res Receipt.t) : ChainClient unit :=
  mkChainClient unit
    (fun w => (gas_price, w))
    (fun _ block w => (balance block, w))
    (fun w => (Ok 100, w))
    (fun _ w => (Ok 7, w))
    (fun _ _ block w => (balance block, w))
    (fun _ _ _ w => (Ok (2 ^ 256 - 1), w))
    (fun tx w => (Ok tx, w))
    (fun tx w => (Ok tx, w))
    (fun _ w => (Ok "0xabc"%string, w))
    (fun _ w => (receipt, w))
    (fun w => (1000%Q, w)).

(** A node that answers nothing. *)
Definition offline : option Z -> Res Z := fun _ => Raise.

(** Balances that grew by [delta] in block 100. *)
Definition grew_at_100 (delta : Z) : option Z -> Res Z :=
  fun block =>
    match block with
    | Some b => if b <? 100 then Ok (10 ^ 21) else Ok (10 ^ 21 + delta)
    | None => Ok (10 ^ 21 + delta)
    end.

Definition receipt_100 : Receipt.t := Receipt.mk 1 100 120000 20000000000.

Definition start : Env unit := mkEnv tt [].

End SampleChain.


(** The states a strategy goes through: it is created with no position,
    and then [execute_strategy] and [check_and_close_positions] run on
    it, in any order, on any event and block height, in any
    environment. *)
Inductive reachable (W : Type) (lib : PyLib) (client : ChainClient W)
  : TradingStrategy.t -> Prop :=
| reach_init (trader : DEXTrader.t) (trade_amount : Q) (slippage_bps : Z)
    (trade_direction : option Direction) (enabled : bool) (close_blocks : Z) :
    reachable W lib client
      (TradingStrategy.init trader trade_amount slippage_bps trade_direction
         enabled close_blocks)
| reach_execute (self self' : TradingStrategy.t) (pool_event : PoolEvent)
    (result : option TradeResult.t) (s s' : Env W) :
    reachable W lib client self ->
    execute_strategy W lib client self pool_event s = (Ok (result, self'), s') ->
    reachable W lib client self'
| reach_close (self self' : TradingStrategy.t) (current_block : Z) (s s' : Env W) :
    reachable W lib client self ->
    check_and_close_positions W lib client self current_block s = (Ok self', s') ->
    reachable W lib client self'.

Module SampleStrategy.

Definition trader : DEXTrader.t :=
  DEXTrader.mk "0x00000000000000000000000000000000000000aa"
    (GasManager.mk None 200) 50.

(** A strategy as [run_trading] creates it: enabled, dynamic direction,
    closing after 3 blocks. *)
Definition fresh : TradingStrategy.t :=
  TradingStrategy.init trader 1 50 None true 3.

(** A node on which every trade confirms in block 100 and the balances
    grew by 2 * 10^18 in that block. *)
Definition node : ChainClient unit :=
  SampleChain.client (Ok 5000000000) (SampleChain.grew_at_100 (2 * 10 ^ 18))
    (Ok SampleChain.receipt_100).

(** The strategy after one event of a V2 pool on that node. *)
Definition after_trade : TradingStrategy.t :=
  match execute_strategy unit SampleChain.lib node fresh
          (SampleEvents.event "uniswap_v2") SampleChain.start with
  | (Ok (_, self'), _) => self'
  | (Raise, _) => fresh
  end.

(** A position opened at block 100. *)
Definition position_100 (amount_out : Q) : Position.t :=
  Position.mk 100 AtoB BtoA (SampleEvents.event "uniswap_v2") amount_out
    "pool-1" "WETH" "USDC" 50 Position.open None None.

End SampleStrategy.

(** ** Further functions of the source *)

(** [convert_amount_from_smallest_unit] of utils/conversion_utils.py:
    the quotient [Decimal(amount_wei) / (Decimal(10) ** decimals)], and
    then its conversion to a float.  [None] stands for an exception of
    the decimal division. *)
Definition amount_from_smallest_unit_decimal (amount_wei decimals : Z)
  : option PyDecimal.Decimal :=
  PyDecimal.div (PyDecimal.of_Z amount_wei) (PyDecimal.pow10 decimals).

Definition convert_amount_from_smallest_unit (lib : PyLib) (amount_wei decimals : Z)
  : option Q :=
  match amount_from_smallest_unit_decimal amount_wei decimals with
  | Some d => Some (float_of_decimal lib d)
  | None => None
  end.

(** The decimal division of [convert_amount_from_smallest_unit] is
    exact: it leaves no remainder and its quotient needs no rounding. *)
Definition exact_from_smallest_unit (amount_wei decimals : Z) : bool :=
  match PyDecimal.div_raw (PyDecimal.of_Z amount_wei) (PyDecimal.pow10 decimals) with
  | Some (quotient_raw, remainder) =>
      negb remainder && negb (PyDecimal.inexact quotient_raw)
  | None => false
  end.

(** [m] hands at most [n] transactions to the node, whatever it returns
    and wherever it is run. *)
Definition sends_at_most {W A : Type} (n : nat) (m : M W A) : Prop :=
  forall s, exists sent,
    broadcasts (snd (m s)) = broadcasts s ++ sent /\ (List.length sent <= n)%nat.

(** Two records of the same trade: every field but the status and the
    two fields of the close agrees. *)
Definition same_trade (p p' : Position.t) : Prop :=
  Position.open_block p' = Position.open_block p
  /\ Position.direction p' = Position.direction p
  /\ Position.opposite_direction p' = Position.opposite_direction p
  /\ Position.pool_event p' = Position.pool_event p
  /\ Position.amount_out p' = Position.amount_out p
  /\ Position.pool_id p' = Position.pool_id p
  /\ Position.currency_a p' = Position.currency_a p
  /\ Position.currency_b p' = Position.currency_b p
  /\ Position.slippage_bps p' = Position.slippage_bps p.

(** The counters of a strategy agree with each other and with the list
    of positions. *)
Definition counters_consistent (self : TradingStrategy.t) : Prop :=
  0 <= TradingStrategy.successful_trades self
  /\ 0 <= TradingStrategy.failed_trades self
  /\ TradingStrategy.successful_trades self + TradingStrategy.failed_trades self
     <= TradingStrategy.total_trades self
  /\ Z.of_nat (List.length (TradingStrategy.open_positions self))
     <= TradingStrategy.successful_trades self.

(** What one tick of the closing loop may do to a position [p]: the
    record stays the record of the same trade; a position that is not due
    is not touched; a due one is left as it is, or leaves the open state
    as closed (with the closing transaction), failed or in error. *)
Definition close_outcome (self : TradingStrategy.t) (current_block : Z)
  (p p' : Position.t) : Prop :=
  same_trade p p'
  /\ (is_due self current_block p = false -> p' = p)
  /\ (p' = p
      \/ (Position.status p' = Position.closed /\ Position.close_tx p' <> None)
      \/ Position.status p' = Position.close_failed
      \/ Position.status p' = Position.close_error).

(** ** utils/protobuf_utils.py *)

(** A decoded message, as [protobuf_to_dict] builds it: a dict is the
    list of its items in insertion order.  [F] is the type of Python
    floats. *)
#[warnings="-register-all"] Inductive PyData (F : Type) : Type :=
| DNone
| DBool (b : bool)
| DInt (n : Z)
| DFloat (x : F)
| DStr (s : string)
| DDict (items : list (string * PyData F))
| DList (items : list (PyData F)).

Arguments DNone {F}.
Arguments DBool {F} b.
Arguments DInt {F} n.
Arguments DFloat {F} x.
Arguments DStr {F} s.
Arguments DDict {F} items.
Arguments DList {F} items.

Definition numeric_hex_fields : list string :=
  ["Number"; "BaseFee"; "ParentNumber"; "PreBalance"; "PostBalance";
   "MaxAmountIn"; "MaxAmountOut"; "MinAmountOut"; "MinAmountIn";
   "AmountCurrencyA"; "AmountCurrencyB"; "GasPrice"; "GasFeeCap"; "GasTipCap"]%string.

Definition numeric_fields : list string :=
  ["SlippageBasisPoints"; "Price"; "AtoBPrice"; "BtoAPrice"]%string.

(** [key in fields] *)
Definition is_field (key : string) (fields : list string) : bool :=
  existsb (String.eqb key) fields.

Section Decoder.

Variable F : Type.

(** [int(value, 16)], [int(value)] and [float(value)] on a string; [None]
    stands for [ValueError]. *)
Variable int_base16 : string -> option Z.
Variable int_base10 : string -> option Z.
Variable float_of_str : string -> option F.

(** [float(value) if '.' in value else int(value)] *)
Definition parse_decimal (value : string) : option (PyData F) :=
  if contains "." value then
    match float_of_str value with Some x => Some (DFloat x) | None => None end
  else
    match int_base10 value with Some n => Some (DInt n) | None => None end.

(** The conversion of a field of [numeric_hex_fields]. *)
Definition hex_first (value : string) : PyData F :=
  match int_base16 value with
  | Some n => DInt n
  | None =>
      match parse_decimal value with
      | Some v => v
      | None => DStr value
      end
  end.

(** The conversion of a field of [numeric_fields]. *)
Definition decimal_first (value : string) : PyData F :=
  match parse_decimal value with
  | Some v => v
  | None =>
      match int_base16 value with
      | Some n => DInt n
      | None => DStr value
      end
  end.

(** The branches of the loop body for a value that is a string. *)
Definition convert_string (key value : string) : PyData F :=
  if is_field key numeric_hex_fields && negb (String.eqb value "") then
    hex_first value
  else if is_field key numeric_fields && negb (String.eqb value "") then
    decimal_first value
  else DStr value.

(** The body of the loop over the items of a dict; [convert] is the
    recursive call. *)
Definition convert_item (convert : PyData F -> PyData F) (item : string * PyData F)
  : string * PyData F :=
  match item with
  | (key, value) =>
      (key,
       match value with
       | DStr v => convert_string key v
       | DDict _ | DList _ => convert value
       | _ => value
       end)
  end.

Fixpoint convert_hex_to_int (data : PyData F) : PyData F :=
  match data with
  | DDict items => DDict (map (convert_item convert_hex_to_int) items)
  | DList items => DList (map convert_hex_to_int items)
  | _ => data
  end.

End Decoder.

(** A value that is neither a string nor a container. *)
Definition is_plain {F : Type} (v : PyData F) : bool :=
  match v with
  | DNone | DBool _ | DInt _ | DFloat _ => true
  | _ => false
  end.

Module SampleDecoder.

Definition digit_value (c : ascii) : option Z :=
  let n := Z.of_nat (nat_of_ascii c) in
  if (48 <=? n) && (n <=? 57) then Some (n - 48)
  else if (97 <=? n) && (n <=? 102) then Some (n - 87)
  else if (65 <=? n) && (n <=? 70) then Some (n - 55)
  else None.

Fixpoint parse_digits (base acc : Z) (s : string) : option Z :=
  match s with
  | EmptyString => Some acc
  | String c rest =>
      match digit_value c with
      | Some d => if d <? base then parse_digits base (acc * base + d) rest else None
      | None => None
      end
  end.

(** Parsers for the examples: unsigned digit strings only, and no
    float. *)
Definition int_base (base : Z) (s : string) : option Z :=
  if String.eqb s "" then None else parse_digits base 0 s.

Definition no_float (s : string) : option Q := None.

Definition convert : PyData Q -> PyData Q :=
  convert_hex_to_int Q (int_base 16) (int_base 10) no_float.

End SampleDecoder.

(** * Properties *)

(** ** Python values *)

Lemma Qlt_bool_iff (a b : Q) : Qlt_bool a b = true <-> (a < b)%Q.
Proof.
  unfold Qlt_bool. rewrite negb_true_iff. split.
  - intros H. apply Qnot_le_lt. intros Hle.
    apply Qle_bool_iff in Hle. congruence.
  - intros H. destruct (Qle_bool b a) eqn:E; [|reflexivity].
    apply Qle_bool_iff in E. exfalso. exact (Qlt_not_le _ _ H E).
Qed.

Lemma Qle_bool_false_iff (a b : Q) : Qle_bool a b = false <-> ~ (a <= b)%Q.
Proof.
  rewrite <- Qle_bool_iff. destruct (Qle_bool a b); split; intros; congruence.
Qed.

(** ** The slippage and price resolver *)

Section SortFacts.

Import PriceUtils.

Lemma insert_sorted_perm (x : Z) (l : list Z) :
  Permutation (insert_sorted x l) (x :: l).
Proof.
  induction l as [|y l IH]; simpl.
  - apply Permutation_refl.
  - destruct (x <=? y).
    + apply Permutation_refl.
    + eapply perm_trans; [apply perm_skip, IH | apply perm_swap].
Qed.

Lemma py_sort_perm (l : list Z) : Permutation (py_sort l) l.
Proof.
  induction l as [|x l IH]; simpl.
  - apply perm_nil.
  - eapply perm_trans; [apply insert_sorted_perm | apply perm_skip, IH].
Qed.

Lemma insert_sorted_hd (x a : Z) (l : list Z) :
  a <= x -> HdRel Z.le a l -> HdRel Z.le a (insert_sorted x l).
Proof.
  intros Hax Hl. destruct l as [|y l]; simpl.
  - constructor. exact Hax.
  - destruct (x <=? y); constructor.
    + exact Hax.
    + inversion Hl; assumption.
Qed.

Lemma insert_sorted_sorted (x : Z) (l : list Z) :
  Sorted Z.le l -> Sorted Z.le (insert_sorted x l).
Proof.
  induction l as [|y l IH]; intros Hs; simpl.
  - repeat constructor.
  - destruct (x <=? y) eqn:E.
    + constructor; [exact Hs | constructor; lia].
    + inversion Hs; subst. constructor.
      * apply IH; assumption.
      * apply insert_sorted_hd; [lia | assumption].
Qed.

Lemma py_sort_sorted (l : list Z) : Sorted Z.le (py_sort l).
Proof.
  induction l as [|x l IH]; simpl.
  - constructor.
  - apply insert_sorted_sorted, IH.
Qed.

(** An ascending list is determined by its elements. *)
Lemma sorted_head_le (a : Z) (l : list Z) :
  Sorted Z.le (a :: l) -> forall x, In x (a :: l) -> a <= x.
Proof.
  intros Hs. apply Sorted_StronglySorted in Hs.
  - inversion Hs as [|? ? _ Hall]; subst.
    intros x [<-|Hin]; [lia|].
    rewrite Forall_forall in Hall. apply Hall, Hin.
  - intros p q r; lia.
Qed.

Lemma sorted_perm_unique (l1 : list Z) :
  forall l2, Sorted Z.le l1 -> Sorted Z.le l2 -> Permutation l1 l2 -> l1 = l2.
Proof.
  induction l1 as [|a l1 IH]; intros l2 H1 H2 Hp.
  - apply Permutation_nil in Hp. congruence.
  - destruct l2 as [|b l2].
    + apply Permutation_sym, Permutation_nil in Hp. discriminate.
    + assert (a = b) as ->.
      { assert (a <= b).
        { apply (sorted_head_le a l1 H1).
          apply (Permutation_in b (Permutation_sym Hp)). left; reflexivity. }
        assert (b <= a).
        { apply (sorted_head_le b l2 H2).
          apply (Permutation_in a Hp). left; reflexivity. }
        lia. }
      f_equal. apply IH.
      * inversion H1; assumption.
      * inversion H2; assumption.
      * apply Permutation_cons_inv in Hp. exact Hp.
Qed.

Lemma collect_slippages_defined (prices : list PriceEntry) :
  collect_slippages prices = defined_slippages prices.
Proof.
  induction prices as [|e prices IH]; simpl; [reflexivity|].
  unfold defined_slippages in *. simpl.
  destruct (SlippageBasisPoints e); simpl; rewrite IH; reflexivity.
Qed.

Lemma list_min_le (x : Z) (l : list Z) :
  forall v, In v (x :: l) -> list_min x l <= v.
Proof.
  induction l as [|y l IH]; simpl; intros v Hv.
  - destruct Hv as [<-|[]]. lia.
  - destruct Hv as [<-|[<-|Hv]].
    + specialize (IH x (or_introl eq_refl)). unfold list_min in *. lia.
    + unfold list_min. lia.
    + specialize (IH v (or_intror Hv)). unfold list_min in *. lia.
Qed.

Lemma list_max_ge (x : Z) (l : list Z) :
  forall v, In v (x :: l) -> v <= list_max x l.
Proof.
  induction l as [|y l IH]; simpl; intros v Hv.
  - destruct Hv as [<-|[]]. lia.
  - destruct Hv as [<-|[<-|Hv]].
    + specialize (IH x (or_introl eq_refl)). unfold list_max in *. lia.
    + unfold list_max. lia.
    + specialize (IH v (or_intror Hv)). unfold list_max in *. lia.
Qed.

Lemma sorted_nth_le (l : list Z) :
  Sorted Z.le l ->
  forall i j a b, (i <= j)%nat -> nth_error l i = Some a -> nth_error l j = Some b ->
  a <= b.
Proof.
  induction l as [|x l IH]; intros Hs i j a b Hij Ha Hb.
  - destruct i; discriminate.
  - destruct i as [|i].
    + simpl in Ha. injection Ha as <-.
      apply (sorted_head_le x l Hs). eapply nth_error_In. exact Hb.
    + destruct j as [|j]; [lia|]. simpl in Ha, Hb.
      apply (IH (proj1 (Sorted_inv Hs)) i j); [lia | assumption | assumption].
Qed.

End SortFacts.

Lemma get_median_slippage_bps_sorted_index (price_table : PriceTable)
  (direction : Direction) (prices : list PriceEntry) :
  PriceUtils.bucket price_table direction = Some prices ->
  defined_slippages prices <> [] ->
  PriceUtils.get_median_slippage_bps price_table direction
  = nth_error (PriceUtils.py_sort (defined_slippages prices))
      (List.length (defined_slippages prices) / 2).
Proof.
  intros Hb Hne. unfold PriceUtils.get_median_slippage_bps. rewrite Hb.
  rewrite collect_slippages_defined.
  destruct prices as [|e prices]; [exfalso; apply Hne; reflexivity|].
  simpl List.length. simpl Nat.eqb. cbv iota.
  destruct (defined_slippages (e :: prices)) eqn:E; [congruence|reflexivity].
Qed.

(** C4 (as the code has it).  When the bucket of the direction defines at
    least one slippage value, [get_median_slippage_bps] returns the
    element at index [floor(n / 2)] of the ascending arrangement of the
    [n] values.  That element is one of the values, lies between their
    minimum and maximum, and for an even count it is the upper of the two
    middle values. *)
Theorem get_median_slippage_bps_upper_median (price_table : PriceTable)
  (direction : Direction) (prices : list PriceEntry) (sorted : list Z) :
  PriceUtils.bucket price_table direction = Some prices ->
  defined_slippages prices <> [] ->
  Sorted Z.le sorted ->
  Permutation sorted (defined_slippages prices) ->
  exists r,
    PriceUtils.get_median_slippage_bps price_table direction = Some r
    /\ nth_error sorted (List.length sorted / 2) = Some r
    /\ In r (defined_slippages prices)
    /\ (forall x rest, defined_slippages prices = x :: rest ->
        list_min x rest <= r <= list_max x rest)
    /\ (forall lo, Nat.even (List.length sorted) = true ->
        nth_error sorted (List.length sorted / 2 - 1) = Some lo -> lo <= r).
Proof.
  intros Hb Hne Hs Hp.
  assert (sorted = PriceUtils.py_sort (defined_slippages prices)) as Hsorted.
  { apply sorted_perm_unique; [exact Hs | apply py_sort_sorted |].
    eapply perm_trans; [exact Hp | apply Permutation_sym, py_sort_perm]. }
  assert (List.length sorted = List.length (defined_slippages prices)) as Hlen
    by (apply Permutation_length, Hp).
  assert (List.length sorted <> 0)%nat as Hpos.
  { rewrite Hlen. destruct (defined_slippages prices); [congruence|discriminate]. }
  destruct (nth_error sorted (List.length sorted / 2)) as [r|] eqn:Hr.
  - exists r. split; [|split; [reflexivity|split; [|split]]].
    + rewrite (get_median_slippage_bps_sorted_index _ _ _ Hb Hne).
      rewrite <- Hsorted, <- Hlen. exact Hr.
    + apply (Permutation_in r Hp). eapply nth_error_In. exact Hr.
    + intros x rest Hx.
      assert (In r (x :: rest)) as Hin.
      { rewrite <- Hx. apply (Permutation_in r Hp). eapply nth_error_In. exact Hr. }
      split; [apply list_min_le | apply list_max_ge]; exact Hin.
    + intros lo _ Hlo.
      apply (sorted_nth_le sorted Hs (List.length sorted / 2 - 1)
               (List.length sorted / 2)); [lia | exact Hlo | exact Hr].
  - exfalso. apply nth_error_None in Hr.
    pose proof (Nat.div_lt (List.length sorted) 2). lia.
Qed.

Lemma get_median_slippage_bps_upper_median_witness :
  exists r,
    PriceUtils.get_median_slippage_bps Samples.table_3 AtoB = Some r
    /\ nth_error [10; 50; 100] (List.length [10; 50; 100] / 2) = Some r
    /\ In r (defined_slippages [Samples.entry 100; Samples.entry 10; Samples.entry 50])
    /\ (forall x rest,
        defined_slippages [Samples.entry 100; Samples.entry 10; Samples.entry 50]
        = x :: rest -> list_min x rest <= r <= list_max x rest)
    /\ (forall lo, Nat.even (List.length [10; 50; 100]) = true ->
        nth_error [10; 50; 100] (List.length [10; 50; 100] / 2 - 1) = Some lo -> lo <= r).
Proof.
  apply (get_median_slippage_bps_upper_median Samples.table_3 AtoB
           [Samples.entry 100; Samples.entry 10; Samples.entry 50] [10; 50; 100]).
  - reflexivity.
  - discriminate.
  - repeat constructor; lia.
  - simpl. apply Permutation_sym.
    eapply perm_trans; [apply perm_swap|]. apply perm_skip. apply perm_swap.
Defined.

(** C4 (as stated) fails: with the two values 10 and 50 the code returns
    50, the element at index 1, while the lower median is 10. *)
Lemma median_is_lower_median_counterexample :
  ~ median_is_lower_median Samples.table_10_50 AtoB.
Proof.
  intros H.
  destruct (H [Samples.entry 50; Samples.entry 10] [10; 50]) as (r & Hr & _ & Hlow).
  - reflexivity.
  - discriminate.
  - repeat constructor; lia.
  - apply perm_swap.
  - vm_compute in Hr. specialize (Hlow eq_refl). vm_compute in Hlow. congruence.
Qed.

Lemma slippage_matches_iff (target : Z) (e : PriceEntry) :
  PriceUtils.slippage_matches target e = true <-> SlippageBasisPoints e = Some target.
Proof.
  unfold PriceUtils.slippage_matches. destruct (SlippageBasisPoints e) as [s|].
  - rewrite Z.eqb_eq. split; congruence.
  - split; discriminate.
Qed.

Lemma find_first_match (target : Z) (pre post : list PriceEntry) (e : PriceEntry) :
  SlippageBasisPoints e = Some target ->
  (forall x, In x pre -> SlippageBasisPoints x <> Some target) ->
  find (PriceUtils.slippage_matches target) (pre ++ e :: post) = Some e.
Proof.
  intros He. induction pre as [|x pre IH]; intros Hpre; simpl.
  - apply slippage_matches_iff in He. rewrite He. reflexivity.
  - destruct (PriceUtils.slippage_matches target x) eqn:Ex.
    + apply slippage_matches_iff in Ex. exfalso.
      apply (Hpre x); [left; reflexivity | exact Ex].
    + apply IH. intros y Hy. apply Hpre. right. exact Hy.
Qed.

Lemma find_no_match (target : Z) (prices : list PriceEntry) :
  (forall x, In x prices -> SlippageBasisPoints x <> Some target) ->
  find (PriceUtils.slippage_matches target) prices = None.
Proof.
  intros H. destruct (find _ prices) as [e|] eqn:E; [|reflexivity].
  apply find_some in E. destruct E as [Hin Hm].
  apply slippage_matches_iff in Hm. exfalso. exact (H e Hin Hm).
Qed.

(** C8.  [get_price_for_slippage] returns the first entry of the bucket
    whose slippage equals the target when there is one; the first entry
    of the bucket, whatever its slippage, when the bucket is not empty
    and no entry matches; and [None] when the bucket is absent or
    empty. *)
Theorem get_price_for_slippage_spec (price_table : PriceTable)
  (direction : Direction) (target : Z) :
  (forall prices pre e post,
      PriceUtils.bucket price_table direction = Some prices ->
      prices = pre ++ e :: post ->
      SlippageBasisPoints e = Some target ->
      (forall x, In x pre -> SlippageBasisPoints x <> Some target) ->
      PriceUtils.get_price_for_slippage price_table direction target = Some e)
  /\ (forall prices,
      PriceUtils.bucket price_table direction = Some prices ->
      (exists e, In e prices /\ SlippageBasisPoints e = Some target) ->
      exists e',
        PriceUtils.get_price_for_slippage price_table direction target = Some e'
        /\ In e' prices /\ SlippageBasisPoints e' = Some target)
  /\ (forall first rest,
      PriceUtils.bucket price_table direction = Some (first :: rest) ->
      (forall x, In x (first :: rest) -> SlippageBasisPoints x <> Some target) ->
      PriceUtils.get_price_for_slippage price_table direction target = Some first)
  /\ (PriceUtils.bucket price_table direction = None
      \/ PriceUtils.bucket price_table direction = Some [] ->
      PriceUtils.get_price_for_slippage price_table direction target = None).
Proof.
  unfold PriceUtils.get_price_for_slippage. repeat split.
  - intros prices pre e post Hb -> He Hpre. rewrite Hb.
    rewrite (find_first_match target pre post e He Hpre). reflexivity.
  - intros prices Hb (e & Hin & He). rewrite Hb.
    destruct (find (PriceUtils.slippage_matches target) prices) as [e'|] eqn:E.
    + exists e'. apply find_some in E. destruct E as [Hin' Hm].
      apply slippage_matches_iff in Hm. auto.
    + exfalso. apply slippage_matches_iff in He.
      pose proof (find_none _ _ E e Hin) as Hn. congruence.
  - intros first rest Hb Hnone. rewrite Hb.
    rewrite (find_no_match target _ Hnone). reflexivity.
  - intros [Hb|Hb]; rewrite Hb; reflexivity.
Qed.

Lemma get_price_for_slippage_spec_witness :
  PriceUtils.get_price_for_slippage Samples.table_3 AtoB 50 = Some (Samples.entry 50)
  /\ PriceUtils.get_price_for_slippage Samples.table_3 AtoB 20 = Some (Samples.entry 100)
  /\ PriceUtils.get_price_for_slippage Samples.table_10_50 BtoA 50 = None.
Proof.
  split; [|split].
  - apply (proj1 (get_price_for_slippage_spec Samples.table_3 AtoB 50)
             [Samples.entry 100; Samples.entry 10; Samples.entry 50]
             [Samples.entry 100; Samples.entry 10] (Samples.entry 50) []).
    + reflexivity.
    + reflexivity.
    + reflexivity.
    + intros x [<-|[<-|[]]]; discriminate.
  - apply (proj1 (proj2 (proj2 (get_price_for_slippage_spec Samples.table_3 AtoB 20)))
             (Samples.entry 100) [Samples.entry 10; Samples.entry 50]).
    + reflexivity.
    + intros x [<-|[<-|[<-|[]]]]; discriminate.
  - apply (proj2 (proj2 (proj2 (get_price_for_slippage_spec Samples.table_10_50 BtoA 50)))).
    left. reflexivity.
Defined.

(** ** The direction resolver *)

(** ** Rounding to a float *)

Section FloatFacts.
Import PyFloat.
Local Open Scope Q_scope.











End FloatFacts.

Section DirectionFacts.

Variable int_of_str : string -> option Z.


End DirectionFacts.



(** ** The gas price policy *)

Section GasFacts.

Variable W : Type.
Variable lib : PyLib.
Variable client : ChainClient W.

(** C3.  What [get_gas_price] does, tier by tier.
    (1) With a stream price, the maximum is converted to wei outside any
    [try]: when that conversion raises the function raises; otherwise
    the stream price is returned unchanged when it does not exceed the
    maximum, and the maximum otherwise (unless the log line raises).
    (2) Else, with a fixed price that is not zero, its conversion to wei
    is returned, never compared with the maximum; when the conversion
    raises the function raises.
    (3) Else, and this includes a fixed price configured as zero, the
    network is asked: its price capped at the maximum, or the conversion
    of 30 gwei when the query, the conversion of the maximum or the log
    line raises.
    The chain is touched only by the query of tier 3. *)
Theorem get_gas_price_three_tiers (gm : GasManager.t)
  (stream_gas_price_wei : option Z) (s : Env W) :
  let max_gas_price := to_wei_gwei lib (GasManager.max_gas_price_gwei gm) in
  let run := get_gas_price W lib client gm stream_gas_price_wei s in
  (forall p, stream_gas_price_wei = Some p ->
     run = (match max_gas_price, log_gwei p with
            | Ok m, Ok _ => Ok (if p <=? m then p else m)
            | _, _ => Raise
            end, s))
  /\ (forall g, stream_gas_price_wei = None ->
      GasManager.gas_price_gwei gm = Some g -> ~ (g == 0)%Q ->
      run = (match to_wei_gwei lib g with
             | Ok fixed_gas_wei =>
                 match log_gwei fixed_gas_wei with
                 | Ok _ => Ok fixed_gas_wei
                 | Raise => Raise
                 end
             | Raise => Raise
             end, s))
  /\ (stream_gas_price_wei = None ->
      (GasManager.gas_price_gwei gm = None
       \/ exists g, GasManager.gas_price_gwei gm = Some g /\ (g == 0)%Q) ->
      run = (match fst (eth_gas_price client (chain s)) with
             | Ok p =>
                 match max_gas_price, log_gwei p with
                 | Ok m, Ok _ => Ok (if p <=? m then p else m)
                 | _, _ => to_wei_gwei lib 30
                 end
             | Raise => to_wei_gwei lib 30
             end,
             mkEnv (snd (eth_gas_price client (chain s))) (broadcasts s))).
Proof.
  intros max_gas_price run. subst run max_gas_price.
  assert (forall p m : Z, (if p >? m then m else p) = (if p <=? m then p else m)) as Hcap.
  { intros p m. destruct (p >? m) eqn:E1, (p <=? m) eqn:E2; try reflexivity; lia. }
  assert (stream_gas_price_wei = None ->
          fixed_gas_price gm = None ->
          get_gas_price W lib client gm stream_gas_price_wei s
          = (match fst (eth_gas_price client (chain s)) with
             | Ok p =>
                 match to_wei_gwei lib (GasManager.max_gas_price_gwei gm), log_gwei p with
                 | Ok m, Ok _ => Ok (if p <=? m then p else m)
                 | _, _ => to_wei_gwei lib 30
                 end
             | Raise => to_wei_gwei lib 30
             end,
             mkEnv (snd (eth_gas_price client (chain s))) (broadcasts s))) as Hnet.
  { intros -> Hf. unfold get_gas_price. rewrite Hf.
    unfold try_except, bind, call, ret, lift_res.
    destruct (eth_gas_price client (chain s)) as [[p|] c]; simpl.
    - destruct (to_wei_gwei lib (GasManager.max_gas_price_gwei gm)) as [m|]; simpl.
      + rewrite <- Hcap.
        destruct (p >? m); simpl; destruct (log_gwei p); simpl;
          try reflexivity; destruct (to_wei_gwei lib 30); reflexivity.
      + destruct (to_wei_gwei lib 30); reflexivity.
    - destruct (to_wei_gwei lib 30); reflexivity. }
  split; [|split].
  - intros p ->. unfold get_gas_price, bind, lift_res, ret.
    destruct (to_wei_gwei lib (GasManager.max_gas_price_gwei gm)) as [m|]; [|reflexivity].
    rewrite <- Hcap.
    destruct (p >? m); destruct (log_gwei p); reflexivity.
  - intros g -> Hg Hne. unfold get_gas_price, fixed_gas_price. rewrite Hg.
    destruct (Qeq_bool g 0) eqn:E0.
    + apply Qeq_bool_iff in E0. contradiction.
    + unfold bind, lift_res, ret.
      destruct (to_wei_gwei lib g) as [w|]; [|reflexivity].
      destruct (log_gwei w); reflexivity.
  - intros Hs Hfixed. apply Hnet; [exact Hs|].
    unfold fixed_gas_price.
    destruct Hfixed as [->|(g & -> & H0)]; [reflexivity|].
    apply Qeq_bool_iff in H0. rewrite H0. reflexivity.
Qed.

End GasFacts.

Lemma get_gas_price_three_tiers_witness :
  get_gas_price unit SampleChain.lib
    (SampleChain.client (Ok 5000000000) SampleChain.offline Raise)
    (GasManager.mk (Some 0%Q) 200) None SampleChain.start
  = (Ok 5000000000, SampleChain.start)
  /\ get_gas_price unit SampleChain.lib
       (SampleChain.client (Ok 5000000000) SampleChain.offline Raise)
       (GasManager.mk None (-1)) (Some 7000000000) SampleChain.start
     = (Raise, SampleChain.start).
Proof.
  split.
  - apply (proj2 (proj2 (get_gas_price_three_tiers unit SampleChain.lib
             (SampleChain.client (Ok 5000000000) SampleChain.offline Raise)
             (GasManager.mk (Some 0%Q) 200) None SampleChain.start))).
    + reflexivity.
    + right. exists 0%Q. split; reflexivity.
  - apply (proj1 (get_gas_price_three_tiers unit SampleChain.lib
             (SampleChain.client (Ok 5000000000) SampleChain.offline Raise)
             (GasManager.mk None (-1)) (Some 7000000000) SampleChain.start)
             7000000000).
    reflexivity.
Defined.

(** ** Decimal arithmetic and the amount converter *)

Section DecimalFacts.

Import PyDecimal.

Local Open Scope Q_scope.

Lemma ten_nz : ~ (10 # 1) == 0.
Proof. discriminate. Qed.

Lemma Qpow10_add (a b : Z) : (10 # 1) ^ (a + b) == (10 # 1) ^ a * (10 # 1) ^ b.
Proof. apply Qpower_plus, ten_nz. Qed.

Lemma Qpow10_nz (a : Z) : ~ (10 # 1) ^ a == 0.
Proof. apply Qpower_not_0, ten_nz. Qed.

Lemma Qpow10_inject (k : Z) : (0 <= k)%Z -> inject_Z (10 ^ k) == (10 # 1) ^ k.
Proof. intros Hk. rewrite Zpower_Qpower by exact Hk. reflexivity. Qed.

Lemma shift_coeff (c e k : Z) :
  (0 <= k)%Z ->
  inject_Z (c * 10 ^ k) * (10 # 1) ^ e == inject_Z c * (10 # 1) ^ (e + k).
Proof.
  intros Hk.
  rewrite inject_Z_mult, Qpow10_inject by exact Hk.
  rewrite Qpow10_add. ring.
Qed.

Lemma value_shift (c e k : Z) :
  (0 <= k)%Z -> value (mkDec (c * 10 ^ k) e) == value (mkDec c (e + k)).
Proof. intros Hk. apply shift_coeff, Hk. Qed.

Lemma value_mul_raw (a b : Decimal) : value (mul_raw a b) == value a * value b.
Proof.
  unfold value, mul_raw; simpl.
  rewrite inject_Z_mult, Qpow10_add. ring.
Qed.


(** Rounding that drops only zeros keeps the value. *)
Lemma fix_value (d : Decimal) : inexact d = false -> value (_fix d) == value d.
Proof.
  unfold inexact, _fix.
  destruct (ndigits (coeff d) <=? prec) eqn:En; [reflexivity|].
  intros Hr. apply negb_false_iff, Z.eqb_eq in Hr.
  apply Z.leb_gt in En.
  set (drop := (ndigits (coeff d) - prec)%Z) in *.
  assert (0 < 10 ^ drop)%Z as Hp by (apply Z.pow_pos_nonneg; lia).
  rewrite Hr. simpl Z.mul.
  replace (0 >? 10 ^ drop)%Z with false by (symmetry; rewrite Z.gtb_ltb; apply Z.ltb_ge; lia).
  replace (0 =? 10 ^ drop)%Z with false by (symmetry; apply Z.eqb_neq; lia).
  simpl orb. cbv iota.
  pose proof (Z.div_mod (Z.abs (coeff d)) (10 ^ drop) ltac:(lia)) as Hdm.
  rewrite Hr, Z.add_0_r in Hdm.
  rewrite <- (value_shift _ (exp d) drop) by lia.
  replace (Z.sgn (coeff d) * (Z.abs (coeff d) / 10 ^ drop) * 10 ^ drop)%Z
    with (coeff d).
  - destruct d; reflexivity.
  - rewrite <- Z.mul_assoc, (Z.mul_comm _ (10 ^ drop)), <- Hdm.
    lia.
Qed.

Lemma strip_zeros_value (n : nat) :
  forall c e c' e', strip_zeros n c e = (c', e') ->
  inject_Z c * (10 # 1) ^ e == inject_Z c' * (10 # 1) ^ e'.
Proof.
  induction n as [|n IH]; intros c e c' e' H; simpl in H.
  - injection H as <- <-. reflexivity.
  - destruct (c mod 10 =? 0)%Z eqn:E.
    + apply Z.eqb_eq in E. rewrite <- (IH _ _ _ _ H).
      rewrite <- (shift_coeff (c / 10) e 1) by lia.
      replace (c / 10 * 10 ^ 1)%Z with c; [reflexivity|].
      pose proof (Z.div_mod c 10 ltac:(lia)). lia.
    + injection H as <- <-. reflexivity.
Qed.

Lemma quotient_value (sc ca cb ea eb shift : Z) :
  inject_Z sc * inject_Z cb == inject_Z ca * (10 # 1) ^ shift ->
  cb <> 0%Z ->
  inject_Z sc * (10 # 1) ^ (ea - eb - shift)
  == (inject_Z ca * (10 # 1) ^ ea) / (inject_Z cb * (10 # 1) ^ eb).
Proof.
  intros H Hcb.
  assert (~ inject_Z cb == 0) as Hcb'.
  { intros E. apply Hcb. unfold Qeq in E; simpl in E. lia. }
  rewrite !Qpower_minus by apply ten_nz.
  assert (inject_Z ca == inject_Z sc * inject_Z cb / (10 # 1) ^ shift) as ->.
  { rewrite H. field. apply Qpow10_nz. }
  field. repeat split; try apply Qpow10_nz. exact Hcb'.
Qed.

(** A division that leaves no remainder has the exact quotient as value. *)
Lemma div_raw_value (a b d : Decimal) :
  div_raw a b = Some (d, false) -> value d == value a / value b.
Proof.
  unfold div_raw.
  destruct (coeff b =? 0)%Z eqn:Eb; [discriminate|]. apply Z.eqb_neq in Eb.
  destruct (coeff a =? 0)%Z eqn:Ea.
  - apply Z.eqb_eq in Ea. intros [= <-]. unfold value; simpl. rewrite Ea.
    unfold Qdiv. ring.
  - set (shift := (ndigits (coeff b) - ndigits (coeff a) + prec + 1)%Z).
    set (sign := (Z.sgn (coeff a) * Z.sgn (coeff b))%Z).
    assert (0 < Z.abs (coeff b))%Z as HB by lia.
    assert (forall c r c' e',
               (r =? 0)%Z = true ->
               inject_Z c * inject_Z (Z.abs (coeff b))
               == inject_Z (Z.abs (coeff a)) * (10 # 1) ^ shift ->
               strip_zeros (Z.to_nat (exp a - exp b - (exp a - exp b - shift))) c
                 (exp a - exp b - shift) = (c', e') ->
               value (mkDec (sign * c') e') == value a / value b) as Hmain.
    { intros c r c' e' _ Hq Hs. apply strip_zeros_value in Hs.
      unfold value; simpl. rewrite inject_Z_mult, <- Qmult_assoc, <- Hs.
      rewrite Qmult_assoc, <- inject_Z_mult.
      apply quotient_value; [|exact Eb].
      rewrite <- !inject_Z_mult.
      assert (inject_Z (sign * c * coeff b)
              == inject_Z (Z.sgn (coeff a)) * (inject_Z c * inject_Z (Z.abs (coeff b)))) as ->.
      { rewrite <- !inject_Z_mult. apply inject_Z_injective. subst sign.
        rewrite <- (Z.sgn_abs (coeff b)). ring. }
      rewrite Hq, Qmult_assoc, <- inject_Z_mult.
      replace (Z.sgn (coeff a) * Z.abs (coeff a))%Z with (coeff a) by lia.
      reflexivity. }
    destruct (0 <=? shift)%Z eqn:Es.
    + apply Z.leb_le in Es.
      destruct (((Z.abs (coeff a) * 10 ^ shift) mod Z.abs (coeff b)) =? 0)%Z eqn:Er.
      * destruct (strip_zeros _ _ _) as [c' e'] eqn:Hs. intros [= <-].
        eapply Hmain; [exact Er | | exact Hs].
        apply Z.eqb_eq in Er.
        pose proof (Z.div_mod (Z.abs (coeff a) * 10 ^ shift) (Z.abs (coeff b))
                      ltac:(lia)) as Hdm.
        rewrite Er, Z.add_0_r in Hdm.
        rewrite <- Qpow10_inject, <- !inject_Z_mult by exact Es.
        apply inject_Z_injective. lia.
      * intros [=].
    + apply Z.leb_gt in Es.
      destruct ((Z.abs (coeff a) mod (Z.abs (coeff b) * 10 ^ (- shift))) =? 0)%Z eqn:Er.
      * destruct (strip_zeros _ _ _) as [c' e'] eqn:Hs. intros [= <-].
        eapply Hmain; [exact Er | | exact Hs].
        apply Z.eqb_eq in Er.
        assert (0 < 10 ^ (- shift))%Z as Hp by (apply Z.pow_pos_nonneg; lia).
        pose proof (Z.div_mod (Z.abs (coeff a)) (Z.abs (coeff b) * 10 ^ (- shift))
                      ltac:(lia)) as Hdm.
        rewrite Er, Z.add_0_r in Hdm.
        rewrite Hdm at 2. rewrite !inject_Z_mult.
        rewrite Qpow10_inject by lia.
        rewrite Qpower_opp. field. apply Qpow10_nz.
      * intros [=].
Qed.

Lemma pow10_coeff_exact (z e : Z) :
  (0 <= z <= prec)%Z -> inexact (mkDec (10 ^ z) e) = false.
Proof.
  intros Hz. unfold inexact. cbn [coeff].
  assert (forallb (fun k => let c := (10 ^ Z.of_nat k)%Z in
                     if (ndigits c <=? prec)%Z then true
                     else (Z.abs c mod 10 ^ (ndigits c - prec) =? 0)%Z)
            (seq 0 29) = true) as Hall by (vm_compute; reflexivity).
  rewrite forallb_forall in Hall.
  specialize (Hall (Z.to_nat z)).
  rewrite Z2Nat.id in Hall by lia. cbv zeta in Hall.
  destruct (ndigits (10 ^ z) <=? prec)%Z; [reflexivity|].
  rewrite Hall; [reflexivity|].
  apply in_seq. unfold prec in Hz. lia.
Qed.

Lemma pow10_value (n : Z) : value (pow10 n) == (10 # 1) ^ n.
Proof.
  unfold pow10. destruct (0 <=? n)%Z eqn:E.
  - apply Z.leb_le in E.
    rewrite fix_value by (apply pow10_coeff_exact; unfold prec; lia).
    unfold value; cbn [coeff exp].
    rewrite Qpow10_inject by (unfold prec; lia).
    rewrite <- Qpow10_add. replace (Z.min n prec + (n - Z.min n prec))%Z with n by lia.
    reflexivity.
  - unfold value; simpl. ring.
Qed.

Lemma Qtrunc_floor_ceiling (q : Q) :
  Qtrunc q = if Qle_bool 0 q then Qfloor q else Qceiling q.
Proof.
  destruct q as [n d]. unfold Qtrunc, Qle_bool, Qceiling, Qfloor; simpl.
  rewrite Z.mul_1_r. destruct (0 <=? n)%Z eqn:E.
  - apply Z.leb_le in E. apply Z.quot_div_nonneg; lia.
  - apply Z.leb_gt in E.
    rewrite <- (Z.opp_involutive n) at 1.
    rewrite Z.quot_opp_l by lia. f_equal.
    apply Z.quot_div_nonneg; lia.
Qed.

Lemma Qle_bool_comp (a b c d : Q) :
  a == b -> c == d -> Qle_bool a c = Qle_bool b d.
Proof.
  intros Hab Hcd.
  destruct (Qle_bool a c) eqn:E1, (Qle_bool b d) eqn:E2; try reflexivity.
  - apply Qle_bool_iff in E1. rewrite Hab, Hcd in E1.
    apply Qle_bool_iff in E1. congruence.
  - apply Qle_bool_iff in E2. rewrite <- Hab, <- Hcd in E2.
    apply Qle_bool_iff in E2. congruence.
Qed.

Lemma Qtrunc_comp (p q : Q) : p == q -> Qtrunc p = Qtrunc q.
Proof.
  intros H. rewrite !Qtrunc_floor_ceiling.
  rewrite (Qle_bool_comp 0 0 p q (Qeq_refl 0) H).
  destruct (Qle_bool 0 q); rewrite H; reflexivity.
Qed.

Lemma to_int_value (d : Decimal) : to_int d = Qtrunc (value d).
Proof.
  unfold to_int. destruct (0 <=? exp d)%Z eqn:E.
  - apply Z.leb_le in E.
    assert (value d == inject_Z (coeff d * 10 ^ exp d)) as Hv.
    { unfold value. rewrite inject_Z_mult, Qpow10_inject by exact E. reflexivity. }
    rewrite (Qtrunc_comp _ _ Hv). unfold Qtrunc; simpl.
    symmetry. apply Z.quot_1_r.
  - apply Z.leb_gt in E.
    assert (0 < 10 ^ (- exp d))%Z as Hp by (apply Z.pow_pos_nonneg; lia).
    assert (value d == coeff d # Z.to_pos (10 ^ (- exp d))) as Hv.
    { unfold value.
      replace (exp d) with (- (- exp d))%Z at 1 by lia.
      rewrite Qpower_opp, <- Qpow10_inject by lia.
      rewrite (Qmake_Qdiv (coeff d)). rewrite Z2Pos.id by exact Hp.
      unfold Qdiv. reflexivity. }
    rewrite (Qtrunc_comp _ _ Hv). unfold Qtrunc; simpl.
    rewrite Z2Pos.id by exact Hp. reflexivity.
Qed.

End DecimalFacts.

Section ConversionFacts.

Import PyDecimal ConversionUtils.

Lemma value_of_Z (n : Z) : (value (of_Z n) == inject_Z n)%Q.
Proof. unfold value, of_Z; simpl. ring. Qed.

Lemma mul_value (a b : Decimal) :
  inexact (mul_raw a b) = false -> (value (mul a b) == value a * value b)%Q.
Proof.
  intros H. unfold mul. rewrite fix_value by exact H. apply value_mul_raw.
Qed.





End ConversionFacts.

(** ** The monad of effects *)

Section MonadFacts.

Variable W : Type.

Lemma bind_ok {A B : Type} (m : M W A) (k : A -> M W B) (s s' : Env W) (a : A) :
  m s = (Ok a, s') -> bind m k s = k a s'.
Proof. intros H. unfold bind. rewrite H. reflexivity. Qed.

Lemma bind_raise {A B : Type} (m : M W A) (k : A -> M W B) (s s' : Env W) :
  m s = (Raise, s') -> bind m k s = (Raise, s').
Proof. intros H. unfold bind. rewrite H. reflexivity. Qed.

(** A [try] whose handler returns a value never raises. *)
Lemma try_except_ret_total {A : Type} (m : M W A) (a : A) (s : Env W) :
  exists v s', try_except m (ret a) s = (Ok v, s').
Proof.
  unfold try_except, ret. destruct (m s) as [[v|] s']; eexists; eexists; reflexivity.
Qed.

End MonadFacts.

(** ** The reconciler *)

Section ReconcilerFacts.

Variable W : Type.
Variable lib : PyLib.
Variable client : ChainClient W.

Lemma pow10_coeff_nz (n : Z) : PyDecimal.coeff (PyDecimal.pow10 n) <> 0.
Proof.
  intros H. pose proof (pow10_value n) as Hv. unfold PyDecimal.value in Hv.
  rewrite H in Hv. apply (Qpow10_nz n). rewrite <- Hv. ring.
Qed.

Lemma div_some (x y : PyDecimal.Decimal) :
  PyDecimal.coeff y <> 0 -> exists d, PyDecimal.div x y = Some d.
Proof.
  intros Hnz. unfold PyDecimal.div.
  assert (exists r, PyDecimal.div_raw x y = Some r) as [[d f] Hr].
  { unfold PyDecimal.div_raw.
    apply Z.eqb_neq in Hnz. rewrite Hnz.
    destruct (PyDecimal.coeff x =? 0); [eexists; reflexivity|].
    match goal with
    | |- context [let '(c, remainder) := ?p in _] => destruct p as [c remainder]
    end.
    destruct (remainder =? 0); [|eexists; reflexivity].
    destruct (PyDecimal.strip_zeros _ _ _). eexists; reflexivity. }
  rewrite Hr. eexists; reflexivity.
Qed.

Lemma div_pow10_some (x : PyDecimal.Decimal) (n : Z) :
  exists d, PyDecimal.div x (PyDecimal.pow10 n) = Some d.
Proof. apply div_some, pow10_coeff_nz. Qed.

(** C6.  [calculate_actual_amount_out] returns the amount derived from
    the balances whenever that amount is positive and at least half the
    predicted amount, and the predicted amount otherwise: when the derived
    amount is not positive, when it is below half the predicted one, and
    when any step of the derivation raises.  The derived amount is the
    balance at the block of the receipt minus the balance one block
    before, plus the gas cost when the output is the native asset,
    divided by 10^decimals.  With a predicted amount of 10 and a derived
    amount of 0.0002 the result is 10. *)
Theorem calculate_actual_amount_out_spec (receipt : Receipt.t)
  (token_out_address : string) (decimals_out : Z) (address : string)
  (expected_out : Q) (s : Env W) :
  let derived :=
    balance_delta_amount W lib client receipt token_out_address decimals_out address s in
  let result :=
    calculate_actual_amount_out W lib client receipt token_out_address decimals_out
      address expected_out s in
  (forall a s', derived = (Ok a, s') ->
      (0 < a)%Q -> (expected_out * (1 # 2) <= a)%Q -> result = (Ok a, s'))
  /\ (forall a s', derived = (Ok a, s') ->
      (a <= 0)%Q \/ (a < expected_out * (1 # 2))%Q -> result = (Ok expected_out, s'))
  /\ (forall s', derived = (Raise, s') -> result = (Ok expected_out, s'))
  /\ (forall a s', derived = (Ok a, s') ->
      (a == 2 # 10000)%Q -> (expected_out == 10)%Q -> result = (Ok expected_out, s'))
  /\ (forall balance_after balance_before c1 c2,
      String.eqb (lower token_out_address) (lower WETH_ADDRESS) = true ->
      eth_get_balance client address (Some (Receipt.blockNumber receipt)) (chain s)
      = (Ok balance_after, c1) ->
      eth_get_balance client address (Some (Receipt.blockNumber receipt - 1)) c1
      = (Ok balance_before, c2) ->
      exists d,
        PyDecimal.div
          (PyDecimal.of_Z (balance_after - balance_before
                           + Receipt.gasUsed receipt * Receipt.effectiveGasPrice receipt))
          (PyDecimal.pow10 decimals_out) = Some d
        /\ derived = (Ok (float_of_decimal lib d), mkEnv c2 (broadcasts s)))
  /\ (forall token balance_after balance_before c1 c2,
      String.eqb (lower token_out_address) (lower WETH_ADDRESS) = false ->
      to_checksum_address lib token_out_address = Ok token ->
      erc20_balanceOf client token address (Some (Receipt.blockNumber receipt)) (chain s)
      = (Ok balance_after, c1) ->
      erc20_balanceOf client token address (Some (Receipt.blockNumber receipt - 1)) c1
      = (Ok balance_before, c2) ->
      exists d,
        PyDecimal.div (PyDecimal.of_Z (balance_after - balance_before))
          (PyDecimal.pow10 decimals_out) = Some d
        /\ derived = (Ok (float_of_decimal lib d), mkEnv c2 (broadcasts s))).
Proof.
  intros derived result.
  assert (forall a s', derived = (Ok a, s') ->
            result = (Ok (if Qle_bool a 0 then expected_out
                          else if Qlt_bool a (expected_out * (1 # 2)) then expected_out
                               else a), s')) as Hok.
  { intros a s' Hd. subst result derived.
    unfold calculate_actual_amount_out, try_except.
    rewrite (bind_ok _ _ _ _ _ _ Hd).
    destruct (Qle_bool a 0); [reflexivity|].
    destruct (Qlt_bool a _); reflexivity. }
  split; [|split; [|split; [|split; [|split]]]].
  - intros a s' Hd Hpos Hhalf. rewrite (Hok a s' Hd).
    replace (Qle_bool a 0) with false.
    + replace (Qlt_bool a (expected_out * (1 # 2))) with false; [reflexivity|].
      symmetry. unfold Qlt_bool. apply negb_false_iff, Qle_bool_iff, Hhalf.
    + symmetry. apply Qle_bool_false_iff. apply Qlt_not_le, Hpos.
  - intros a s' Hd Hbad. rewrite (Hok a s' Hd).
    destruct (Qle_bool a 0) eqn:E0; [reflexivity|].
    destruct Hbad as [Hle|Hlt].
    + apply Qle_bool_iff in Hle. congruence.
    + apply Qlt_bool_iff in Hlt. rewrite Hlt. reflexivity.
  - intros s' Hd. subst result derived.
    unfold calculate_actual_amount_out, try_except.
    rewrite (bind_raise _ _ _ _ _ Hd). reflexivity.
  - intros a s' Hd Ha He. rewrite (Hok a s' Hd).
    destruct (Qle_bool a 0); [reflexivity|].
    replace (Qlt_bool a (expected_out * (1 # 2))) with true; [reflexivity|].
    symmetry. apply Qlt_bool_iff. rewrite Ha, He. reflexivity.
  - intros balance_after balance_before c1 c2 Heth Ha Hb.
    destruct (div_pow10_some
                (PyDecimal.of_Z (balance_after - balance_before
                   + Receipt.gasUsed receipt * Receipt.effectiveGasPrice receipt))
                decimals_out) as [d Hd].
    exists d. split; [exact Hd|].
    subst derived. unfold balance_delta_amount. rewrite Heth.
    unfold bind, call, ret. rewrite Ha. cbn [chain broadcasts]. rewrite Hb.
    rewrite Hd. reflexivity.
  - intros token balance_after balance_before c1 c2 Heth Ht Ha Hb.
    destruct (div_pow10_some (PyDecimal.of_Z (balance_after - balance_before))
                decimals_out) as [d Hd].
    exists d. split; [exact Hd|].
    subst derived. unfold balance_delta_amount. rewrite Heth.
    unfold bind, call, ret, lift_res. rewrite Ht, Ha. cbn [chain broadcasts].
    rewrite Hb, Hd. reflexivity.
Qed.

End ReconcilerFacts.

Lemma calculate_actual_amount_out_spec_witness :
  calculate_actual_amount_out unit SampleChain.lib
    (SampleChain.client Raise (SampleChain.grew_at_100 200) Raise)
    SampleChain.receipt_100 "0xA0b86991c6218b36c1d19D4a2e9Eb0cE3606eB48" 6
    "0x00000000000000000000000000000000000000aa" 10 SampleChain.start
  = (Ok 10%Q, SampleChain.start).
Proof.
  apply (proj1 (proj2 (proj2 (proj2
           (calculate_actual_amount_out_spec unit SampleChain.lib
              (SampleChain.client Raise (SampleChain.grew_at_100 200) Raise)
              SampleChain.receipt_100 "0xA0b86991c6218b36c1d19D4a2e9Eb0cE3606eB48" 6
              "0x00000000000000000000000000000000000000aa" 10 SampleChain.start))))
           (PyDecimal.value (PyDecimal.mkDec 2 (-4)))).
  - vm_compute. reflexivity.
  - vm_compute. reflexivity.
  - reflexivity.
Defined.

(** ** The executors *)

Section ExecutorFacts.

Variable W : Type.
Variable lib : PyLib.
Variable client : ChainClient W.

Lemma now_total (s : Env W) : exists t s', now W client s = (Ok t, s').
Proof.
  unfold now. destruct (time_time client (chain s)). eexists; eexists; reflexivity.
Qed.

Lemma default_deadline_total (deadline : option Z) (s : Env W) :
  exists d s', default_deadline W client deadline s = (Ok d, s').
Proof.
  unfold default_deadline. destruct deadline as [d|].
  - eexists; eexists; reflexivity.
  - destruct (now_total s) as (t & s' & Ht).
    rewrite (bind_ok _ _ _ _ _ _ Ht). eexists; eexists; reflexivity.
Qed.

(** The V3 executor returns a hash or [None] on every input: its whole
    body is inside the [try] block. *)
Lemma uniswap_v3_execute_swap_never_raises (address : string)
  (gas_manager : GasManager.t) (token_in_address token_out_address : string)
  (amount_in amount_out_min fee : Z) (deadline stream_gas_price_wei : option Z)
  (s : Env W) :
  exists r s',
    uniswap_v3_execute_swap W lib client address gas_manager token_in_address
      token_out_address amount_in amount_out_min fee deadline stream_gas_price_wei s
    = (Ok r, s').
Proof.
  unfold uniswap_v3_execute_swap.
  destruct (default_deadline_total deadline s) as (d & s1 & Hd).
  rewrite (bind_ok _ _ _ _ _ _ Hd). apply try_except_ret_total.
Qed.


(** C7 (where the code departs from it).  When [to_checksum_address]
    rejects one of the two token addresses,
    [UniswapV2Swapper.execute_swap] raises: the path is built before the
    [try] block is entered, and nothing is broadcast.  [UniswapV3Swapper.execute_swap] converts the
    addresses inside its [try] block and returns on the same input. *)
Theorem uniswap_v2_execute_swap_raises_on_malformed_address (address : string)
  (gas_manager : GasManager.t) (token_in_address token_out_address : string)
  (amount_in amount_out_min fee : Z) (deadline stream_gas_price_wei : option Z)
  (s : Env W) :
  to_checksum_address lib token_in_address = Raise
  \/ to_checksum_address lib token_out_address = Raise ->
  (exists s',
      uniswap_v2_execute_swap W lib client address gas_manager token_in_address
        token_out_address amount_in amount_out_min deadline stream_gas_price_wei s
      = (Raise, s')
      /\ broadcasts s' = broadcasts s)
  /\ (exists r s',
      uniswap_v3_execute_swap W lib client address gas_manager token_in_address
        token_out_address amount_in amount_out_min fee deadline stream_gas_price_wei s
      = (Ok r, s')).
Proof.
  intros Hbad. split; [|apply uniswap_v3_execute_swap_never_raises].
  unfold uniswap_v2_execute_swap.
  destruct (default_deadline_total deadline s) as (d & s1 & Hd).
  rewrite (bind_ok _ _ _ _ _ _ Hd).
  assert (broadcasts s1 = broadcasts s) as Hlog.
  { unfold default_deadline in Hd. destruct deadline as [d0|].
    - unfold ret in Hd. congruence.
    - unfold bind, ret, now in Hd.
      destruct (time_time client (chain s)) as [t c]. injection Hd as _ <-.
      reflexivity. }
  unfold bind, lift_res.
  destruct Hbad as [Hin|Hout].
  - rewrite Hin. exists s1. split; [reflexivity|exact Hlog].
  - destruct (to_checksum_address lib token_in_address).
    + rewrite Hout. exists s1. split; [reflexivity|exact Hlog].
    + exists s1. split; [reflexivity|exact Hlog].
Qed.

End ExecutorFacts.

Lemma uniswap_v2_execute_swap_raises_on_malformed_address_witness :
  (exists s',
      uniswap_v2_execute_swap unit SampleChain.lib
        (SampleChain.client (Ok 5000000000) (SampleChain.grew_at_100 0) Raise)
        "0x00000000000000000000000000000000000000aa" (GasManager.mk None 200)
        "0x1234" WETH_ADDRESS 1000 1 None None SampleChain.start
      = (Raise, s')
      /\ broadcasts s' = broadcasts SampleChain.start)
  /\ (exists r s',
      uniswap_v3_execute_swap unit SampleChain.lib
        (SampleChain.client (Ok 5000000000) (SampleChain.grew_at_100 0) Raise)
        "0x00000000000000000000000000000000000000aa" (GasManager.mk None 200)
        "0x1234" WETH_ADDRESS 1000 1 3000 None None SampleChain.start
      = (Ok r, s')).
Proof.
  apply (uniswap_v2_execute_swap_raises_on_malformed_address unit SampleChain.lib
           (SampleChain.client (Ok 5000000000) (SampleChain.grew_at_100 0) Raise)
           "0x00000000000000000000000000000000000000aa" (GasManager.mk None 200)
           "0x1234" WETH_ADDRESS 1000 1 3000 None None SampleChain.start).
  left. reflexivity.
Defined.

(** ** Protocol routing *)

Section StringFacts.

Local Open Scope string_scope.









End StringFacts.




(** Routing looks at the lower-cased name only. *)
Example route_examples :
  route (lower "Uniswap_V2") = RouteV2
  /\ route (lower "PancakeSwap-V2") = RouteV2
  /\ route (lower "sushi_v3_on_v2") = RouteV2
  /\ route (lower "UNISWAP_V3") = RouteV3
  /\ route (lower "curve") = Unsupported
  /\ route (lower "") = Unsupported.
Proof. repeat split. Qed.

Section TraderFacts.

Variable W : Type.
Variable lib : PyLib.
Variable client : ChainClient W.



End TraderFacts.



(** ** The position ledger and the orchestrator *)

Section StrategyFacts.

Variable W : Type.
Variable lib : PyLib.
Variable client : ChainClient W.

Lemma count_open_cons (p : Position.t) (l : list Position.t) :
  count_open (p :: l) = ((if Position.is_open p then 1 else 0) + count_open l)%nat.
Proof.
  unfold count_open. simpl. destruct (Position.is_open p); reflexivity.
Qed.

Lemma count_open_app (l : list Position.t) (p : Position.t) :
  count_open (l ++ [p]) = (count_open l + if Position.is_open p then 1 else 0)%nat.
Proof.
  induction l as [|q l IH].
  - simpl. rewrite count_open_cons. unfold count_open. simpl. lia.
  - simpl. rewrite !count_open_cons, IH. lia.
Qed.

Lemma count_open_filter_kept (l : list Position.t) :
  count_open (filter kept l) = count_open l.
Proof.
  induction l as [|p l IH]; [reflexivity|].
  rewrite count_open_cons. cbn [filter]. unfold kept at 1, Position.is_open.
  destruct (Position.status p) eqn:E; cbn [Position.Status_eqb]; cbv iota.
  - rewrite count_open_cons. unfold Position.is_open. rewrite E, IH. reflexivity.
  - rewrite IH. reflexivity.
  - rewrite count_open_cons. unfold Position.is_open. rewrite E, IH. reflexivity.
  - rewrite count_open_cons. unfold Position.is_open. rewrite E, IH. reflexivity.
Qed.

Lemma should_trade_total (self : TradingStrategy.t) (pool_event : PoolEvent) (s : Env W) :
  exists b s', should_trade W lib client self pool_event s = (Ok b, s').
Proof.
  unfold should_trade.
  destruct (TradingStrategy.enabled self); simpl; [|eexists; eexists; reflexivity].
  destruct (0 <? _)%nat; [eexists; eexists; reflexivity|].
  destruct (now_total W client s) as (t & s1 & Ht).
  rewrite (bind_ok _ _ _ _ _ _ Ht).
  destruct (Qlt_bool _ _); [eexists; eexists; reflexivity|].
  destruct (PoolPriceTable pool_event); [|eexists; eexists; reflexivity].
  destruct (Liquidity pool_event); [|eexists; eexists; reflexivity].
  destruct (_ || _); eexists; eexists; reflexivity.
Qed.

(** The gate is closed while a position is open, and the clock is not
    even read. *)
Lemma should_trade_blocked (self : TradingStrategy.t) (pool_event : PoolEvent)
  (s : Env W) :
  (0 < count_open (TradingStrategy.open_positions self))%nat ->
  should_trade W lib client self pool_event s = (Ok false, s).
Proof.
  intros H. unfold should_trade.
  destruct (TradingStrategy.enabled self); simpl; [|reflexivity].
  apply Nat.ltb_lt in H. rewrite H. reflexivity.
Qed.

Lemma should_trade_true (self : TradingStrategy.t) (pool_event : PoolEvent)
  (s s' : Env W) :
  should_trade W lib client self pool_event s = (Ok true, s') ->
  count_open (TradingStrategy.open_positions self) = 0%nat.
Proof.
  unfold should_trade.
  destruct (TradingStrategy.enabled self); simpl; [|unfold ret; intros [=]].
  destruct (0 <? _)%nat eqn:E; [unfold ret; intros [=]|].
  intros _. apply Nat.ltb_ge in E. lia.
Qed.

Lemma position_of_result_open (self : TradingStrategy.t) (pool_event : PoolEvent)
  (direction : Direction) (median_slippage : Z) (r : TradeResult.t)
  (position : Position.t) :
  position_of_result lib self pool_event direction median_slippage r = Some position ->
  Position.status position = Position.open.
Proof.
  unfold position_of_result.
  destruct (TradeResult.block_number r) as [b|]; [|discriminate].
  destruct (b =? 0); [discriminate|]. intros [= <-]. reflexivity.
Qed.

(** One run of [execute_strategy]: it returns, it does nothing while a
    position is open, and it appends at most one position, which it does
    only when none is open. *)
Lemma execute_strategy_step (self : TradingStrategy.t) (pool_event : PoolEvent)
  (s : Env W) :
  exists r self' s',
    execute_strategy W lib client self pool_event s = (Ok (r, self'), s')
    /\ ((0 < count_open (TradingStrategy.open_positions self))%nat ->
        r = None /\ self' = self /\ s' = s)
    /\ (count_open (TradingStrategy.open_positions self')
        <= Nat.max 1 (count_open (TradingStrategy.open_positions self)))%nat.
Proof.
  unfold execute_strategy.
  destruct (should_trade_total self pool_event s) as (b & s1 & Hb).
  rewrite (bind_ok _ _ _ _ _ _ Hb).
  destruct b; cbv beta iota zeta delta [negb].
  - pose proof (should_trade_true _ _ _ _ Hb) as Hzero.
    match goal with
    | |- context [bind (try_except ?m (ret None)) _] =>
        destruct (try_except_ret_total W m None s1) as (res & s2 & Hr)
    end.
    rewrite (bind_ok _ _ _ _ _ _ Hr).
    destruct (now_total W client s2) as (t & s3 & Ht).
    rewrite (bind_ok _ _ _ _ _ _ Ht).
    destruct res as [r|].
    + destruct (TradeResult.status r).
      * match goal with
        | |- context [position_of_result ?l ?sf ?ev ?d ?m ?rr] =>
            destruct (position_of_result l sf ev d m rr) as [position|] eqn:Ep
        end.
        -- apply position_of_result_open in Ep.
           eexists; eexists; eexists. split; [reflexivity|]. split; [intros Hc0; exfalso; lia|].
           cbn [TradingStrategy.set_open_positions TradingStrategy.open_positions
                TradingStrategy.count_success TradingStrategy.count_attempt].
           rewrite count_open_app. unfold Position.is_open. rewrite Ep, Hzero.
           cbn [Position.Status_eqb]. lia.
        -- eexists; eexists; eexists. split; [reflexivity|]. split; [intros Hc0; exfalso; lia|].
           cbn [TradingStrategy.open_positions TradingStrategy.count_success
                TradingStrategy.count_attempt]. lia.
      * eexists; eexists; eexists. split; [reflexivity|]. split; [intros Hc0; exfalso; lia|].
        cbn [TradingStrategy.open_positions TradingStrategy.count_success
             TradingStrategy.count_failure TradingStrategy.count_attempt]. lia.
      * eexists; eexists; eexists. split; [reflexivity|]. split; [intros Hc0; exfalso; lia|].
        cbn [TradingStrategy.open_positions TradingStrategy.count_success
             TradingStrategy.count_failure TradingStrategy.count_attempt]. lia.
    + eexists; eexists; eexists. split; [reflexivity|]. split; [intros Hc0; exfalso; lia|].
        cbn [TradingStrategy.open_positions TradingStrategy.count_success
             TradingStrategy.count_failure TradingStrategy.count_attempt]. lia.
  - destruct (count_open (TradingStrategy.open_positions self)) eqn:E.
    + eexists; eexists; eexists. split; [reflexivity|]. split; [intros Hc0; exfalso; lia|]. lia.
    + assert (s1 = s) as ->.
      { rewrite should_trade_blocked in Hb by lia. congruence. }
      eexists; eexists; eexists. split; [reflexivity|].
      split; [intros _; repeat split | lia].
Qed.

Lemma close_position_total (self : TradingStrategy.t) (p : Position.t) (s : Env W) :
  exists p' s', close_position W lib client self p s = (Ok p', s').
Proof. apply try_except_ret_total. Qed.

Lemma is_due_iff (self : TradingStrategy.t) (current_block : Z) (p : Position.t) :
  is_due self current_block p = true
  <-> Position.status p = Position.open
      /\ TradingStrategy.close_blocks self <= current_block - Position.open_block p.
Proof.
  unfold is_due, Position.is_open. rewrite andb_true_iff, Z.leb_le.
  destruct (Position.status p); simpl; split; intros [H1 H2]; split;
    try assumption; try reflexivity; discriminate.
Qed.

Lemma close_due_positions_step (self : TradingStrategy.t) (current_block : Z)
  (l : list Position.t) :
  forall s, exists l' s',
    close_due_positions W lib client self current_block l s = (Ok l', s')
    /\ (count_open l' <= count_open l)%nat.
Proof.
  induction l as [|p l IH]; intros s; simpl.
  - eexists; eexists. split; [reflexivity|lia].
  - assert (exists p' s1,
               (if is_due self current_block p
                then close_position W lib client self p else ret p) s = (Ok p', s1)
               /\ ((if Position.is_open p' then 1 else 0) <= (if Position.is_open p then 1 else 0))%nat)
      as (p' & s1 & Hp & Hc).
    { destruct (is_due self current_block p) eqn:Ed.
      - destruct (close_position_total self p s) as (p' & s1 & Hp).
        exists p', s1. split; [exact Hp|].
        apply is_due_iff in Ed. destruct Ed as [Ed _].
        unfold Position.is_open at 2. rewrite Ed. simpl. destruct (Position.is_open p'); lia.
      - exists p, s. split; [reflexivity|lia]. }
    rewrite (bind_ok _ _ _ _ _ _ Hp).
    destruct (IH s1) as (l' & s2 & Hl & Hcl).
    rewrite (bind_ok _ _ _ _ _ _ Hl).
    eexists; eexists. split; [reflexivity|].
    rewrite !count_open_cons. lia.
Qed.

Lemma check_and_close_positions_step (self : TradingStrategy.t) (current_block : Z)
  (s : Env W) :
  exists self' s',
    check_and_close_positions W lib client self current_block s = (Ok self', s')
    /\ (count_open (TradingStrategy.open_positions self')
        <= count_open (TradingStrategy.open_positions self))%nat.
Proof.
  unfold check_and_close_positions.
  destruct (TradingStrategy.enabled self); simpl.
  - destruct (close_due_positions_step self current_block
                (TradingStrategy.open_positions self) s) as (l' & s' & Hl & Hc).
    rewrite (bind_ok _ _ _ _ _ _ Hl).
    eexists; eexists. split; [reflexivity|].
    simpl. rewrite count_open_filter_kept. exact Hc.
  - eexists; eexists. split; [reflexivity|lia].
Qed.

Lemma reachable_single_open (self : TradingStrategy.t) :
  reachable W lib client self ->
  (count_open (TradingStrategy.open_positions self) <= 1)%nat.
Proof.
  induction 1 as [| self self' ev r s s' _ IH Hrun | self self' B s s' _ IH Hrun].
  - simpl. unfold count_open. simpl. lia.
  - destruct (execute_strategy_step self ev s) as (r0 & self0 & s0 & Hrun0 & _ & Hc).
    rewrite Hrun in Hrun0. injection Hrun0 as <- <- <-. lia.
  - destruct (check_and_close_positions_step self B s) as (self0 & s0 & Hrun0 & Hc).
    rewrite Hrun in Hrun0. injection Hrun0 as <- <-. lia.
Qed.


End StrategyFacts.


Example after_trade_has_one_open_position :
  count_open (TradingStrategy.open_positions SampleStrategy.after_trade) = 1%nat.
Proof. vm_compute. reflexivity. Qed.

Section ClosingFacts.

Variable W : Type.
Variable lib : PyLib.
Variable client : ChainClient W.

(** Reading a balance never raises and broadcasts nothing. *)
Lemma get_token_balance_total (token_info : option CurrencyInfo) (address : string)
  (s : Env W) :
  exists actual_balance s1,
    get_token_balance W lib client token_info address s = (Ok actual_balance, s1)
    /\ broadcasts s1 = broadcasts s.
Proof.
  unfold get_token_balance, try_except.
  destruct token_info as [info|]; [|eexists; eexists; split; reflexivity].
  destruct (get_token_address lib info) as [token_address|];
    [|eexists; eexists; split; reflexivity].
  destruct (String.eqb token_address ""); [eexists; eexists; split; reflexivity|].
  unfold bind, call, ret, lift_res.
  destruct (erc20_balanceOf client token_address address None (chain s)) as [[b|] c].
  - destruct (PyDecimal.div _ _); eexists; eexists; split; reflexivity.
  - eexists; eexists; split; reflexivity.
Qed.

Lemma close_due_positions_not_due (self : TradingStrategy.t) (current_block : Z)
  (l : list Position.t) (s : Env W) :
  (forall p, In p l -> is_due self current_block p = false) ->
  close_due_positions W lib client self current_block l s = (Ok l, s).
Proof.
  induction l as [|p l IH]; intros H; simpl; [reflexivity|].
  rewrite (H p (or_introl eq_refl)).
  unfold bind at 1. unfold ret at 1.
  unfold bind at 1. rewrite IH by (intros q Hq; apply H; right; exact Hq).
  reflexivity.
Qed.

Lemma EPSILON_pos : (0 < EPSILON)%Q.
Proof. reflexivity. Qed.

(** The loop walks past the positions that are not due. *)
Lemma close_due_positions_split (self : TradingStrategy.t) (current_block : Z)
  (l1 : list Position.t) (p : Position.t) (l2 : list Position.t) (s : Env W) :
  (forall q, In q l1 -> is_due self current_block q = false) ->
  close_due_positions W lib client self current_block (l1 ++ p :: l2) s
  = (p' <- (if is_due self current_block p
            then close_position W lib client self p
            else ret p) ;;
     rest' <- close_due_positions W lib client self current_block l2 ;;
     ret (l1 ++ p' :: rest')) s.
Proof.
  induction l1 as [|a l1 IH]; intros H; [reflexivity|].
  cbn [app close_due_positions]. rewrite (H a (or_introl eq_refl)).
  unfold bind at 1. unfold ret at 1. unfold bind at 1.
  rewrite IH by (intros q Hq; apply H; right; exact Hq).
  unfold bind, ret.
  destruct ((if is_due self current_block p
             then close_position W lib client self p
             else fun s0 => (Ok p, s0)) s) as [[p'|] s'];
    [|reflexivity].
  destruct (close_due_positions W lib client self current_block l2 s')
    as [[rest'|] s'']; reflexivity.
Qed.

(** The body of the loop on one position, once the balance is read. *)
Lemma close_position_run (self : TradingStrategy.t) (p : Position.t)
  (s s1 : Env W) (actual_balance : option Q) :
  get_token_balance W lib client (token_to_swap p)
    (DEXTrader.address (TradingStrategy.trader self)) s = (Ok actual_balance, s1) ->
  close_position W lib client self p s
  = match resolve_close_amount (Position.amount_out p) actual_balance with
    | None => (Ok (Position.set_status p Position.close_failed), s1)
    | Some amount =>
        match execute_trade W lib client (TradingStrategy.trader self)
                (Position.pool_event p) (Position.opposite_direction p) amount
                (Some (Position.slippage_bps p)) s1 with
        | (Ok (Some r), s2) =>
            (Ok match TradeResult.status r with
                | TradeResult.confirmed =>
                    Position.set_closed p (TradeResult.tx_hash r)
                      (TradeResult.block_number r)
                | TradeResult.failed => Position.set_status p Position.close_failed
                | TradeResult.pending => p
                end, s2)
        | (Ok None, s2) => (Ok (Position.set_status p Position.close_failed), s2)
        | (Raise, s2) => (Ok (Position.set_status p Position.close_error), s2)
        end
    end.
Proof.
  intros Hbal. unfold close_position.
  unfold try_except at 1. unfold bind at 1. rewrite Hbal.
  destruct (resolve_close_amount (Position.amount_out p) actual_balance)
    as [amount|]; [|reflexivity].
  unfold bind.
  destruct (execute_trade W lib client _ _ _ _ _ s1) as [[[r|]|] s2];
    try reflexivity.
  destruct (TradeResult.status r); reflexivity.
Qed.

(** The loop on a list whose first due position is [p]. *)
Lemma close_due_positions_due (self : TradingStrategy.t) (current_block : Z)
  (l1 : list Position.t) (p : Position.t) (l2 : list Position.t)
  (s s1 : Env W) (actual_balance : option Q) :
  (forall q, In q l1 -> is_due self current_block q = false) ->
  is_due self current_block p = true ->
  get_token_balance W lib client (token_to_swap p)
    (DEXTrader.address (TradingStrategy.trader self)) s = (Ok actual_balance, s1) ->
  let finish :=
    fun (p' : Position.t) (s' : Env W) =>
      (rest' <- close_due_positions W lib client self current_block l2 ;;
       ret (l1 ++ p' :: rest')) s' in
  close_due_positions W lib client self current_block (l1 ++ p :: l2) s
  = match resolve_close_amount (Position.amount_out p) actual_balance with
    | None => finish (Position.set_status p Position.close_failed) s1
    | Some amount =>
        match execute_trade W lib client (TradingStrategy.trader self)
                (Position.pool_event p) (Position.opposite_direction p)
                amount (Some (Position.slippage_bps p)) s1 with
        | (Ok (Some r), s2) =>
            finish
              match TradeResult.status r with
              | TradeResult.confirmed =>
                  Position.set_closed p (TradeResult.tx_hash r)
                    (TradeResult.block_number r)
              | TradeResult.failed => Position.set_status p Position.close_failed
              | TradeResult.pending => p
              end s2
        | (Ok None, s2) => finish (Position.set_status p Position.close_failed) s2
        | (Raise, s2) => finish (Position.set_status p Position.close_error) s2
        end
    end.
Proof.
  intros Hl1 Hdue Hbal. cbv zeta.
  rewrite (close_due_positions_split self current_block l1 p l2 s Hl1), Hdue.
  unfold bind at 1.
  rewrite (close_position_run self p s s1 actual_balance Hbal).
  destruct (resolve_close_amount (Position.amount_out p) actual_balance)
    as [amount|]; [|reflexivity].
  destruct (execute_trade W lib client _ _ _ _ _ s1) as [[[r|]|] s2];
    reflexivity.
Qed.

(** C2.  A position is closed on a tick at block B only when it is open
    and B - openBlock >= closeBlocksThreshold: when no position is due the
    tick touches neither the chain nor the positions, a disabled strategy
    closes nothing, and the tick walks past the positions that are not
    due.  On the first due position the tick reads the live balance of
    the token the opening trade received (currency B of the pool when
    the closing direction is BtoA, currency A otherwise) and resolves the
    amount from the recorded amount and the live balance: a recorded
    amount of at most epsilon gives the live balance, and [close_failed]
    when the live balance is missing or not positive; a missing live
    balance gives the recorded amount; otherwise the smaller of the two;
    and an amount that is not positive gives [close_failed].  A position
    marked [close_failed] this way is marked with nothing broadcast;
    otherwise the opposite trade is executed once with the resolved
    amount, and the position becomes closed (and leaves the list) when
    the trade is confirmed, [close_failed] when it failed or gave no
    result, [close_error] when it raised, and stays open when it is
    pending; the tick then goes on in the same way with the positions
    that follow, and drops the closed positions from the list at the
    end.  Open at block 100 with threshold 3: not due at 102, due at 103;
    recorded 0 and live balance 50 resolve to 50. *)
Theorem check_and_close_positions_spec (self : TradingStrategy.t) (current_block : Z) :
  (forall p, is_due self current_block p = true
             <-> Position.status p = Position.open
                 /\ TradingStrategy.close_blocks self
                    <= current_block - Position.open_block p)
  /\ (forall s,
      TradingStrategy.enabled self = true ->
      (forall p, In p (TradingStrategy.open_positions self) ->
                 Position.status p = Position.open ->
                 ~ TradingStrategy.close_blocks self
                   <= current_block - Position.open_block p) ->
      check_and_close_positions W lib client self current_block s
      = (Ok (TradingStrategy.set_open_positions self
               (filter kept (TradingStrategy.open_positions self))), s))
  /\ (forall s,
      TradingStrategy.enabled self = false ->
      check_and_close_positions W lib client self current_block s = (Ok self, s))
  /\ (forall stored,
      (stored <= EPSILON)%Q ->
      resolve_close_amount stored None = None
      /\ (forall actual, (actual <= 0)%Q ->
                         resolve_close_amount stored (Some actual) = None)
      /\ (forall actual, (0 < actual)%Q ->
                         resolve_close_amount stored (Some actual) = Some actual))
  /\ (forall stored,
      ~ (stored <= EPSILON)%Q ->
      resolve_close_amount stored None = Some stored
      /\ (forall actual, exists least,
            (least = stored \/ least = actual)
            /\ (least <= stored)%Q /\ (least <= actual)%Q
            /\ ((least <= 0)%Q ->
                resolve_close_amount stored (Some actual) = None)
            /\ ((0 < least)%Q ->
                resolve_close_amount stored (Some actual) = Some least)))
  /\ (forall p,
      token_to_swap p
      = match Pool (Position.pool_event p) with
        | Some pool =>
            match Position.opposite_direction p with
            | BtoA => CurrencyB pool
            | AtoB => CurrencyA pool
            end
        | None => None
        end)
  /\ (forall s l1 p l2 actual_balance s1,
      TradingStrategy.enabled self = true ->
      TradingStrategy.open_positions self = l1 ++ p :: l2 ->
      (forall q, In q l1 -> is_due self current_block q = false) ->
      is_due self current_block p = true ->
      get_token_balance W lib client (token_to_swap p)
        (DEXTrader.address (TradingStrategy.trader self)) s = (Ok actual_balance, s1) ->
      let finish :=
        fun (p' : Position.t) (s' : Env W) =>
          (rest' <- close_due_positions W lib client self current_block l2 ;;
           ret (TradingStrategy.set_open_positions self
                  (filter kept (l1 ++ p' :: rest')))) s' in
      broadcasts s1 = broadcasts s
      /\ check_and_close_positions W lib client self current_block s
         = match resolve_close_amount (Position.amount_out p) actual_balance with
           | None => finish (Position.set_status p Position.close_failed) s1
           | Some amount =>
               match execute_trade W lib client (TradingStrategy.trader self)
                       (Position.pool_event p) (Position.opposite_direction p)
                       amount (Some (Position.slippage_bps p)) s1 with
               | (Ok (Some r), s2) =>
                   finish
                     match TradeResult.status r with
                     | TradeResult.confirmed =>
                         Position.set_closed p (TradeResult.tx_hash r)
                           (TradeResult.block_number r)
                     | TradeResult.failed =>
                         Position.set_status p Position.close_failed
                     | TradeResult.pending => p
                     end s2
               | (Ok None, s2) => finish (Position.set_status p Position.close_failed) s2
               | (Raise, s2) => finish (Position.set_status p Position.close_error) s2
               end
           end)
  /\ (forall s,
      TradingStrategy.enabled self = true ->
      check_and_close_positions W lib client self current_block s
      = (positions <-
           close_due_positions W lib client self current_block
             (TradingStrategy.open_positions self) ;;
         ret (TradingStrategy.set_open_positions self (filter kept positions))) s)
  /\ (forall s l1 p l2 actual_balance s1,
      (forall q, In q l1 -> is_due self current_block q = false) ->
      is_due self current_block p = true ->
      get_token_balance W lib client (token_to_swap p)
        (DEXTrader.address (TradingStrategy.trader self)) s = (Ok actual_balance, s1) ->
      let finish :=
        fun (p' : Position.t) (s' : Env W) =>
          (rest' <- close_due_positions W lib client self current_block l2 ;;
           ret (l1 ++ p' :: rest')) s' in
      close_due_positions W lib client self current_block (l1 ++ p :: l2) s
      = match resolve_close_amount (Position.amount_out p) actual_balance with
        | None => finish (Position.set_status p Position.close_failed) s1
        | Some amount =>
            match execute_trade W lib client (TradingStrategy.trader self)
                    (Position.pool_event p) (Position.opposite_direction p)
                    amount (Some (Position.slippage_bps p)) s1 with
            | (Ok (Some r), s2) =>
                finish
                  match TradeResult.status r with
                  | TradeResult.confirmed =>
                      Position.set_closed p (TradeResult.tx_hash r)
                        (TradeResult.block_number r)
                  | TradeResult.failed =>
                      Position.set_status p Position.close_failed
                  | TradeResult.pending => p
                  end s2
            | (Ok None, s2) => finish (Position.set_status p Position.close_failed) s2
            | (Raise, s2) => finish (Position.set_status p Position.close_error) s2
            end
        end)
  /\ (forall l s,
      (forall q, In q l -> is_due self current_block q = false) ->
      close_due_positions W lib client self current_block l s = (Ok l, s))
  /\ (forall p tx_hash block_number,
      kept (Position.set_closed p tx_hash block_number) = false
      /\ kept (Position.set_status p Position.close_failed) = true
      /\ kept (Position.set_status p Position.close_error) = true
      /\ is_due self current_block (Position.set_status p Position.close_failed) = false
      /\ is_due self current_block (Position.set_status p Position.close_error) = false)
  /\ (forall p,
      TradingStrategy.close_blocks self = 3 ->
      Position.open_block p = 100 ->
      Position.status p = Position.open ->
      is_due self 102 p = false /\ is_due self 103 p = true)
  /\ resolve_close_amount 0 (Some 50%Q) = Some 50%Q.
Proof.
  split; [intros p; apply is_due_iff|].
  split; [|split; [|split; [|split; [|split; [|split; [|split; [|split; [|split;
    [|split; [|split]]]]]]]]]].
  - intros s Hen Hnot. unfold check_and_close_positions. rewrite Hen.
    cbv beta iota delta [negb].
    assert (forall p, In p (TradingStrategy.open_positions self) ->
                      is_due self current_block p = false) as Hnone.
    { intros p Hin. destruct (is_due self current_block p) eqn:E; [|reflexivity].
      apply is_due_iff in E. destruct E as [Ho Hd]. exfalso. exact (Hnot p Hin Ho Hd). }
    rewrite (bind_ok _ _ _ _ _ _
               (close_due_positions_not_due self current_block
                  (TradingStrategy.open_positions self) s Hnone)).
    reflexivity.
  - intros s Hen. unfold check_and_close_positions. rewrite Hen. reflexivity.
  - intros stored Hs. apply Qle_bool_iff in Hs. unfold resolve_close_amount; cbv beta zeta.
    rewrite Hs. split; [reflexivity|]. split.
    + intros actual Ha. apply Qle_bool_iff in Ha. rewrite Ha. reflexivity.
    + intros actual Ha.
      assert (Qle_bool actual 0 = false) as Hf
        by (apply Qle_bool_false_iff, Qlt_not_le, Ha).
      rewrite Hf. reflexivity.
  - intros stored Hs.
    assert (0 < stored)%Q as Hpos.
    { apply Qlt_trans with EPSILON; [apply EPSILON_pos|]. apply Qnot_le_lt, Hs. }
    apply Qle_bool_false_iff in Hs. unfold resolve_close_amount; cbv beta zeta. rewrite Hs.
    split.
    + assert (Qle_bool stored 0 = false) as ->
          by (apply Qle_bool_false_iff, Qlt_not_le, Hpos).
      reflexivity.
    + intros actual.
      destruct (Qlt_bool actual stored) eqn:E.
      * apply Qlt_bool_iff in E. exists actual.
        split; [right; reflexivity|]. split; [apply Qlt_le_weak, E|].
        split; [apply Qle_refl|]. split.
        -- intros H0. apply Qle_bool_iff in H0. rewrite H0. reflexivity.
        -- intros H0.
           assert (Qle_bool actual 0 = false) as ->
               by (apply Qle_bool_false_iff, Qlt_not_le, H0).
           reflexivity.
      * exists stored. split; [left; reflexivity|]. split; [apply Qle_refl|].
        split.
        { unfold Qlt_bool in E. apply negb_false_iff, Qle_bool_iff in E. exact E. }
        split.
        -- intros H0. exfalso. exact (Qlt_not_le _ _ Hpos H0).
        -- intros _.
           assert (Qle_bool stored 0 = false) as ->
               by (apply Qle_bool_false_iff, Qlt_not_le, Hpos).
           reflexivity.
  - intros p. unfold token_to_swap.
    destruct (Pool (Position.pool_event p)) as [pool|]; [|reflexivity].
    destruct (Position.opposite_direction p); reflexivity.
  - intros s l1 p l2 actual_balance s1 Hen Hopen Hl1 Hdue Hbal. cbv zeta.
    split.
    { destruct (get_token_balance_total (token_to_swap p)
                  (DEXTrader.address (TradingStrategy.trader self)) s)
        as (b & s1' & Hbal' & Hlog).
      rewrite Hbal in Hbal'. injection Hbal' as <- <-. exact Hlog. }
    unfold check_and_close_positions. rewrite Hen, Hopen.
    cbv beta iota delta [negb].
    unfold bind at 1.
    rewrite (close_due_positions_due self current_block l1 p l2 s s1 actual_balance
               Hl1 Hdue Hbal).
    assert (forall p' s',
               match (rest' <- close_due_positions W lib client self current_block l2 ;;
                      ret (l1 ++ p' :: rest')) s' with
               | (Ok a, s'') =>
                   ret (TradingStrategy.set_open_positions self (filter kept a)) s''
               | (Raise, s'') => (Raise, s'')
               end
               = (rest' <- close_due_positions W lib client self current_block l2 ;;
                  ret (TradingStrategy.set_open_positions self
                         (filter kept (l1 ++ p' :: rest')))) s') as Hfinish.
    { intros p' s'. unfold bind, ret.
      destruct (close_due_positions W lib client self current_block l2 s')
        as [[rest'|] s'']; reflexivity. }
    destruct (resolve_close_amount (Position.amount_out p) actual_balance)
      as [amount|]; [|apply Hfinish].
    destruct (execute_trade W lib client _ _ _ _ _ s1) as [[[r|]|] s2];
      apply Hfinish.
  - intros s Hen. unfold check_and_close_positions. rewrite Hen. reflexivity.
  - intros s l1 p l2 actual_balance s1 Hl1 Hdue Hbal.
    apply close_due_positions_due; assumption.
  - intros l s Hnone. apply close_due_positions_not_due, Hnone.
  - intros p tx_hash block_number. unfold is_due. repeat split.
  - intros p Hcb Hob Hst. unfold is_due, Position.is_open.
    rewrite Hcb, Hob, Hst. split; reflexivity.
  - reflexivity.
Qed.

End ClosingFacts.

Lemma check_and_close_positions_spec_witness :
  check_and_close_positions unit SampleChain.lib SampleStrategy.node
    SampleStrategy.after_trade 102 SampleChain.start
  = (Ok (TradingStrategy.set_open_positions SampleStrategy.after_trade
           (filter kept (TradingStrategy.open_positions SampleStrategy.after_trade))),
     SampleChain.start)
  /\ check_and_close_positions unit SampleChain.lib SampleStrategy.node
       (TradingStrategy.set_open_positions SampleStrategy.fresh
          [SampleStrategy.position_100 (2 * 10 ^ 15)]) 103 SampleChain.start
     = (Ok (TradingStrategy.set_open_positions SampleStrategy.fresh []),
        mkEnv tt
          [mkTransaction UNISWAP_V2_ROUTER
             (swapExactTokensForETH (10 ^ 21 + 2 * 10 ^ 18)
                1993980000000000000000000000000000
                ["0xA0b86991c6218b36c1d19D4a2e9Eb0cE3606eB48"%string; WETH_ADDRESS]
                "0x00000000000000000000000000000000000000aa" 2200)
             "0x00000000000000000000000000000000000000aa" None 300000 20000000000 7]).
Proof.
  split.
  - apply (proj1 (proj2 (check_and_close_positions_spec unit SampleChain.lib
                           SampleStrategy.node SampleStrategy.after_trade 102))).
    + reflexivity.
    + intros p Hin Hopen Hdue.
      assert (Position.open_block p = 100) as Hblock.
      { vm_compute in Hin. destruct Hin as [<-|[]]. reflexivity. }
      rewrite Hblock in Hdue. vm_compute in Hdue. apply Hdue. reflexivity.
  - pose proof (check_and_close_positions_spec unit SampleChain.lib
                  SampleStrategy.node
                  (TradingStrategy.set_open_positions SampleStrategy.fresh
                     [SampleStrategy.position_100 (2 * 10 ^ 15)]) 103) as H.
    destruct H as (_ & _ & _ & _ & _ & _ & H & _).
    specialize (H SampleChain.start [] (SampleStrategy.position_100 (2 * 10 ^ 15)) []
                  (Some 1002000000000000%Q) SampleChain.start eq_refl eq_refl).
    assert (forall q, In q [] ->
                      is_due (TradingStrategy.set_open_positions SampleStrategy.fresh
                                [SampleStrategy.position_100 (2 * 10 ^ 15)]) 103 q
                      = false) as Hnone by (intros q []).
    specialize (H Hnone eq_refl).
    assert (get_token_balance unit SampleChain.lib SampleStrategy.node
              (token_to_swap (SampleStrategy.position_100 (2 * 10 ^ 15)))
              (DEXTrader.address
                 (TradingStrategy.trader
                    (TradingStrategy.set_open_positions SampleStrategy.fresh
                       [SampleStrategy.position_100 (2 * 10 ^ 15)])))
              SampleChain.start
            = (Ok (Some 1002000000000000%Q), SampleChain.start)) as Hbalance
      by (vm_compute; reflexivity).
    specialize (H Hbalance). destruct H as [_ H].
    rewrite H. vm_compute. reflexivity.
Defined.

(** On the sample node the position opened at block 100 is closed by the
    tick at block 103, and one more transaction is broadcast. *)
Example after_trade_closed_at_103 :
  match check_and_close_positions unit SampleChain.lib SampleStrategy.node
          SampleStrategy.after_trade 103 SampleChain.start with
  | (Ok self', s') =>
      TradingStrategy.open_positions self' = []
      /\ List.length (broadcasts s') = 1%nat
  | (Raise, _) => False
  end.
Proof. vm_compute. split; reflexivity. Qed.

(** * Further properties of the code *)

(** ** Best and median slippage *)

Section SlippageFacts.

Import PriceUtils.

Lemma in_defined_slippages (prices : list PriceEntry) (v : Z) :
  In v (defined_slippages prices)
  <-> exists e, In e prices /\ SlippageBasisPoints e = Some v.
Proof.
  unfold defined_slippages. rewrite in_flat_map. split.
  - intros (e & Hin & Hv). exists e. split; [exact Hin|].
    destruct (SlippageBasisPoints e) as [s|]; [|contradiction].
    destruct Hv as [<-|[]]. reflexivity.
  - intros (e & Hin & He). exists e. split; [exact Hin|].
    rewrite He. left. reflexivity.
Qed.

(** The loop of [get_best_slippage_bps], started from any accumulator:
    the result is the least of the accumulator and the defined values. *)
Lemma best_fold (prices : list PriceEntry) :
  forall acc : option Z,
    let r :=
      fold_left
        (fun best_slippage price_entry =>
           match SlippageBasisPoints price_entry with
           | Some slippage =>
               match best_slippage with
               | None => Some slippage
               | Some b => if slippage <? b then Some slippage else Some b
               end
           | None => best_slippage
           end)
        prices acc in
    (r = None <-> acc = None /\ defined_slippages prices = [])
    /\ (forall b, r = Some b ->
        (acc = Some b \/ In b (defined_slippages prices))
        /\ (forall a, acc = Some a -> b <= a)
        /\ (forall v, In v (defined_slippages prices) -> b <= v)).
Proof.
  induction prices as [|e prices IH]; intros acc; simpl.
  - split.
    + split; [intros ->; split; reflexivity | intros [-> _]; reflexivity].
    + intros b ->. split; [left; reflexivity|]. split.
      * intros a [= <-]. lia.
      * intros v [].
  - unfold defined_slippages. simpl. fold (defined_slippages prices).
    destruct (SlippageBasisPoints e) as [sl|] eqn:Es.
    + destruct acc as [a0|].
      * destruct (sl <? a0) eqn:E.
        -- apply Z.ltb_lt in E. destruct (IH (Some sl)) as [Hn Hs]. split.
           ++ split.
              ** intros H. apply Hn in H. destruct H; discriminate.
              ** intros [H _]; discriminate.
           ++ intros b Hb. destruct (Hs b Hb) as (Hin & Hacc & Hall).
              specialize (Hacc sl eq_refl). split; [|split].
              ** right. destruct Hin as [[= <-]|Hin]; [left; reflexivity|].
                 right. exact Hin.
              ** intros a [= <-]. lia.
              ** intros v [<-|Hv]; [lia | apply Hall, Hv].
        -- apply Z.ltb_ge in E. destruct (IH (Some a0)) as [Hn Hs]. split.
           ++ split.
              ** intros H. apply Hn in H. destruct H; discriminate.
              ** intros [H _]; discriminate.
           ++ intros b Hb. destruct (Hs b Hb) as (Hin & Hacc & Hall).
              specialize (Hacc a0 eq_refl). split; [|split].
              ** destruct Hin as [Hin|Hin]; [left; exact Hin|].
                 right. right. exact Hin.
              ** intros a [= <-]. lia.
              ** intros v [<-|Hv]; [lia | apply Hall, Hv].
      * destruct (IH (Some sl)) as [Hn Hs]. split.
        -- split.
           ++ intros H. apply Hn in H. destruct H; discriminate.
           ++ intros [_ H]; discriminate.
        -- intros b Hb. destruct (Hs b Hb) as (Hin & Hacc & Hall).
           specialize (Hacc sl eq_refl). split; [|split].
           ++ right. destruct Hin as [[= <-]|Hin]; [left; reflexivity|].
              right. exact Hin.
           ++ discriminate.
           ++ intros v [<-|Hv]; [lia | apply Hall, Hv].
    + simpl. apply IH.
Qed.

(** X1.  [get_best_slippage_bps] returns the least slippage the bucket
    defines: a value of the bucket that no other value undercuts.  It
    returns [None] exactly when the bucket is absent or defines no
    slippage at all. *)
Theorem get_best_slippage_bps_least (price_table : PriceTable) (direction : Direction) :
  (get_best_slippage_bps price_table direction = None
   <-> bucket price_table direction = None
       \/ exists prices, bucket price_table direction = Some prices
                         /\ defined_slippages prices = [])
  /\ (forall b, get_best_slippage_bps price_table direction = Some b ->
      exists prices,
        bucket price_table direction = Some prices
        /\ In b (defined_slippages prices)
        /\ forall v, In v (defined_slippages prices) -> b <= v).
Proof.
  unfold get_best_slippage_bps.
  destruct (bucket price_table direction) as [prices|].
  - destruct (best_fold prices None) as [Hn Hs]. split.
    + split.
      * intros H. right. exists prices. split; [reflexivity|]. apply Hn, H.
      * intros [H|(prices' & [= <-] & H)]; [discriminate|].
        apply Hn. split; [reflexivity|exact H].
    + intros b Hb. destruct (Hs b Hb) as (Hin & _ & Hall).
      exists prices. split; [reflexivity|]. split; [|exact Hall].
      destruct Hin as [Hin|Hin]; [discriminate|exact Hin].
  - split.
    + split; [intros _; left; reflexivity | reflexivity].
    + discriminate.
Qed.

Lemma get_best_slippage_bps_least_witness :
  exists prices,
    bucket Samples.table_3 AtoB = Some prices
    /\ In 10 (defined_slippages prices)
    /\ forall v, In v (defined_slippages prices) -> 10 <= v.
Proof.
  apply (proj2 (get_best_slippage_bps_least Samples.table_3 AtoB) 10).
  reflexivity.
Defined.

Lemma get_median_none_iff (price_table : PriceTable) (direction : Direction) :
  get_median_slippage_bps price_table direction = None
  <-> bucket price_table direction = None
      \/ exists prices, bucket price_table direction = Some prices
                        /\ defined_slippages prices = [].
Proof.
  destruct (bucket price_table direction) as [prices|] eqn:Hb.
  - destruct (defined_slippages prices) as [|x rest] eqn:Hd.
    + split.
      * intros _. right. exists prices. split; [reflexivity|exact Hd].
      * intros _. unfold get_median_slippage_bps. rewrite Hb.
        destruct (List.length prices =? 0)%nat; [reflexivity|].
        rewrite collect_slippages_defined, Hd. reflexivity.
    + split.
      * intros H.
        rewrite (get_median_slippage_bps_sorted_index _ _ _ Hb) in H
          by (rewrite Hd; discriminate).
        exfalso. apply nth_error_None in H.
        rewrite (Permutation_length (py_sort_perm _)) in H.
        rewrite Hd in H. cbn [List.length] in H.
        pose proof (Nat.div_lt (S (List.length rest)) 2). lia.
      * intros [H|(prices' & [= <-] & H)]; [discriminate|].
        rewrite Hd in H. discriminate.
  - split; [intros _; left; reflexivity|].
    intros _. unfold get_median_slippage_bps. rewrite Hb. reflexivity.
Qed.

Lemma get_median_some_in (price_table : PriceTable) (direction : Direction) (m : Z) :
  get_median_slippage_bps price_table direction = Some m ->
  exists prices,
    bucket price_table direction = Some prices /\ In m (defined_slippages prices).
Proof.
  intros Hm.
  destruct (bucket price_table direction) as [prices|] eqn:Hb.
  - exists prices. split; [reflexivity|].
    destruct (defined_slippages prices) as [|x rest] eqn:Hd.
    + assert (get_median_slippage_bps price_table direction = None) as Hn.
      { apply get_median_none_iff. right. exists prices. split; assumption. }
      congruence.
    + rewrite (get_median_slippage_bps_sorted_index _ _ _ Hb) in Hm
        by (rewrite Hd; discriminate).
      rewrite <- Hd. apply (Permutation_in m (py_sort_perm _)).
      eapply nth_error_In. exact Hm.
  - unfold get_median_slippage_bps in Hm. rewrite Hb in Hm. discriminate.
Qed.

(** X2.  The best and the median slippage are defined on the same
    buckets, and the best never exceeds the median. *)
Theorem best_slippage_le_median (price_table : PriceTable) (direction : Direction) :
  (get_best_slippage_bps price_table direction = None
   <-> get_median_slippage_bps price_table direction = None)
  /\ (forall b m,
      get_best_slippage_bps price_table direction = Some b ->
      get_median_slippage_bps price_table direction = Some m ->
      b <= m).
Proof.
  split.
  - rewrite get_median_none_iff.
    unfold get_best_slippage_bps.
    destruct (bucket price_table direction) as [prices|].
    + destruct (best_fold prices None) as [Hn _]. split.
      * intros H. right. exists prices. split; [reflexivity|]. apply Hn, H.
      * intros [H|(prices' & [= <-] & H)]; [discriminate|].
        apply Hn. split; [reflexivity|exact H].
    + split; [intros _; left; reflexivity | reflexivity].
  - intros b m Hb Hm.
    destruct (get_median_some_in _ _ _ Hm) as (prices & Hbucket & Hin).
    unfold get_best_slippage_bps in Hb. rewrite Hbucket in Hb.
    destruct (best_fold prices None) as [_ Hs].
    destruct (Hs b Hb) as (_ & _ & Hall). apply Hall, Hin.
Qed.

Lemma best_slippage_le_median_witness :
  get_best_slippage_bps Samples.table_3 AtoB = Some 10
  /\ get_median_slippage_bps Samples.table_3 AtoB = Some 50
  /\ 10 <= 50.
Proof.
  split; [reflexivity|]. split; [reflexivity|].
  apply (proj2 (best_slippage_le_median Samples.table_3 AtoB) 10 50).
  - reflexivity.
  - reflexivity.
Defined.

(** X3.  Looking up the price at the median slippage of a bucket always
    finds an entry with exactly that slippage: the first-entry fallback
    of [get_price_for_slippage] is never taken on it. *)
Theorem get_price_for_slippage_at_median (price_table : PriceTable)
  (direction : Direction) (m : Z) :
  get_median_slippage_bps price_table direction = Some m ->
  exists e,
    get_price_for_slippage price_table direction m = Some e
    /\ SlippageBasisPoints e = Some m.
Proof.
  intros Hm.
  destruct (get_median_some_in _ _ _ Hm) as (prices & Hbucket & Hin).
  apply in_defined_slippages in Hin. destruct Hin as (e & Hin & He).
  unfold get_price_for_slippage. rewrite Hbucket.
  destruct (find (slippage_matches m) prices) as [e'|] eqn:Ef.
  - exists e'. split; [reflexivity|].
    apply find_some in Ef. apply slippage_matches_iff, Ef.
  - exfalso. apply slippage_matches_iff in He.
    pose proof (find_none _ _ Ef e Hin). congruence.
Qed.

Lemma get_price_for_slippage_at_median_witness :
  exists e,
    get_price_for_slippage Samples.table_3 BtoA 50 = Some e
    /\ SlippageBasisPoints e = Some 50.
Proof.
  apply (get_price_for_slippage_at_median Samples.table_3 BtoA 50).
  reflexivity.
Defined.

End SlippageFacts.

(** ** Fallbacks of the direction resolver *)

Section DirectionFallbacks.

Import PriceUtils.

Variable truediv : Q -> Q -> Q.
Variable int_of_str : string -> option Z.


Lemma compare_liquidity_coerced (liquidity : LiquidityInfo) (a b : Q) :
  coerce_amount int_of_str (AmountCurrencyA liquidity) = Some a ->
  coerce_amount int_of_str (AmountCurrencyB liquidity) = Some b ->
  _compare_liquidity_amounts int_of_str liquidity
  = Some (if Qle_bool b a then AtoB else BtoA).
Proof.
  intros Ha Hb. unfold _compare_liquidity_amounts.
  destruct (AmountCurrencyA liquidity), (AmountCurrencyB liquidity);
    try discriminate; rewrite Ha, Hb; reflexivity.
Qed.

(** X4.  [_compare_liquidity_amounts] gives no direction when an amount
    is missing or is a string that does not read as an integer; on two
    numbers it gives [AtoB] exactly when the amount of A is at least the
    amount of B, and a string that reads as an integer counts as that
    integer. *)
Theorem compare_liquidity_amounts_spec (liquidity : LiquidityInfo) :
  (AmountCurrencyA liquidity = PyNone \/ AmountCurrencyB liquidity = PyNone ->
   _compare_liquidity_amounts int_of_str liquidity = None)
  /\ (forall s,
      (AmountCurrencyA liquidity = PyStr s \/ AmountCurrencyB liquidity = PyStr s) ->
      int_of_str s = None ->
      _compare_liquidity_amounts int_of_str liquidity = None)
  /\ (forall a b,
      coerce_amount int_of_str (AmountCurrencyA liquidity) = Some a ->
      coerce_amount int_of_str (AmountCurrencyB liquidity) = Some b ->
      (_compare_liquidity_amounts int_of_str liquidity = Some AtoB <-> (b <= a)%Q)
      /\ (_compare_liquidity_amounts int_of_str liquidity = Some BtoA
          <-> ~ (b <= a)%Q)).
Proof.
  unfold _compare_liquidity_amounts. split; [|split].
  - intros [H|H]; rewrite H; [reflexivity|].
    destruct (AmountCurrencyA liquidity); reflexivity.
  - intros s [H|H] Hs; rewrite H; simpl; rewrite Hs.
    + destruct (AmountCurrencyB liquidity); reflexivity.
    + destruct (AmountCurrencyA liquidity) as [|a|sa]; try reflexivity.
      simpl. destruct (int_of_str sa); reflexivity.
  - intros a b Ha Hb.
    fold (_compare_liquidity_amounts int_of_str liquidity).
    rewrite (compare_liquidity_coerced liquidity a b Ha Hb).
    rewrite <- Qle_bool_iff.
    destruct (Qle_bool b a); repeat split; intros; congruence.
Qed.




End DirectionFallbacks.

Lemma compare_liquidity_amounts_spec_witness :
  PriceUtils._compare_liquidity_amounts (fun _ => None) (mkLiquidity (PyNum 1000) (PyNum 500))
  = Some AtoB.
Proof.
  apply (proj1 (proj2 (proj2 (compare_liquidity_amounts_spec (fun _ => None)
                                (mkLiquidity (PyNum 1000) (PyNum 500))))
                 1000%Q 500%Q eq_refl eq_refl)).
  discriminate.
Defined.


(** ** Conversions between human amounts and smallest units *)

Section ConversionExtras.

Import PyDecimal ConversionUtils.

Lemma Qtrunc_inject_Z (z : Z) : Qtrunc (inject_Z z) = z.
Proof. unfold Qtrunc; simpl. apply Z.quot_1_r. Qed.



Lemma convert_amount_to_smallest_unit_value (amount : Decimal) (decimals : Z) :
  inexact (mul_raw amount (pow10 decimals)) = false ->
  convert_amount_to_smallest_unit amount decimals
  = Qtrunc (value amount * (10 # 1) ^ decimals).
Proof.
  intros H. unfold convert_amount_to_smallest_unit.
  rewrite to_int_value. apply Qtrunc_comp.
  rewrite mul_value by exact H. rewrite pow10_value. reflexivity.
Qed.



Lemma amount_from_smallest_unit_value (amount_wei decimals : Z) (d : Decimal) :
  exact_from_smallest_unit amount_wei decimals = true ->
  amount_from_smallest_unit_decimal amount_wei decimals = Some d ->
  (value d == inject_Z amount_wei / (10 # 1) ^ decimals)%Q.
Proof.
  unfold exact_from_smallest_unit, amount_from_smallest_unit_decimal, div.
  destruct (div_raw (of_Z amount_wei) (pow10 decimals)) as [[q r]|] eqn:E;
    [|discriminate].
  intros H [= <-]. apply andb_true_iff in H. destruct H as [Hr Hq].
  apply negb_true_iff in Hr, Hq. subst r.
  rewrite fix_value by exact Hq.
  rewrite (div_raw_value _ _ _ E), pow10_value, value_of_Z. reflexivity.
Qed.

(** X7.  Round trip.  When the division of
    [convert_amount_from_smallest_unit] is exact, its decimal quotient is
    amount_wei / 10^decimals, and converting back with
    [convert_amount_to_smallest_unit] gives the integer started from,
    both on the quotient itself and on any decimal of the same value, such
    as the one read back from the float, provided the multiplication is
    exact too. *)
Theorem smallest_unit_round_trip (amount_wei decimals : Z) (d back : Decimal) :
  exact_from_smallest_unit amount_wei decimals = true ->
  amount_from_smallest_unit_decimal amount_wei decimals = Some d ->
  (value back == value d)%Q ->
  inexact (mul_raw back (pow10 decimals)) = false ->
  (value d == inject_Z amount_wei / (10 # 1) ^ decimals)%Q
  /\ convert_amount_to_smallest_unit back decimals = amount_wei.
Proof.
  intros Hex Hd Hback Hmul.
  pose proof (amount_from_smallest_unit_value _ _ _ Hex Hd) as Hv.
  split; [exact Hv|].
  rewrite (convert_amount_to_smallest_unit_value back decimals Hmul).
  transitivity (Qtrunc (inject_Z amount_wei)); [|apply Qtrunc_inject_Z].
  apply Qtrunc_comp.
  rewrite Hback, Hv. field. apply Qpow10_nz.
Qed.

Lemma smallest_unit_round_trip_witness :
  (value (mkDec 15 (-1)) == inject_Z 1500000000000000000 / (10 # 1) ^ 18)%Q
  /\ convert_amount_to_smallest_unit (mkDec 1500 (-3)) 18 = 1500000000000000000.
Proof.
  apply (smallest_unit_round_trip 1500000000000000000 18 (mkDec 15 (-1))
           (mkDec 1500 (-3))).
  - vm_compute. reflexivity.
  - vm_compute. reflexivity.
  - vm_compute. reflexivity.
  - vm_compute. reflexivity.
Defined.




End ConversionExtras.

(** ** What is handed to the node *)

Section BroadcastFacts.

Variable W : Type.
Variable lib : PyLib.
Variable client : ChainClient W.

Lemma sends_weaken {A : Type} (n k : nat) (m : M W A) :
  (n <= k)%nat -> sends_at_most n m -> sends_at_most k m.
Proof.
  intros Hnk Hm s. destruct (Hm s) as [sent [E L]].
  exists sent. split; [exact E | lia].
Qed.

Lemma sends_ret {A : Type} (a : A) : sends_at_most 0 (@ret W A a).
Proof. intros s. exists []. simpl. rewrite app_nil_r. auto. Qed.

Lemma sends_lift_res {A : Type} (r : Res A) : sends_at_most 0 (@lift_res W A r).
Proof. intros s. exists []. simpl. rewrite app_nil_r. auto. Qed.

Lemma sends_call {A : Type} (f : W -> Res A * W) : sends_at_most 0 (call f).
Proof.
  intros s. exists []. unfold call. destruct (f (chain s)); simpl.
  rewrite app_nil_r. auto.
Qed.

Lemma sends_now : sends_at_most 0 (now W client).
Proof.
  intros s. exists []. unfold now. destruct (time_time client (chain s)); simpl.
  rewrite app_nil_r. auto.
Qed.

Lemma sends_send (signed : Transaction) :
  sends_at_most 1 (send_raw_transaction W client signed).
Proof.
  intros s. exists [signed]. unfold send_raw_transaction.
  destruct (eth_send_raw_transaction client signed (chain s)); simpl. auto.
Qed.

Lemma sends_bind {A B : Type} (n k : nat) (m : M W A) (f : A -> M W B) :
  sends_at_most n m -> (forall a, sends_at_most k (f a)) ->
  sends_at_most (n + k) (bind m f).
Proof.
  intros Hm Hf s. destruct (Hm s) as [l1 [E1 L1]]. unfold bind.
  destruct (m s) as [[a|] s1]; simpl in E1.
  - destruct (Hf a s1) as [l2 [E2 L2]]. exists (l1 ++ l2).
    rewrite E2, E1, <- app_assoc, length_app. split; [reflexivity | lia].
  - exists l1. simpl. split; [exact E1 | lia].
Qed.

Lemma sends_try {A : Type} (n k : nat) (m handler : M W A) :
  sends_at_most n m -> sends_at_most k handler ->
  sends_at_most (n + k) (try_except m handler).
Proof.
  intros Hm Hh s. destruct (Hm s) as [l1 [E1 L1]]. unfold try_except.
  destruct (m s) as [[a|] s1]; simpl in E1.
  - exists l1. simpl. split; [exact E1 | lia].
  - destruct (Hh s1) as [l2 [E2 L2]]. exists (l1 ++ l2).
    rewrite E2, E1, <- app_assoc, length_app. split; [reflexivity | lia].
Qed.

Lemma sends_run {A : Type} (n : nat) (m : M W A) (s s' : Env W) (r : Res A) :
  sends_at_most n m -> m s = (r, s') ->
  exists sent, broadcasts s' = broadcasts s ++ sent /\ (List.length sent <= n)%nat.
Proof.
  intros Hm E. destruct (Hm s) as [sent H]. rewrite E in H. exact (ex_intro _ sent H).
Qed.

Lemma sends_nothing {A : Type} (m : M W A) (s s' : Env W) (r : Res A) :
  sends_at_most 0 m -> m s = (r, s') -> broadcasts s' = broadcasts s.
Proof.
  intros Hm E. destruct (sends_run 0 m s s' r Hm E) as [sent [Hs L]].
  destruct sent; [|simpl in L; lia]. rewrite app_nil_r in Hs. exact Hs.
Qed.

Lemma bind_inv_ok {A B : Type} (m : M W A) (k : A -> M W B) (s s' : Env W) (b : B) :
  bind m k s = (Ok b, s') ->
  exists a s1, m s = (Ok a, s1) /\ k a s1 = (Ok b, s').
Proof.
  unfold bind. destruct (m s) as [[a|] s1]; [|discriminate].
  intros H. exists a, s1. auto.
Qed.

Lemma try_except_inv_some {A : Type} (m : M W (option A)) (s s' : Env W) (a : A) :
  try_except m (ret None) s = (Ok (Some a), s') -> m s = (Ok (Some a), s').
Proof.
  unfold try_except, ret. destruct (m s) as [[r|] s1]; [|discriminate].
  intros H. exact H.
Qed.

End BroadcastFacts.

Ltac sends_branches :=
  repeat match goal with
         | |- sends_at_most _ (if ?b then _ else _) => destruct b
         | |- sends_at_most _ (match ?x with _ => _ end) => destruct x
         end.

Ltac sends_leaf :=
  first [ apply sends_ret | apply sends_lift_res | apply sends_call
        | apply sends_now ].

Ltac sends_none :=
  repeat first [ sends_leaf
               | apply (sends_bind _ 0 0); [|intros]
               | apply (sends_try _ 0 0)
               | progress sends_branches ].

Ltac sends_zero := apply (sends_weaken _ 0); [lia | sends_none].

(** ** Gas price, balance checks and approval *)

Section PreflightFacts.

Variable W : Type.
Variable lib : PyLib.
Variable client : ChainClient W.

Lemma sends_get_gas_price (gm : GasManager.t) (stream_gas_price_wei : option Z) :
  sends_at_most 0 (get_gas_price W lib client gm stream_gas_price_wei).
Proof. unfold get_gas_price. sends_none. Qed.

Lemma sends_check_eth_balance (amount_in : Z) (address : string)
  (gm : GasManager.t) (stream_gas_price_wei : option Z) :
  sends_at_most 0 (check_eth_balance W lib client amount_in address gm
                     stream_gas_price_wei).
Proof.
  unfold check_eth_balance.
  apply (sends_bind _ 0 0); [apply sends_get_gas_price|]. intros. sends_none.
Qed.

Lemma sends_check_and_approve_token (token_address router_address : string)
  (amount : Z) (address : string) (gm : GasManager.t)
  (stream_gas_price_wei : option Z) :
  sends_at_most 1 (check_and_approve_token W lib client token_address router_address
                     amount address gm stream_gas_price_wei).
Proof.
  unfold check_and_approve_token.
  apply (sends_bind _ 0 1); [sends_none|]. intros token.
  apply (sends_bind _ 0 1); [sends_none|]. intros insufficient.
  destruct insufficient; [apply (sends_weaken _ 0); [lia | apply sends_ret]|].
  apply (sends_bind _ 0 1); [apply sends_get_gas_price|]. intros gas_price.
  apply (sends_bind _ 0 1); [sends_none|]. intros balance_wei.
  cbv zeta.
  destruct (balance_wei <? _); [sends_zero|].
  apply (sends_bind _ 0 1); [sends_none|]. intros allowance.
  destruct (allowance <? amount); [|apply (sends_weaken _ 0); [lia | apply sends_ret]].
  apply (sends_bind _ 0 1); [sends_none|]. intros nonce.
  apply (sends_bind _ 0 1); [sends_none|]. intros approve_txn.
  apply (sends_bind _ 0 1); [sends_none|]. intros signed_approve.
  apply (sends_bind _ 1 0); [apply sends_send|]. intros approve_tx_hash.
  sends_none.
Qed.


(** X10.  [check_eth_balance] hands nothing to the node.  When the gas
    price and the balance are obtained, it answers [True] exactly when
    the balance covers the amount plus 300000 gas at that gas price, and
    [False] otherwise unless the warning cannot format the two amounts.
    It raises exactly when [get_gas_price] raises, the balance query
    raises, or the balance is short and the warning cannot format an
    amount. *)
Theorem check_eth_balance_spec (amount_in : Z) (address : string)
  (gm : GasManager.t) (stream_gas_price_wei : option Z) (s : Env W) :
  let run :=
    check_eth_balance W lib client amount_in address gm stream_gas_price_wei in
  let gas := get_gas_price W lib client gm stream_gas_price_wei s in
  sends_at_most 0 run
  /\ (forall gas_price s1 balance c,
      gas = (Ok gas_price, s1) ->
      eth_get_balance client address None (chain s1) = (Ok balance, c) ->
      run s
      = (if amount_in + gas_price * 300000 <=? balance then Ok true
         else match from_wei_ether lib (amount_in + gas_price * 300000),
                    from_wei_ether lib balance with
              | Ok _, Ok _ => Ok false
              | _, _ => Raise
              end,
         mkEnv c (broadcasts s)))
  /\ (fst (run s) = Raise
      <-> fst gas = Raise
          \/ exists gas_price s1,
               gas = (Ok gas_price, s1)
               /\ (fst (eth_get_balance client address None (chain s1)) = Raise
                   \/ exists balance,
                        fst (eth_get_balance client address None (chain s1)) = Ok balance
                        /\ balance < amount_in + gas_price * 300000
                        /\ (from_wei_ether lib (amount_in + gas_price * 300000) = Raise
                            \/ from_wei_ether lib balance = Raise))).
Proof.
  cbv zeta. split; [apply sends_check_eth_balance|].
  assert (forall gas_price s1 balance c,
      get_gas_price W lib client gm stream_gas_price_wei s = (Ok gas_price, s1) ->
      eth_get_balance client address None (chain s1) = (Ok balance, c) ->
      check_eth_balance W lib client amount_in address gm stream_gas_price_wei s
      = (if amount_in + gas_price * 300000 <=? balance then Ok true
         else match from_wei_ether lib (amount_in + gas_price * 300000),
                    from_wei_ether lib balance with
              | Ok _, Ok _ => Ok false
              | _, _ => Raise
              end,
         mkEnv c (broadcasts s))) as Hok.
  { intros gas_price s1 balance c Hgas Hb.
    pose proof (sends_nothing _ _ _ _ _ (sends_get_gas_price gm stream_gas_price_wei) Hgas)
      as Hlog.
    unfold check_eth_balance. rewrite (bind_ok _ _ _ _ _ _ Hgas).
    unfold bind at 1. unfold call at 1. rewrite Hb, Hlog. cbv zeta.
    destruct (Z.ltb_spec balance (amount_in + gas_price * 300000));
      destruct (Z.leb_spec (amount_in + gas_price * 300000) balance);
      try lia; [|reflexivity].
    unfold bind, lift_res, ret.
    destruct (from_wei_ether lib (amount_in + gas_price * 300000)); [|reflexivity].
    destruct (from_wei_ether lib balance); reflexivity. }
  split; [exact Hok|].
  destruct (get_gas_price W lib client gm stream_gas_price_wei s)
    as [[gas_price|] s1] eqn:Hgas.
  - destruct (eth_get_balance client address None (chain s1)) as [[balance|] c] eqn:Hb.
    + rewrite (Hok _ _ _ _ eq_refl Hb). cbn [fst].
      destruct (Z.leb_spec (amount_in + gas_price * 300000) balance) as [Hle|Hlt].
      * split; [discriminate|].
        intros [H|(g & s2 & Hg & [H|(b & Hb' & Hlt & _)])];
          [discriminate | | ].
        -- injection Hg as Hg1 Hg2. subst g s2. rewrite Hb in H.
           discriminate H.
        -- injection Hg as Hg1 Hg2. subst g s2. rewrite Hb in Hb'.
           cbn [fst] in Hb'. injection Hb' as <-. lia.
      * split.
        -- intros H. right. exists gas_price, s1. split; [reflexivity|].
           right. exists balance. split; [rewrite Hb; reflexivity|].
           split; [exact Hlt|].
           destruct (from_wei_ether lib (amount_in + gas_price * 300000));
             [|left; reflexivity].
           destruct (from_wei_ether lib balance); [discriminate H | right; reflexivity].
        -- intros [H|(g & s2 & Hg & [H|(b & Hb' & _ & H)])]; [discriminate | | ].
           ++ injection Hg as Hg1 Hg2. subst g s2. rewrite Hb in H.
              discriminate H.
           ++ injection Hg as Hg1 Hg2. subst g s2. rewrite Hb in Hb'.
              cbn [fst] in Hb'. injection Hb' as <-.
              destruct H as [H|H]; rewrite H; [reflexivity|].
              destruct (from_wei_ether lib (amount_in + gas_price * 300000));
                reflexivity.
    + unfold check_eth_balance. rewrite (bind_ok _ _ _ _ _ _ Hgas).
      unfold bind, call. rewrite Hb. cbn [fst]. split; [|reflexivity].
      intros _. right. exists gas_price, s1. split; [reflexivity|]. left.
      rewrite Hb. reflexivity.
  - unfold check_eth_balance, bind. rewrite Hgas. cbn [fst].
    split; [|reflexivity]. intros _. left. reflexivity.
Qed.

(** X11.  [check_and_approve_token] fails closed: a malformed token
    address raises before anything is read, and a balance query that
    raises or shows less than the amount gives [False] with nothing
    handed to the node; in every run at most one transaction, the
    approval, is handed over. *)
Theorem check_and_approve_token_fails_closed (token_address router_address : string)
  (amount : Z) (address : string) (gm : GasManager.t)
  (stream_gas_price_wei : option Z) (s : Env W) :
  let run :=
    check_and_approve_token W lib client token_address router_address amount
      address gm stream_gas_price_wei in
  sends_at_most 1 run
  /\ (to_checksum_address lib token_address = Raise -> run s = (Raise, s))
  /\ (forall token c,
      to_checksum_address lib token_address = Ok token ->
      erc20_balanceOf client token address None (chain s) = (Raise, c) ->
      run s = (Ok false, mkEnv c (broadcasts s)))
  /\ (forall token token_balance c,
      to_checksum_address lib token_address = Ok token ->
      erc20_balanceOf client token address None (chain s) = (Ok token_balance, c) ->
      token_balance < amount ->
      run s = (Ok false, mkEnv c (broadcasts s))).
Proof.
  cbv zeta. split; [apply sends_check_and_approve_token|].
  unfold check_and_approve_token. repeat split.
  - intros H. rewrite H. reflexivity.
  - intros token c H Hb. rewrite H.
    unfold bind at 1. unfold lift_res at 1.
    unfold bind at 1. unfold try_except, bind, call. rewrite Hb. reflexivity.
  - intros token token_balance c H Hb Hlt. rewrite H.
    unfold bind at 1. unfold lift_res at 1.
    unfold bind at 1. unfold try_except, bind, call. rewrite Hb.
    unfold ret. apply Z.ltb_lt in Hlt. rewrite Hlt. reflexivity.
Qed.

End PreflightFacts.


Lemma check_eth_balance_spec_witness :
  check_eth_balance unit SampleChain.lib SampleStrategy.node (10 ^ 18)
    "0x00000000000000000000000000000000000000aa" (GasManager.mk None 200)
    (Some 20000000000) SampleChain.start
  = (Ok true, mkEnv tt (broadcasts SampleChain.start))
  /\ check_eth_balance unit SampleChain.lib SampleStrategy.node (10 ^ 22)
       "0x00000000000000000000000000000000000000aa" (GasManager.mk None 200)
       (Some 20000000000) SampleChain.start
     = (Ok false, mkEnv tt (broadcasts SampleChain.start)).
Proof.
  split.
  - apply (proj1 (proj2
      (check_eth_balance_spec unit SampleChain.lib SampleStrategy.node (10 ^ 18)
         "0x00000000000000000000000000000000000000aa" (GasManager.mk None 200)
         (Some 20000000000) SampleChain.start))
      20000000000 SampleChain.start (10 ^ 21 + 2 * 10 ^ 18) tt);
      reflexivity.
  - apply (proj1 (proj2
      (check_eth_balance_spec unit SampleChain.lib SampleStrategy.node (10 ^ 22)
         "0x00000000000000000000000000000000000000aa" (GasManager.mk None 200)
         (Some 20000000000) SampleChain.start))
      20000000000 SampleChain.start (10 ^ 21 + 2 * 10 ^ 18) tt);
      reflexivity.
Defined.

Lemma check_and_approve_token_fails_closed_witness :
  check_and_approve_token unit SampleChain.lib
    (SampleChain.client (Ok 5000000000) SampleChain.offline Raise)
    "0xA0b86991c6218b36c1d19D4a2e9Eb0cE3606eB48" UNISWAP_V2_ROUTER 1000
    "0x00000000000000000000000000000000000000aa" (GasManager.mk None 200) None
    SampleChain.start
  = (Ok false, mkEnv tt (broadcasts SampleChain.start)).
Proof.
  apply (proj1 (proj2 (proj2
    (check_and_approve_token_fails_closed unit SampleChain.lib
       (SampleChain.client (Ok 5000000000) SampleChain.offline Raise)
       "0xA0b86991c6218b36c1d19D4a2e9Eb0cE3606eB48" UNISWAP_V2_ROUTER 1000
       "0x00000000000000000000000000000000000000aa" (GasManager.mk None 200) None
       SampleChain.start)))
    "0xA0b86991c6218b36c1d19D4a2e9Eb0cE3606eB48"%string tt).
  - reflexivity.
  - reflexivity.
Defined.

(** ** Transactions handed over by a swap *)

Section SwapFacts.

Variable W : Type.
Variable lib : PyLib.
Variable client : ChainClient W.

Lemma sends_default_deadline (deadline : option Z) :
  sends_at_most 0 (default_deadline W client deadline).
Proof. unfold default_deadline. sends_none. Qed.

Lemma send_raw_transaction_run (signed : Transaction) (s s' : Env W) (h : string) :
  send_raw_transaction W client signed s = (Ok h, s') ->
  broadcasts s' = broadcasts s ++ [signed]
  /\ fst (eth_send_raw_transaction client signed (chain s)) = Ok h.
Proof.
  unfold send_raw_transaction.
  destruct (eth_send_raw_transaction client signed (chain s)) as [r c].
  intros [= -> <-]. auto.
Qed.

Ltac same_log E :=
  match type of E with
  | ?m ?s = _ =>
      let Hs := fresh "Hs" in
      let Hl := fresh "Hlog" in
      assert (Hs : sends_at_most 0 m) by sends_none;
      pose proof (sends_nothing _ _ _ _ _ Hs E) as Hl; clear Hs
  end.

Lemma uniswap_v3_execute_swap_bound (address : string) (gm : GasManager.t)
  (token_in_address token_out_address : string) (amount_in amount_out_min fee : Z)
  (deadline stream_gas_price_wei : option Z) (k : nat) :
  sends_at_most k
    (if String.eqb (lower token_in_address) (lower WETH_ADDRESS)
     then check_eth_balance W lib client amount_in address gm stream_gas_price_wei
     else check_and_approve_token W lib client token_in_address UNISWAP_V3_ROUTER
            amount_in address gm stream_gas_price_wei) ->
  sends_at_most (k + 1)
    (uniswap_v3_execute_swap W lib client address gm token_in_address
       token_out_address amount_in amount_out_min fee deadline stream_gas_price_wei).
Proof.
  intros Hcheck. unfold uniswap_v3_execute_swap.
  apply (sends_bind _ 0 (k + 1)); [apply sends_default_deadline|]. intros d.
  apply (sends_weaken _ (k + 1 + 0)); [lia|].
  apply sends_try; [|apply sends_ret].
  apply (sends_bind _ 0 (k + 1)); [apply sends_get_gas_price|]. intros gas_price.
  cbv zeta.
  apply (sends_bind _ k 1); [exact Hcheck|]. intros ok.
  destruct ok; cbv beta iota zeta delta [negb];
    [|apply (sends_weaken _ 0); [lia | apply sends_ret]].
  apply (sends_bind _ 0 1); [sends_none|]. intros nonce.
  apply (sends_bind _ 0 1); [sends_none|]. intros token_in.
  apply (sends_bind _ 0 1); [sends_none|]. intros token_out.
  apply (sends_bind _ 0 1); [sends_none|]. intros transaction.
  apply (sends_bind _ 0 1); [sends_none|]. intros signed_txn.
  apply (sends_bind _ 1 0); [apply sends_send|]. intros tx_hash.
  apply sends_ret.
Qed.

Lemma uniswap_v2_execute_swap_bound (address : string) (gm : GasManager.t)
  (token_in_address token_out_address : string) (amount_in amount_out_min : Z)
  (deadline stream_gas_price_wei : option Z) (k : nat) :
  sends_at_most k
    (if String.eqb (lower token_in_address) (lower WETH_ADDRESS)
     then check_eth_balance W lib client amount_in address gm stream_gas_price_wei
     else check_and_approve_token W lib client token_in_address UNISWAP_V2_ROUTER
            amount_in address gm stream_gas_price_wei) ->
  sends_at_most (k + 1)
    (uniswap_v2_execute_swap W lib client address gm token_in_address
       token_out_address amount_in amount_out_min deadline stream_gas_price_wei).
Proof.
  intros Hcheck. unfold uniswap_v2_execute_swap.
  apply (sends_bind _ 0 (k + 1)); [apply sends_default_deadline|]. intros d.
  apply (sends_bind _ 0 (k + 1)); [sends_none|]. intros path_in.
  apply (sends_bind _ 0 (k + 1)); [sends_none|]. intros path_out.
  cbv zeta.
  apply (sends_weaken _ (k + 1 + 0)); [lia|].
  apply sends_try; [|apply sends_ret].
  apply (sends_bind _ 0 (k + 1)); [apply sends_get_gas_price|]. intros gas_price.
  apply (sends_bind _ k 1).
  { destruct (String.eqb (lower token_in_address) (lower WETH_ADDRESS));
      [exact Hcheck|].
    destruct (String.eqb (lower token_out_address) (lower WETH_ADDRESS));
      exact Hcheck. }
  intros ok.
  destruct ok; cbv beta iota zeta delta [negb];
    [|apply (sends_weaken _ 0); [lia | apply sends_ret]].
  apply (sends_bind _ 0 1); [sends_none|]. intros nonce.
  apply (sends_bind _ 0 1); [sends_none|]. intros transaction.
  apply (sends_bind _ 0 1); [sends_none|]. intros signed_txn.
  apply (sends_bind _ 1 0); [apply sends_send|]. intros tx_hash.
  apply sends_ret.
Qed.

Lemma sends_preflight (router : string) (address : string) (gm : GasManager.t)
  (token_in_address : string) (amount_in : Z) (stream_gas_price_wei : option Z) :
  sends_at_most 1
    (if String.eqb (lower token_in_address) (lower WETH_ADDRESS)
     then check_eth_balance W lib client amount_in address gm stream_gas_price_wei
     else check_and_approve_token W lib client token_in_address router
            amount_in address gm stream_gas_price_wei).
Proof.
  destruct (String.eqb (lower token_in_address) (lower WETH_ADDRESS)).
  - apply (sends_weaken _ 0); [lia | apply sends_check_eth_balance].
  - apply sends_check_and_approve_token.
Qed.

Lemma sends_uniswap_v2_execute_swap (address : string) (gm : GasManager.t)
  (token_in_address token_out_address : string) (amount_in amount_out_min : Z)
  (deadline stream_gas_price_wei : option Z) :
  sends_at_most 2
    (uniswap_v2_execute_swap W lib client address gm token_in_address
       token_out_address amount_in amount_out_min deadline stream_gas_price_wei).
Proof. apply (uniswap_v2_execute_swap_bound _ _ _ _ _ _ _ _ 1), sends_preflight. Qed.

Lemma sends_uniswap_v3_execute_swap (address : string) (gm : GasManager.t)
  (token_in_address token_out_address : string) (amount_in amount_out_min fee : Z)
  (deadline stream_gas_price_wei : option Z) :
  sends_at_most 2
    (uniswap_v3_execute_swap W lib client address gm token_in_address
       token_out_address amount_in amount_out_min fee deadline stream_gas_price_wei).
Proof. apply (uniswap_v3_execute_swap_bound _ _ _ _ _ _ _ _ _ 1), sends_preflight. Qed.

(** X12.  A swap on the V2 router hands at most two transactions to the
    node, the approval and the swap, and at most one when the input is
    the wrapped native token; a hash is returned only for a transaction
    that was handed over last, and is the answer of the node to it. *)
Theorem uniswap_v2_execute_swap_broadcasts (address : string) (gm : GasManager.t)
  (token_in_address token_out_address : string) (amount_in amount_out_min : Z)
  (deadline stream_gas_price_wei : option Z) :
  let swap :=
    uniswap_v2_execute_swap W lib client address gm token_in_address
      token_out_address amount_in amount_out_min deadline stream_gas_price_wei in
  sends_at_most 2 swap
  /\ (String.eqb (lower token_in_address) (lower WETH_ADDRESS) = true ->
      sends_at_most 1 swap)
  /\ (forall s s' tx_hash,
      swap s = (Ok (Some tx_hash), s') ->
      exists before signed c,
        broadcasts s' = broadcasts s ++ before ++ [signed]
        /\ (List.length before <= 1)%nat
        /\ fst (eth_send_raw_transaction client signed c) = Ok tx_hash).
Proof.
  cbv zeta. split; [apply sends_uniswap_v2_execute_swap|]. split.
  - intros Heth. apply (uniswap_v2_execute_swap_bound _ _ _ _ _ _ _ _ 0).
    rewrite Heth. apply sends_check_eth_balance.
  - intros s s' tx_hash H. unfold uniswap_v2_execute_swap in H.
    apply bind_inv_ok in H. destruct H as (d & s1 & E1 & H).
    apply bind_inv_ok in H. destruct H as (path_in & s2 & E2 & H).
    apply bind_inv_ok in H. destruct H as (path_out & s3 & E3 & H).
    cbv zeta in H. apply try_except_inv_some in H.
    apply bind_inv_ok in H. destruct H as (gas_price & s4 & E4 & H).
    apply bind_inv_ok in H. destruct H as (ok & s5 & E5 & H).
    destruct ok; cbv beta iota zeta delta [negb] in H; [|discriminate H].
    apply bind_inv_ok in H. destruct H as (nonce & s6 & E6 & H).
    apply bind_inv_ok in H. destruct H as (transaction & s7 & E7 & H).
    apply bind_inv_ok in H. destruct H as (signed_txn & s8 & E8 & H).
    apply bind_inv_ok in H. destruct H as (h & s9 & E9 & H).
    injection H as -> <-.
    pose proof (sends_nothing _ _ _ _ _ (sends_default_deadline deadline) E1) as L1.
    same_log E2. same_log E3.
    pose proof (sends_nothing _ _ _ _ _ (sends_get_gas_price _ _ _ _ _) E4) as L4.
    assert (exists before, broadcasts s5 = broadcasts s4 ++ before
                           /\ (List.length before <= 1)%nat) as (before & L5 & Hlen).
    { refine (sends_run _ 1 _ _ _ _ _ E5).
      destruct (String.eqb (lower token_in_address) (lower WETH_ADDRESS)).
      - apply (sends_weaken _ 0); [lia | apply sends_check_eth_balance].
      - destruct (String.eqb (lower token_out_address) (lower WETH_ADDRESS));
          apply sends_check_and_approve_token. }
    same_log E6. same_log E7. same_log E8.
    destruct (send_raw_transaction_run _ _ _ _ E9) as [L9 Hnode].
    exists before, signed_txn, (chain s8). repeat split; [|exact Hlen|exact Hnode].
    rewrite L9, app_assoc. f_equal. congruence.
Qed.

(** X13.  A swap on the V3 router never raises; it hands at most two
    transactions to the node, at most one when the input is the wrapped
    native token; a hash is returned only for a transaction that was
    handed over last, and is the answer of the node to it. *)
Theorem uniswap_v3_execute_swap_broadcasts (address : string) (gm : GasManager.t)
  (token_in_address token_out_address : string) (amount_in amount_out_min fee : Z)
  (deadline stream_gas_price_wei : option Z) :
  let swap :=
    uniswap_v3_execute_swap W lib client address gm token_in_address
      token_out_address amount_in amount_out_min fee deadline stream_gas_price_wei in
  sends_at_most 2 swap
  /\ (String.eqb (lower token_in_address) (lower WETH_ADDRESS) = true ->
      sends_at_most 1 swap)
  /\ (forall s, exists r s', swap s = (Ok r, s'))
  /\ (forall s s' tx_hash,
      swap s = (Ok (Some tx_hash), s') ->
      exists before signed c,
        broadcasts s' = broadcasts s ++ before ++ [signed]
        /\ (List.length before <= 1)%nat
        /\ fst (eth_send_raw_transaction client signed c) = Ok tx_hash).
Proof.
  cbv zeta. split; [apply sends_uniswap_v3_execute_swap|]. split; [|split].
  - intros Heth. apply (uniswap_v3_execute_swap_bound _ _ _ _ _ _ _ _ _ 0).
    rewrite Heth. apply sends_check_eth_balance.
  - intros s. apply uniswap_v3_execute_swap_never_raises.
  - intros s s' tx_hash H. unfold uniswap_v3_execute_swap in H.
    apply bind_inv_ok in H. destruct H as (d & s1 & E1 & H).
    apply try_except_inv_some in H.
    apply bind_inv_ok in H. destruct H as (gas_price & s4 & E4 & H).
    cbv zeta in H.
    apply bind_inv_ok in H. destruct H as (ok & s5 & E5 & H).
    destruct ok; cbv beta iota zeta delta [negb] in H; [|discriminate H].
    apply bind_inv_ok in H. destruct H as (nonce & s6 & E6 & H).
    apply bind_inv_ok in H. destruct H as (token_in & s7 & E7 & H).
    apply bind_inv_ok in H. destruct H as (token_out & s8 & E8 & H).
    apply bind_inv_ok in H. destruct H as (transaction & s9 & E9 & H).
    apply bind_inv_ok in H. destruct H as (signed_txn & s10 & E10 & H).
    apply bind_inv_ok in H. destruct H as (h & s11 & E11 & H).
    injection H as -> <-.
    pose proof (sends_nothing _ _ _ _ _ (sends_default_deadline deadline) E1) as L1.
    pose proof (sends_nothing _ _ _ _ _ (sends_get_gas_price _ _ _ _ _) E4) as L4.
    destruct (sends_run _ 1 _ _ _ _ (sends_preflight _ _ _ _ _ _) E5)
      as (before & L5 & Hlen).
    same_log E6. same_log E7. same_log E8. same_log E9. same_log E10.
    destruct (send_raw_transaction_run _ _ _ _ E11) as [L11 Hnode].
    exists before, signed_txn, (chain s10). repeat split; [|exact Hlen|exact Hnode].
    rewrite L11, app_assoc. f_equal. congruence.
Qed.

End SwapFacts.

Lemma uniswap_v2_execute_swap_broadcasts_witness :
  String.eqb (lower WETH_ADDRESS) (lower WETH_ADDRESS) = true
  /\ sends_at_most 1
       (uniswap_v2_execute_swap unit SampleChain.lib SampleStrategy.node
          "0x00000000000000000000000000000000000000aa" (GasManager.mk None 200)
          WETH_ADDRESS "0xA0b86991c6218b36c1d19D4a2e9Eb0cE3606eB48"
          (10 ^ 18) 1 None None).
Proof.
  split; [reflexivity|].
  apply (proj1 (proj2
    (uniswap_v2_execute_swap_broadcasts unit SampleChain.lib SampleStrategy.node
       "0x00000000000000000000000000000000000000aa" (GasManager.mk None 200)
       WETH_ADDRESS "0xA0b86991c6218b36c1d19D4a2e9Eb0cE3606eB48"
       (10 ^ 18) 1 None None))).
  reflexivity.
Defined.

Lemma uniswap_v3_execute_swap_broadcasts_witness :
  String.eqb (lower WETH_ADDRESS) (lower WETH_ADDRESS) = true
  /\ sends_at_most 1
       (uniswap_v3_execute_swap unit SampleChain.lib SampleStrategy.node
          "0x00000000000000000000000000000000000000aa" (GasManager.mk None 200)
          WETH_ADDRESS "0xA0b86991c6218b36c1d19D4a2e9Eb0cE3606eB48"
          (10 ^ 18) 1 3000 None None).
Proof.
  split; [reflexivity|].
  apply (proj1 (proj2
    (uniswap_v3_execute_swap_broadcasts unit SampleChain.lib SampleStrategy.node
       "0x00000000000000000000000000000000000000aa" (GasManager.mk None 200)
       WETH_ADDRESS "0xA0b86991c6218b36c1d19D4a2e9Eb0cE3606eB48"
       (10 ^ 18) 1 3000 None None))).
  reflexivity.
Defined.

(** ** Balances and the amount received *)

Section BalanceFacts.

Variable W : Type.
Variable lib : PyLib.
Variable client : ChainClient W.

Lemma sends_balance_delta_amount (receipt : Receipt.t) (token_out_address : string)
  (decimals_out : Z) (address : string) :
  sends_at_most 0
    (balance_delta_amount W lib client receipt token_out_address decimals_out address).
Proof. unfold balance_delta_amount. cbv zeta. sends_none. Qed.

Lemma sends_calculate_actual_amount_out (receipt : Receipt.t)
  (token_out_address : string) (decimals_out : Z) (address : string)
  (expected_out : Q) :
  sends_at_most 0
    (calculate_actual_amount_out W lib client receipt token_out_address decimals_out
       address expected_out).
Proof.
  unfold calculate_actual_amount_out.
  apply (sends_try _ 0 0); [|apply sends_ret].
  apply (sends_bind _ 0 0); [apply sends_balance_delta_amount|].
  intros. sends_none.
Qed.

Lemma calculate_actual_amount_out_total (receipt : Receipt.t)
  (token_out_address : string) (decimals_out : Z) (address : string)
  (expected_out : Q) (s : Env W) :
  exists a s',
    calculate_actual_amount_out W lib client receipt token_out_address decimals_out
      address expected_out s = (Ok a, s')
    /\ broadcasts s' = broadcasts s.
Proof.
  destruct (try_except_ret_total W
              (actual_amount_out <-
                 balance_delta_amount W lib client receipt token_out_address
                   decimals_out address ;;
               if Qle_bool actual_amount_out 0 then ret expected_out
               else if Qlt_bool actual_amount_out (expected_out * (1 # 2))
                    then ret expected_out
                    else ret actual_amount_out)
              expected_out s) as (a & s' & E).
  exists a, s'. split; [exact E|].
  exact (sends_nothing _ _ _ _ _
           (sends_calculate_actual_amount_out receipt token_out_address decimals_out
              address expected_out) E).
Qed.

Lemma Qhalf_le (q : Q) : (0 <= q)%Q -> (q * (1 # 2) <= q)%Q.
Proof.
  intros H. rewrite <- (Qmult_1_r q) at 2.
  rewrite !(Qmult_comm q). apply Qmult_le_compat_r; [discriminate | exact H].
Qed.

(** X14.  The amount recorded for a confirmed trade: the reconciler
    never raises and hands nothing to the node; its result is the
    expected amount or a positive amount of at least half the expected
    one, so it is never below half the expected amount when that is not
    negative, and it is positive when the expected amount is. *)
Theorem calculate_actual_amount_out_floor (receipt : Receipt.t)
  (token_out_address : string) (decimals_out : Z) (address : string)
  (expected_out : Q) (s : Env W) :
  exists a s',
    calculate_actual_amount_out W lib client receipt token_out_address decimals_out
      address expected_out s = (Ok a, s')
    /\ broadcasts s' = broadcasts s
    /\ (a = expected_out \/ ((0 < a)%Q /\ (expected_out * (1 # 2) <= a)%Q))
    /\ ((0 <= expected_out)%Q -> (expected_out * (1 # 2) <= a)%Q)
    /\ ((0 < expected_out)%Q -> (0 < a)%Q).
Proof.
  destruct (calculate_actual_amount_out_total receipt token_out_address decimals_out
              address expected_out s) as (a & s' & E & Hlog).
  exists a, s'. split; [exact E|]. split; [exact Hlog|].
  assert (a = expected_out \/ ((0 < a)%Q /\ (expected_out * (1 # 2) <= a)%Q)) as Hcases.
  { revert E. unfold calculate_actual_amount_out, try_except, bind.
    destruct (balance_delta_amount W lib client receipt token_out_address decimals_out
                address s) as [[actual|] s1].
    - destruct (Qle_bool actual 0) eqn:E0.
      + intros [= <- _]. left. reflexivity.
      + destruct (Qlt_bool actual (expected_out * (1 # 2))) eqn:E1.
        * intros [= <- _]. left. reflexivity.
        * intros [= <- _]. right. split.
          -- apply Qle_bool_false_iff in E0. apply Qnot_le_lt, E0.
          -- unfold Qlt_bool in E1. apply negb_false_iff in E1.
             apply Qle_bool_iff in E1. exact E1.
    - intros [= <- _]. left. reflexivity. }
  split; [exact Hcases|]. split.
  - intros Hpos. destruct Hcases as [-> | [_ H]]; [apply Qhalf_le, Hpos | exact H].
  - intros Hpos. destruct Hcases as [-> | [H _]]; [exact Hpos | exact H].
Qed.

(** X15.  [get_token_balance] never raises and hands nothing to the
    node: without a usable token address, or when the query raises, the
    answer is [None]; otherwise it is the balance the node reports,
    converted as [convert_amount_from_smallest_unit] converts it with the
    decimals of the token. *)
Theorem get_token_balance_spec (info : CurrencyInfo) (address : string) (s : Env W) :
  get_token_balance W lib client None address s = (Ok None, s)
  /\ (get_token_address lib info = None ->
      get_token_balance W lib client (Some info) address s = (Ok None, s))
  /\ (forall token,
      get_token_address lib info = Some token -> token <> ""%string ->
      (forall balance_wei c,
          erc20_balanceOf client token address None (chain s) = (Ok balance_wei, c) ->
          get_token_balance W lib client (Some info) address s
          = (Ok (convert_amount_from_smallest_unit lib balance_wei (Decimals info)),
             mkEnv c (broadcasts s)))
      /\ (forall c,
          erc20_balanceOf client token address None (chain s) = (Raise, c) ->
          get_token_balance W lib client (Some info) address s
          = (Ok None, mkEnv c (broadcasts s)))).
Proof.
  unfold get_token_balance. split; [reflexivity|]. split.
  - intros H. rewrite H. reflexivity.
  - intros token H Hne. rewrite H.
    apply String.eqb_neq in Hne. rewrite Hne. split.
    + intros balance_wei c Hb. unfold try_except, bind, call. rewrite Hb.
      unfold convert_amount_from_smallest_unit, amount_from_smallest_unit_decimal.
      destruct (div_pow10_some (PyDecimal.of_Z balance_wei) (Decimals info)) as [d Hd].
      rewrite Hd. reflexivity.
    + intros c Hb. unfold try_except, bind, call. rewrite Hb. reflexivity.
Qed.

End BalanceFacts.

Lemma get_token_balance_spec_witness :
  get_token_balance unit SampleChain.lib SampleStrategy.node (Some SampleEvents.usdc)
    "0x00000000000000000000000000000000000000aa" SampleChain.start
  = (Ok (convert_amount_from_smallest_unit SampleChain.lib (10 ^ 21 + 2 * 10 ^ 18)
           (Decimals SampleEvents.usdc)),
     mkEnv tt (broadcasts SampleChain.start)).
Proof.
  apply (proj1 (proj2 (proj2
    (get_token_balance_spec unit SampleChain.lib SampleStrategy.node SampleEvents.usdc
       "0x00000000000000000000000000000000000000aa" SampleChain.start))
    "0xA0b86991c6218b36c1d19D4a2e9Eb0cE3606eB48"%string eq_refl
    ltac:(discriminate))).
  reflexivity.
Defined.

Lemma calculate_actual_amount_out_floor_witness :
  exists a s',
    calculate_actual_amount_out unit SampleChain.lib SampleStrategy.node
      SampleChain.receipt_100 "0xA0b86991c6218b36c1d19D4a2e9Eb0cE3606eB48" 6
      "0x00000000000000000000000000000000000000aa" 10 SampleChain.start = (Ok a, s')
    /\ broadcasts s' = broadcasts SampleChain.start
    /\ (a = 10%Q \/ ((0 < a)%Q /\ (10 * (1 # 2) <= a)%Q))
    /\ ((0 <= 10)%Q -> (10 * (1 # 2) <= a)%Q)
    /\ ((0 < 10)%Q -> (0 < a)%Q).
Proof.
  apply (calculate_actual_amount_out_floor unit SampleChain.lib SampleStrategy.node
           SampleChain.receipt_100 "0xA0b86991c6218b36c1d19D4a2e9Eb0cE3606eB48" 6
           "0x00000000000000000000000000000000000000aa" 10 SampleChain.start).
Defined.

(** ** The trade of one event *)

Section TradeFacts.

Variable W : Type.
Variable lib : PyLib.
Variable client : ChainClient W.





Lemma sends_confirm_trade (self : DEXTrader.t) (pool_event : PoolEvent)
  (direction : Direction) (amount_in : Q) (slippage_bps : Z) (inputs : TradeInputs)
  (tx_hash : option string) :
  sends_at_most 0
    (confirm_trade W lib client self pool_event direction amount_in slippage_bps
       inputs tx_hash).
Proof.
  unfold confirm_trade.
  destruct tx_hash as [h|]; [|apply sends_ret].
  destruct (String.eqb h ""); [apply sends_ret|].
  apply (sends_try _ 0 0); [|apply sends_ret].
  apply (sends_bind _ 0 0); [apply sends_call|]. intros receipt.
  destruct (Receipt.status receipt =? 1); [|apply sends_ret].
  apply (sends_bind _ 0 0); [apply sends_calculate_actual_amount_out|].
  intros. apply sends_ret.
Qed.


Lemma sends_execute_trade (self : DEXTrader.t) (pool_event : PoolEvent)
  (direction : Direction) (amount_in : Q) (slippage_bps : option Z) :
  sends_at_most 2
    (execute_trade W lib client self pool_event direction amount_in slippage_bps).
Proof.
  unfold execute_trade. cbv zeta.
  apply (sends_bind _ 0 2); [apply sends_lift_res|]. intros prepared.
  destruct prepared as [inputs|]; [|apply (sends_weaken _ 0); [lia | apply sends_ret]].
  destruct (route (lower (ProtocolName pool_event))).
  - apply (sends_bind _ 2 0); [apply sends_uniswap_v2_execute_swap|].
    intros. apply sends_confirm_trade.
  - apply (sends_bind _ 2 0); [apply sends_uniswap_v3_execute_swap|].
    intros. apply sends_confirm_trade.
  - apply (sends_weaken _ 0); [lia | apply sends_ret].
Qed.

(** X16.  The result of a submitted trade, from the receipt: with status
    1 it is a confirmed result that carries the hash, the block of the
    receipt, the direction and the slippage; with any other status it is
    the bare failed result; when the wait raises it is the bare pending
    result.  Nothing is handed to the node, and no hash gives no
    result. *)
Theorem confirm_trade_classification (self : DEXTrader.t) (pool_event : PoolEvent)
  (direction : Direction) (amount_in : Q) (slippage_bps : Z) (inputs : TradeInputs)
  (tx_hash : string) (s : Env W) :
  tx_hash <> ""%string ->
  let run :=
    confirm_trade W lib client self pool_event direction amount_in slippage_bps
      inputs (Some tx_hash) s in
  (forall receipt c,
      eth_wait_for_transaction_receipt client tx_hash (chain s) = (Ok receipt, c) ->
      Receipt.status receipt = 1 ->
      exists r s',
        run = (Ok (Some r), s')
        /\ broadcasts s' = broadcasts s
        /\ TradeResult.status r = TradeResult.confirmed
        /\ TradeResult.tx_hash r = tx_hash
        /\ TradeResult.block_number r = Some (Receipt.blockNumber receipt)
        /\ TradeResult.direction r = Some direction
        /\ TradeResult.amount_in r = Some amount_in
        /\ TradeResult.slippage_bps r = Some slippage_bps)
  /\ (forall receipt c,
      eth_wait_for_transaction_receipt client tx_hash (chain s) = (Ok receipt, c) ->
      Receipt.status receipt <> 1 ->
      run = (Ok (Some (TradeResult.bare tx_hash TradeResult.failed)),
             mkEnv c (broadcasts s)))
  /\ (forall c,
      eth_wait_for_transaction_receipt client tx_hash (chain s) = (Raise, c) ->
      run = (Ok (Some (TradeResult.bare tx_hash TradeResult.pending)),
             mkEnv c (broadcasts s)))
  /\ confirm_trade W lib client self pool_event direction amount_in slippage_bps
       inputs None s = (Ok None, s)
  /\ confirm_trade W lib client self pool_event direction amount_in slippage_bps
       inputs (Some ""%string) s = (Ok None, s).
Proof.
  intros Hne. cbv zeta. unfold confirm_trade.
  apply String.eqb_neq in Hne. rewrite Hne.
  split; [|split; [|split; [|split; reflexivity]]].
  - intros receipt c Hw Hst.
    unfold try_except. unfold bind at 1. unfold call at 1. rewrite Hw.
    apply Z.eqb_eq in Hst. rewrite Hst.
    destruct (calculate_actual_amount_out_total W lib client receipt
                (token_out_address inputs) (decimals_out inputs)
                (DEXTrader.address self)
                (float_of_decimal lib (expected_out inputs))
                (mkEnv c (broadcasts s))) as (a & s' & E & Hlog).
    unfold bind. rewrite E. eexists. exists s'.
    split; [reflexivity|]. split; [exact Hlog|]. simpl. repeat split.
  - intros receipt c Hw Hst.
    unfold try_except, bind, call. rewrite Hw.
    apply Z.eqb_neq in Hst. rewrite Hst. reflexivity.
  - intros c Hw. unfold try_except, bind, call. rewrite Hw. reflexivity.
Qed.




End TradeFacts.

Lemma confirm_trade_classification_witness :
  exists r s',
    confirm_trade unit SampleChain.lib SampleStrategy.node SampleStrategy.trader
      (SampleEvents.event "uniswap_v2") AtoB 1 50
      (mkTradeInputs SampleEvents.weth SampleEvents.usdc WETH_ADDRESS
         "0xA0b86991c6218b36c1d19D4a2e9Eb0cE3606eB48" 6 (10 ^ 18) 1
         (PyDecimal.mkDec 2 0) (PyDecimal.mkDec 2 0) None)
      (Some "0xabc"%string) SampleChain.start = (Ok (Some r), s')
    /\ broadcasts s' = broadcasts SampleChain.start
    /\ TradeResult.status r = TradeResult.confirmed
    /\ TradeResult.tx_hash r = "0xabc"%string
    /\ TradeResult.block_number r = Some (Receipt.blockNumber SampleChain.receipt_100)
    /\ TradeResult.direction r = Some AtoB
    /\ TradeResult.amount_in r = Some 1%Q
    /\ TradeResult.slippage_bps r = Some 50.
Proof.
  apply (proj1
    (confirm_trade_classification unit SampleChain.lib SampleStrategy.node
       SampleStrategy.trader (SampleEvents.event "uniswap_v2") AtoB 1 50
       (mkTradeInputs SampleEvents.weth SampleEvents.usdc WETH_ADDRESS
          "0xA0b86991c6218b36c1d19D4a2e9Eb0cE3606eB48" 6 (10 ^ 18) 1
          (PyDecimal.mkDec 2 0) (PyDecimal.mkDec 2 0) None)
       "0xabc" SampleChain.start ltac:(discriminate))
    SampleChain.receipt_100 tt eq_refl eq_refl).
Defined.




(** ** The strategy, run by run *)

Section StrategyRuns.

Variable W : Type.
Variable lib : PyLib.
Variable client : ChainClient W.

Lemma sends_should_trade (self : TradingStrategy.t) (pool_event : PoolEvent) :
  sends_at_most 0 (should_trade W lib client self pool_event).
Proof. unfold should_trade. sends_none. Qed.

Lemma position_of_result_some (self : TradingStrategy.t) (pool_event : PoolEvent)
  (direction : Direction) (median_slippage : Z) (r : TradeResult.t) (b : Z) :
  TradeResult.block_number r = Some b -> b <> 0 ->
  exists p,
    position_of_result lib self pool_event direction median_slippage r = Some p
    /\ Position.status p = Position.open
    /\ Position.open_block p = b
    /\ Position.direction p = direction
    /\ Position.opposite_direction p = opposite direction
    /\ Position.pool_event p = pool_event.
Proof.
  intros Hb Hnz. unfold position_of_result. rewrite Hb.
  apply Z.eqb_neq in Hnz. rewrite Hnz. eexists. split; [reflexivity|].
  simpl. repeat split.
Qed.

Lemma position_of_result_none (self : TradingStrategy.t) (pool_event : PoolEvent)
  (direction : Direction) (median_slippage : Z) (r : TradeResult.t) :
  position_of_result lib self pool_event direction median_slippage r = None
  <-> TradeResult.block_number r = None \/ TradeResult.block_number r = Some 0.
Proof.
  unfold position_of_result.
  destruct (TradeResult.block_number r) as [b|].
  - destruct (Z.eqb_spec b 0) as [->|Hnz].
    + split; auto.
    + split; [discriminate|]. intros [H|H]; [discriminate | congruence].
  - split; auto.
Qed.

(** Every way a run of [execute_strategy] can end. *)
Lemma execute_strategy_cases (self self' : TradingStrategy.t) (pool_event : PoolEvent)
  (r : option TradeResult.t) (s s' : Env W) :
  execute_strategy W lib client self pool_event s = (Ok (r, self'), s') ->
  (r = None /\ self' = self /\ broadcasts s' = broadcasts s
   /\ exists s1, should_trade W lib client self pool_event s = (Ok false, s1))
  \/ (count_open (TradingStrategy.open_positions self) = 0%nat
      /\ exists time,
        let counted := TradingStrategy.count_attempt self time in
        (r = None /\ self' = TradingStrategy.count_failure counted)
        \/ (exists res,
              r = Some res /\ TradeResult.status res = TradeResult.failed
              /\ self' = TradingStrategy.count_failure counted)
        \/ (exists res,
              r = Some res /\ TradeResult.status res = TradeResult.pending
              /\ self' = counted)
        \/ (exists res,
              r = Some res /\ TradeResult.status res = TradeResult.confirmed
              /\ (TradeResult.block_number res = None
                  \/ TradeResult.block_number res = Some 0)
              /\ self' = TradingStrategy.count_success counted)
        \/ (exists res b p,
              r = Some res /\ TradeResult.status res = TradeResult.confirmed
              /\ TradeResult.block_number res = Some b /\ b <> 0
              /\ self' = TradingStrategy.set_open_positions
                           (TradingStrategy.count_success counted)
                           (TradingStrategy.open_positions self ++ [p])
              /\ Position.status p = Position.open
              /\ Position.open_block p = b
              /\ Position.opposite_direction p = opposite (Position.direction p)
              /\ Position.pool_event p = pool_event)).
Proof.
  intros H. unfold execute_strategy in H.
  apply bind_inv_ok in H. destruct H as (ok & s1 & E1 & H).
  destruct ok; cbv beta iota delta [negb] in H.
  - right. split; [exact (should_trade_true W lib client _ _ _ _ E1)|].
    cbv zeta in H.
    apply bind_inv_ok in H. destruct H as (result & s2 & E2 & H).
    apply bind_inv_ok in H. destruct H as (time & s3 & E3 & H).
    exists time. cbv zeta.
    destruct result as [res|].
    + destruct (TradeResult.status res) eqn:Est.
      * match type of H with
        | context [position_of_result lib ?sf ?ev ?d ?m ?x] =>
            destruct (position_of_result lib sf ev d m x) as [p|] eqn:Ep
        end.
        -- injection H as <- <- <-.
           do 4 right.
           unfold position_of_result in Ep.
           destruct (TradeResult.block_number res) as [b|] eqn:Eb; [|discriminate].
           destruct (Z.eqb_spec b 0) as [|Hnz]; [discriminate|].
           injection Ep as <-.
           exists res, b. eexists.
           split; [reflexivity|]. split; [exact Est|]. split; [exact Eb|].
           split; [exact Hnz|]. split; [reflexivity|]. simpl. repeat split.
        -- injection H as <- <- <-.
           do 3 right. left. exists res.
           split; [reflexivity|]. split; [exact Est|].
           split; [|reflexivity].
           apply (proj1 (position_of_result_none _ _ _ _ _) Ep).
      * injection H as <- <- <-.
        right. left. exists res. auto.
      * injection H as <- <- <-.
        do 2 right. left. exists res. auto.
    + injection H as <- <- <-. left. auto.
  - left. injection H as <- <- <-.
    split; [reflexivity|]. split; [reflexivity|].
    split; [|exists s1; exact E1].
    exact (sends_nothing _ _ _ _ _ (sends_should_trade self pool_event) E1).
Qed.

Lemma close_due_positions_length (self : TradingStrategy.t) (current_block : Z)
  (l : list Position.t) :
  forall s l' s',
    close_due_positions W lib client self current_block l s = (Ok l', s') ->
    List.length l' = List.length l.
Proof.
  induction l as [|p l IH]; intros s l' s' H.
  - injection H as <- _. reflexivity.
  - cbn [close_due_positions] in H.
    apply bind_inv_ok in H. destruct H as (p' & s1 & E1 & H).
    apply bind_inv_ok in H. destruct H as (rest' & s2 & E2 & H).
    injection H as <- _. simpl. f_equal. exact (IH _ _ _ E2).
Qed.

Lemma counters_consistent_step (self self' : TradingStrategy.t) :
  counters_consistent self ->
  TradingStrategy.successful_trades self' = TradingStrategy.successful_trades self ->
  TradingStrategy.failed_trades self' = TradingStrategy.failed_trades self ->
  TradingStrategy.total_trades self' = TradingStrategy.total_trades self ->
  (List.length (TradingStrategy.open_positions self')
   <= List.length (TradingStrategy.open_positions self))%nat ->
  counters_consistent self'.
Proof.
  unfold counters_consistent. intros (H1 & H2 & H3 & H4) E1 E2 E3 E4.
  rewrite E1, E2, E3. repeat split; try assumption. lia.
Qed.

(** X20.  In every state the strategy reaches, the counters are
    consistent: none is negative, the successes and the failures
    together never exceed the attempts (a pending trade is neither), and
    the list holds at most one position for each success. *)
Theorem counters_consistent_invariant (self : TradingStrategy.t) :
  reachable W lib client self -> counters_consistent self.
Proof.
  induction 1 as [trader amount slippage dir enabled blocks
                 | self self' pool_event result s s' Hreach IH Hrun
                 | self self' current_block s s' Hreach IH Hrun].
  - unfold counters_consistent. simpl. lia.
  - apply execute_strategy_cases in Hrun.
    destruct Hrun as [(_ & -> & _) | (_ & time & Hcases)]; [exact IH|].
    cbv zeta in Hcases. unfold counters_consistent in *.
    destruct IH as (H1 & H2 & H3 & H4).
    destruct Hcases as [(_ & ->) | [(res & _ & _ & ->) | [(res & _ & _ & ->)
                       | [(res & _ & _ & _ & ->) | (res & b & p & _ & _ & _ & _ & -> & _)]]]];
      simpl; rewrite ?length_app; simpl; lia.
  - revert Hrun. unfold check_and_close_positions.
    destruct (TradingStrategy.enabled self).
    + cbv beta iota delta [negb]. intros Hrun.
      apply bind_inv_ok in Hrun. destruct Hrun as (l' & s1 & E & Hrun).
      injection Hrun as <- _.
      apply (counters_consistent_step self); try reflexivity; [exact IH|].
      simpl. rewrite <- (close_due_positions_length _ _ _ _ _ _ E).
      apply filter_length_le.
    + cbv beta iota delta [negb]. intros [= <- _]. exact IH.
Qed.

(** X21.  A run of [execute_strategy] appends a position exactly when
    the trade is confirmed with a block number other than zero; the
    position is open at that block, closes in the opposite direction and
    keeps the event; in every other case the list of positions is as
    before. *)
Theorem execute_strategy_opens_position (self self' : TradingStrategy.t)
  (pool_event : PoolEvent) (r : option TradeResult.t) (s s' : Env W) :
  execute_strategy W lib client self pool_event s = (Ok (r, self'), s') ->
  (forall res b,
      r = Some res -> TradeResult.status res = TradeResult.confirmed ->
      TradeResult.block_number res = Some b -> b <> 0 ->
      exists p,
        TradingStrategy.open_positions self'
        = TradingStrategy.open_positions self ++ [p]
        /\ Position.status p = Position.open
        /\ Position.open_block p = b
        /\ Position.opposite_direction p = opposite (Position.direction p)
        /\ Position.pool_event p = pool_event)
  /\ (TradingStrategy.open_positions self' <> TradingStrategy.open_positions self ->
      exists res b,
        r = Some res /\ TradeResult.status res = TradeResult.confirmed
        /\ TradeResult.block_number res = Some b /\ b <> 0
        /\ count_open (TradingStrategy.open_positions self) = 0%nat).
Proof.
  intros Hrun. apply execute_strategy_cases in Hrun.
  destruct Hrun as [(-> & -> & _) | (Hzero & time & Hcases)].
  - split; [discriminate|]. intros H. contradiction H. reflexivity.
  - cbv zeta in Hcases.
    destruct Hcases as [(-> & ->) | [(res & -> & Hst & ->) | [(res & -> & Hst & ->)
                       | [(res & -> & Hst & Hb & ->)
                         | (res & b & p & -> & Hst & Hb & Hnz & -> & Hp)]]]].
    + split; [discriminate|]. intros H. contradiction H. reflexivity.
    + split; [|intros H; contradiction H; reflexivity].
      intros res' b [= <-] Hc. congruence.
    + split; [|intros H; contradiction H; reflexivity].
      intros res' b [= <-] Hc. congruence.
    + split; [|intros H; contradiction H; reflexivity].
      intros res' b [= <-] _ Hb' Hnz. destruct Hb; congruence.
    + split.
      * intros res' b' [= <-] _ Hb' _.
        assert (b' = b) by congruence. subst b'.
        exists p. split; [reflexivity | exact Hp].
      * intros _. exists res, b. auto.
Qed.

End StrategyRuns.

Lemma counters_consistent_invariant_witness :
  counters_consistent SampleStrategy.after_trade.
Proof.
  apply (counters_consistent_invariant unit SampleChain.lib SampleStrategy.node
           SampleStrategy.after_trade).
  assert (exists result s',
             execute_strategy unit SampleChain.lib SampleStrategy.node
               SampleStrategy.fresh (SampleEvents.event "uniswap_v2") SampleChain.start
             = (Ok (result, SampleStrategy.after_trade), s')) as (result & s' & Hrun).
  { vm_compute. eexists; eexists; reflexivity. }
  exact (reach_execute unit SampleChain.lib SampleStrategy.node SampleStrategy.fresh
           SampleStrategy.after_trade (SampleEvents.event "uniswap_v2") result
           SampleChain.start s'
           (reach_init unit SampleChain.lib SampleStrategy.node SampleStrategy.trader
              1 50 None true 3)
           Hrun).
Defined.

Lemma execute_strategy_opens_position_witness :
  exists p,
    TradingStrategy.open_positions SampleStrategy.after_trade
    = TradingStrategy.open_positions SampleStrategy.fresh ++ [p]
    /\ Position.status p = Position.open
    /\ Position.open_block p = 100
    /\ Position.opposite_direction p = opposite (Position.direction p)
    /\ Position.pool_event p = SampleEvents.event "uniswap_v2".
Proof.
  assert (exists res s',
             execute_strategy unit SampleChain.lib SampleStrategy.node
               SampleStrategy.fresh (SampleEvents.event "uniswap_v2") SampleChain.start
             = (Ok (Some res, SampleStrategy.after_trade), s')
             /\ TradeResult.status res = TradeResult.confirmed
             /\ TradeResult.block_number res = Some 100)
    as (res & s' & Hrun & Hst & Hb).
  { vm_compute. eexists; eexists. repeat split. }
  exact (proj1
           (execute_strategy_opens_position unit SampleChain.lib SampleStrategy.node
              SampleStrategy.fresh SampleStrategy.after_trade
              (SampleEvents.event "uniswap_v2") (Some res) SampleChain.start s' Hrun)
           res 100 eq_refl Hst Hb ltac:(discriminate)).
Defined.

(** ** The closing loop *)

Section ClosingRuns.

Variable W : Type.
Variable lib : PyLib.
Variable client : ChainClient W.

Lemma sends_get_token_balance (token_info : option CurrencyInfo) (address : string) :
  sends_at_most 0 (get_token_balance W lib client token_info address).
Proof. unfold get_token_balance. sends_none. Qed.

Lemma sends_close_position (self : TradingStrategy.t) (p : Position.t) :
  sends_at_most 2 (close_position W lib client self p).
Proof.
  unfold close_position. cbv zeta.
  apply (sends_weaken _ (2 + 0)); [lia|].
  apply sends_try; [|apply sends_ret].
  apply (sends_bind _ 0 2); [apply sends_get_token_balance|]. intros actual_balance.
  destruct (resolve_close_amount _ _); [|apply (sends_weaken _ 0); [lia | apply sends_ret]].
  apply (sends_bind _ 2 0); [apply sends_execute_trade|]. intros result.
  sends_none.
Qed.

Lemma is_due_open (self : TradingStrategy.t) (current_block : Z) (p : Position.t) :
  is_due self current_block p = true -> Position.is_open p = true.
Proof. unfold is_due. intros H. apply andb_true_iff in H. tauto. Qed.

Lemma sends_close_due_positions (self : TradingStrategy.t) (current_block : Z)
  (l : list Position.t) :
  sends_at_most (2 * count_open l)
    (close_due_positions W lib client self current_block l).
Proof.
  induction l as [|p l IH].
  - apply sends_ret.
  - cbn [close_due_positions]. rewrite count_open_cons.
    destruct (is_due self current_block p) eqn:Edue.
    + rewrite (is_due_open _ _ _ Edue).
      apply (sends_weaken _ (2 + (2 * count_open l + 0))); [lia|].
      apply sends_bind; [apply sends_close_position|]. intros p'.
      apply sends_bind; [exact IH|]. intros. apply sends_ret.
    + apply (sends_weaken _ (0 + (2 * count_open l + 0))); [lia|].
      apply sends_bind; [apply sends_ret|]. intros p'.
      apply sends_bind; [exact IH|]. intros. apply sends_ret.
Qed.

Lemma sends_check_and_close_positions (self : TradingStrategy.t) (current_block : Z) :
  sends_at_most (2 * count_open (TradingStrategy.open_positions self))
    (check_and_close_positions W lib client self current_block).
Proof.
  unfold check_and_close_positions.
  destruct (TradingStrategy.enabled self); cbv beta iota delta [negb].
  - apply (sends_weaken _ (2 * count_open (TradingStrategy.open_positions self) + 0));
      [lia|].
    apply sends_bind; [apply sends_close_due_positions|]. intros. apply sends_ret.
  - apply (sends_weaken _ 0); [lia | apply sends_ret].
Qed.

Lemma sends_execute_strategy (self : TradingStrategy.t) (pool_event : PoolEvent) :
  sends_at_most 2 (execute_strategy W lib client self pool_event).
Proof.
  unfold execute_strategy.
  apply (sends_bind _ 0 2); [apply sends_should_trade|]. intros ok.
  destruct ok; cbv beta iota zeta delta [negb];
    [|apply (sends_weaken _ 0); [lia | apply sends_ret]].
  apply (sends_bind _ 2 0).
  - apply (sends_try _ 2 0); [apply sends_execute_trade | apply sends_ret].
  - intros result. sends_none.
Qed.

Lemma same_trade_refl (p : Position.t) : same_trade p p.
Proof. unfold same_trade. repeat split. Qed.

Lemma close_position_cases (self : TradingStrategy.t) (p : Position.t) (s : Env W) :
  exists p' s',
    close_position W lib client self p s = (Ok p', s')
    /\ (p' = p
        \/ p' = Position.set_status p Position.close_failed
        \/ p' = Position.set_status p Position.close_error
        \/ exists tx block, p' = Position.set_closed p tx block).
Proof.
  unfold close_position, try_except. cbv zeta.
  match goal with
  | |- context [match ?body s with _ => _ end] =>
      destruct (body s) as [[p'|] s1] eqn:E
  end.
  - exists p', s1. split; [reflexivity|].
    apply bind_inv_ok in E. destruct E as (actual & s2 & E1 & E).
    destruct (resolve_close_amount _ _).
    + apply bind_inv_ok in E. destruct E as (result & s3 & E2 & E).
      destruct result as [r|].
      * destruct (TradeResult.status r); injection E as <- _.
        -- do 3 right. eexists; eexists; reflexivity.
        -- right. left. reflexivity.
        -- left. reflexivity.
      * injection E as <- _. right. left. reflexivity.
    + injection E as <- _. right. left. reflexivity.
  - eexists; eexists. split; [reflexivity|]. do 2 right. left. reflexivity.
Qed.

Lemma close_position_outcome (self : TradingStrategy.t) (current_block : Z)
  (p : Position.t) (s : Env W) :
  exists p' s',
    (if is_due self current_block p then close_position W lib client self p
     else ret p) s = (Ok p', s')
    /\ close_outcome self current_block p p'.
Proof.
  unfold close_outcome.
  destruct (is_due self current_block p) eqn:Edue.
  - destruct (close_position_cases self p s) as (p' & s' & E & Hcases).
    exists p', s'. split; [exact E|].
    destruct Hcases as [-> | [-> | [-> | (tx & block & ->)]]].
    + split; [apply same_trade_refl|]. split; [discriminate | left; reflexivity].
    + split; [unfold same_trade; simpl; repeat split|].
      split; [discriminate|]. right. right. left. reflexivity.
    + split; [unfold same_trade; simpl; repeat split|].
      split; [discriminate|]. right. right. right. reflexivity.
    + split; [unfold same_trade; simpl; repeat split|].
      split; [discriminate|]. right. left. simpl. split; [reflexivity | discriminate].
  - exists p, s. split; [reflexivity|].
    split; [apply same_trade_refl|]. split; [reflexivity | left; reflexivity].
Qed.

Lemma close_due_positions_outcomes (self : TradingStrategy.t) (current_block : Z)
  (l : list Position.t) :
  forall s, exists l' s',
    close_due_positions W lib client self current_block l s = (Ok l', s')
    /\ Forall2 (close_outcome self current_block) l l'.
Proof.
  induction l as [|p l IH]; intros s.
  - exists [], s. split; [reflexivity | constructor].
  - cbn [close_due_positions].
    destruct (close_position_outcome self current_block p s) as (p' & s1 & E1 & Hp).
    rewrite (bind_ok _ _ _ _ _ _ E1).
    destruct (IH s1) as (l' & s2 & E2 & Hl).
    rewrite (bind_ok _ _ _ _ _ _ E2).
    exists (p' :: l'), s2. split; [reflexivity | constructor; assumption].
Qed.

(** X22.  One tick of the closing loop on an enabled strategy: the new
    list of positions is the old one, position by position, with each
    due position replaced by its outcome and the closed ones removed.
    A position that is not due is kept as it is; a due one keeps the
    data of its trade and is left open, or marked closed, failed or in
    error; no position of the new list is closed, the list never grows,
    and the counters are not touched. *)
Theorem check_and_close_positions_frame (self : TradingStrategy.t)
  (current_block : Z) (s : Env W) :
  TradingStrategy.enabled self = true ->
  exists outcomes s',
    check_and_close_positions W lib client self current_block s
    = (Ok (TradingStrategy.set_open_positions self (filter kept outcomes)), s')
    /\ Forall2 (close_outcome self current_block)
         (TradingStrategy.open_positions self) outcomes
    /\ Forall (fun p' => Position.status p' <> Position.closed) (filter kept outcomes)
    /\ (List.length (filter kept outcomes)
        <= List.length (TradingStrategy.open_positions self))%nat.
Proof.
  intros Hen. unfold check_and_close_positions. rewrite Hen.
  cbv beta iota delta [negb].
  destruct (close_due_positions_outcomes self current_block
              (TradingStrategy.open_positions self) s) as (l' & s' & E & Hl).
  exists l', s'. rewrite (bind_ok _ _ _ _ _ _ E).
  split; [reflexivity|]. split; [exact Hl|]. split.
  - apply Forall_forall. intros p' Hin. apply filter_In in Hin.
    destruct Hin as [_ Hk]. unfold kept in Hk. intros Hc. rewrite Hc in Hk.
    discriminate.
  - rewrite (Forall2_length Hl). apply filter_length_le.
Qed.

(** X23.  Transactions per run: [execute_strategy] hands at most two
    transactions to the node, and a tick of the closing loop at most two
    for each open position, hence at most two in every state the
    strategy reaches. *)
Theorem strategy_broadcast_bounds (self : TradingStrategy.t) (pool_event : PoolEvent)
  (current_block : Z) :
  sends_at_most 2 (execute_strategy W lib client self pool_event)
  /\ sends_at_most (2 * count_open (TradingStrategy.open_positions self))
       (check_and_close_positions W lib client self current_block)
  /\ (reachable W lib client self ->
      sends_at_most 2 (check_and_close_positions W lib client self current_block)).
Proof.
  split; [apply sends_execute_strategy|].
  split; [apply sends_check_and_close_positions|].
  intros Hreach.
  apply (sends_weaken _ (2 * count_open (TradingStrategy.open_positions self)));
    [|apply sends_check_and_close_positions].
  pose proof (reachable_single_open W lib client self Hreach). lia.
Qed.

Lemma execute_strategy_gate_closed (self : TradingStrategy.t) (pool_event : PoolEvent)
  (s s1 : Env W) :
  should_trade W lib client self pool_event s = (Ok false, s1) ->
  execute_strategy W lib client self pool_event s = (Ok (None, self), s1).
Proof.
  intros H. unfold execute_strategy. rewrite (bind_ok _ _ _ _ _ _ H). reflexivity.
Qed.

(** X24.  The gate of [execute_strategy]: a disabled strategy does
    nothing, and does not even read the clock; an event without a price
    table, without liquidity, or with an amount of liquidity that is
    missing, zero or empty leaves the strategy as it is, with no attempt
    counted and nothing handed to the node; so does an event that comes
    before the minimum interval since the last attempt has passed. *)
Theorem execute_strategy_gate (self : TradingStrategy.t) (pool_event : PoolEvent)
  (s : Env W) :
  (TradingStrategy.enabled self = false ->
   execute_strategy W lib client self pool_event s = (Ok (None, self), s))
  /\ (PoolPriceTable pool_event = None
      \/ Liquidity pool_event = None
      \/ (exists liquidity,
            Liquidity pool_event = Some liquidity
            /\ (truthy (AmountCurrencyA liquidity) = false
                \/ truthy (AmountCurrencyB liquidity) = false)) ->
      exists s1,
        execute_strategy W lib client self pool_event s = (Ok (None, self), s1)
        /\ broadcasts s1 = broadcasts s)
  /\ (forall time c,
      TradingStrategy.enabled self = true ->
      count_open (TradingStrategy.open_positions self) = 0%nat ->
      time_time client (chain s) = (time, c) ->
      (fsub lib time (TradingStrategy.last_trade_time self)
       < TradingStrategy.min_trade_interval self)%Q ->
      execute_strategy W lib client self pool_event s
      = (Ok (None, self), mkEnv c (broadcasts s))).
Proof.
  split; [|split].
  - intros Hen. apply execute_strategy_gate_closed.
    unfold should_trade. rewrite Hen. reflexivity.
  - intros Hmissing.
    assert (exists s1, should_trade W lib client self pool_event s = (Ok false, s1))
      as [s1 Hgate].
    { unfold should_trade.
      destruct (TradingStrategy.enabled self); cbv beta iota delta [negb];
        [|eexists; reflexivity].
      destruct (0 <? _)%nat; [eexists; reflexivity|].
      destruct (now_total W client s) as (t & s1 & Ht).
      rewrite (bind_ok _ _ _ _ _ _ Ht).
      destruct (Qlt_bool _ _); [eexists; reflexivity|].
      destruct Hmissing as [H | [H | (liquidity & H & Hfalsy)]].
      - rewrite H. eexists; reflexivity.
      - rewrite H. destruct (PoolPriceTable pool_event); eexists; reflexivity.
      - rewrite H. destruct (PoolPriceTable pool_event); [|eexists; reflexivity].
        destruct Hfalsy as [Hf | Hf]; rewrite Hf; cbv beta iota delta [negb orb].
        + eexists; reflexivity.
        + destruct (truthy (AmountCurrencyA liquidity)); eexists; reflexivity. }
    exists s1. split; [apply execute_strategy_gate_closed, Hgate|].
    exact (sends_nothing _ _ _ _ _ (sends_should_trade W lib client self pool_event) Hgate).
  - intros time c Hen Hzero Htime Hlt. apply execute_strategy_gate_closed.
    unfold should_trade. rewrite Hen, Hzero. cbv beta iota delta [negb Nat.ltb Nat.leb].
    unfold bind, now. rewrite Htime.
    apply Qlt_bool_iff in Hlt. rewrite Hlt. reflexivity.
Qed.

End ClosingRuns.

(** X25.  The amount a position is closed with is safe to sell: it is
    positive, it is the stored amount or the balance read, it never
    exceeds the balance when that was read, and it never exceeds a
    stored amount that is valid. *)
Theorem resolve_close_amount_safe (stored_amount_out : Q) (actual_balance : option Q)
  (amount_out : Q) :
  resolve_close_amount stored_amount_out actual_balance = Some amount_out ->
  (0 < amount_out)%Q
  /\ (amount_out = stored_amount_out \/ actual_balance = Some amount_out)
  /\ (forall balance, actual_balance = Some balance -> (amount_out <= balance)%Q)
  /\ (~ (stored_amount_out <= EPSILON)%Q -> (amount_out <= stored_amount_out)%Q).
Proof.
  unfold resolve_close_amount. cbv beta zeta.
  destruct (Qle_bool stored_amount_out EPSILON) eqn:Eeps.
  - destruct actual_balance as [actual|]; [|discriminate].
    destruct (Qle_bool actual 0) eqn:E0; [discriminate|].
    intros [= <-]. apply Qle_bool_false_iff in E0.
    split; [apply Qnot_le_lt, E0|]. split; [right; reflexivity|].
    split.
    + intros balance [= <-]. apply Qle_refl.
    + intros Hn. contradiction Hn. apply Qle_bool_iff, Eeps.
  - destruct actual_balance as [actual|].
    + destruct (Qlt_bool actual stored_amount_out) eqn:Elt.
      * destruct (Qle_bool actual 0) eqn:E0; [discriminate|].
        intros [= <-]. apply Qle_bool_false_iff in E0.
        split; [apply Qnot_le_lt, E0|]. split; [right; reflexivity|].
        split.
        -- intros balance [= <-]. apply Qle_refl.
        -- intros _. apply Qlt_le_weak, Qlt_bool_iff, Elt.
      * destruct (Qle_bool stored_amount_out 0) eqn:E0; [discriminate|].
        intros [= <-]. apply Qle_bool_false_iff in E0.
        split; [apply Qnot_le_lt, E0|]. split; [left; reflexivity|].
        split.
        -- intros balance [= <-]. unfold Qlt_bool in Elt.
           apply negb_false_iff in Elt. apply Qle_bool_iff, Elt.
        -- intros _. apply Qle_refl.
    + destruct (Qle_bool stored_amount_out 0) eqn:E0; [discriminate|].
      intros [= <-]. apply Qle_bool_false_iff in E0.
      split; [apply Qnot_le_lt, E0|]. split; [left; reflexivity|].
      split; [discriminate|]. intros _. apply Qle_refl.
Qed.

Lemma check_and_close_positions_frame_witness :
  exists outcomes s',
    check_and_close_positions unit SampleChain.lib SampleStrategy.node
      SampleStrategy.after_trade 103 SampleChain.start
    = (Ok (TradingStrategy.set_open_positions SampleStrategy.after_trade
             (filter kept outcomes)), s')
    /\ Forall2 (close_outcome SampleStrategy.after_trade 103)
         (TradingStrategy.open_positions SampleStrategy.after_trade) outcomes
    /\ Forall (fun p' => Position.status p' <> Position.closed) (filter kept outcomes)
    /\ (List.length (filter kept outcomes)
        <= List.length (TradingStrategy.open_positions SampleStrategy.after_trade))%nat.
Proof.
  apply (check_and_close_positions_frame unit SampleChain.lib SampleStrategy.node
           SampleStrategy.after_trade 103 SampleChain.start).
  vm_compute. reflexivity.
Defined.

Lemma strategy_broadcast_bounds_witness :
  reachable unit SampleChain.lib SampleStrategy.node SampleStrategy.fresh
  /\ sends_at_most 2
       (check_and_close_positions unit SampleChain.lib SampleStrategy.node
          SampleStrategy.fresh 103).
Proof.
  split;
    [exact (reach_init unit SampleChain.lib SampleStrategy.node SampleStrategy.trader
              1 50 None true 3)|].
  apply (proj2 (proj2
    (strategy_broadcast_bounds unit SampleChain.lib SampleStrategy.node
       SampleStrategy.fresh (SampleEvents.event "uniswap_v2") 103))).
  exact (reach_init unit SampleChain.lib SampleStrategy.node SampleStrategy.trader
           1 50 None true 3).
Defined.

Lemma execute_strategy_gate_witness :
  exists s1,
    execute_strategy unit SampleChain.lib SampleStrategy.node SampleStrategy.fresh
      (mkPoolEvent None None None "uniswap_v2" None None) SampleChain.start
    = (Ok (None, SampleStrategy.fresh), s1)
    /\ broadcasts s1 = broadcasts SampleChain.start.
Proof.
  apply (proj1 (proj2
    (execute_strategy_gate unit SampleChain.lib SampleStrategy.node
       SampleStrategy.fresh (mkPoolEvent None None None "uniswap_v2" None None)
       SampleChain.start))).
  left. reflexivity.
Defined.

Lemma resolve_close_amount_safe_witness :
  (0 < 50)%Q
  /\ (50%Q = 0%Q \/ Some 50%Q = Some 50%Q)
  /\ (forall balance, Some 50%Q = Some balance -> (50 <= balance)%Q)
  /\ (~ (0 <= EPSILON)%Q -> (50 <= 0)%Q).
Proof.
  apply (resolve_close_amount_safe 0 (Some 50%Q) 50).
  vm_compute. reflexivity.
Defined.

(** ** The decoder of numeric fields *)

Section DecoderFacts.

Variable F : Type.
Variable int_base16 : string -> option Z.
Variable int_base10 : string -> option Z.
Variable float_of_str : string -> option F.

Lemma PyData_nested_ind (P : PyData F -> Prop) :
  P DNone -> (forall b, P (DBool b)) -> (forall n, P (DInt n)) ->
  (forall x, P (DFloat x)) -> (forall s, P (DStr s)) ->
  (forall items, Forall (fun item => P (snd item)) items -> P (DDict items)) ->
  (forall items, Forall P items -> P (DList items)) ->
  forall d, P d.
Proof.
  intros HNone HBool HInt HFloat HStr HDict HList.
  fix IH 1. intros [| b | n | x | s | items | items].
  - exact HNone.
  - apply HBool.
  - apply HInt.
  - apply HFloat.
  - apply HStr.
  - apply HDict. induction items as [|item items IHitems]; constructor.
    + apply IH.
    + exact IHitems.
  - apply HList. induction items as [|item items IHitems]; constructor.
    + apply IH.
    + exact IHitems.
Qed.

Lemma parse_decimal_plain (value : string) (v : PyData F) :
  parse_decimal F int_base10 float_of_str value = Some v -> is_plain v = true.
Proof.
  unfold parse_decimal. destruct (contains "." value).
  - destruct (float_of_str value); [|discriminate]. intros [= <-]. reflexivity.
  - destruct (int_base10 value); [|discriminate]. intros [= <-]. reflexivity.
Qed.

(** A converted string is a plain value, or the string itself when all
    the conversions that were tried failed. *)
Lemma convert_string_cases (key value : string) :
  is_plain (convert_string F int_base16 int_base10 float_of_str key value) = true
  \/ convert_string F int_base16 int_base10 float_of_str key value = DStr value.
Proof.
  unfold convert_string, hex_first, decimal_first.
  destruct (is_field key numeric_hex_fields && negb (String.eqb value "")).
  - destruct (int_base16 value); [left; reflexivity|].
    destruct (parse_decimal F int_base10 float_of_str value) as [v|] eqn:E;
      [left; exact (parse_decimal_plain _ _ E) | right; reflexivity].
  - destruct (is_field key numeric_fields && negb (String.eqb value ""));
      [|right; reflexivity].
    destruct (parse_decimal F int_base10 float_of_str value) as [v|] eqn:E;
      [left; exact (parse_decimal_plain _ _ E)|].
    destruct (int_base16 value); [left; reflexivity | right; reflexivity].
Qed.

Lemma converted_item_in (items : list (string * PyData F)) (key : string)
  (v : PyData F) :
  In (key, v) items ->
  In (convert_item F int_base16 int_base10 float_of_str
        (convert_hex_to_int F int_base16 int_base10 float_of_str) (key, v))
     (map (convert_item F int_base16 int_base10 float_of_str
             (convert_hex_to_int F int_base16 int_base10 float_of_str)) items).
Proof. apply in_map. Qed.

Lemma convert_item_plain (key : string) (v : PyData F) :
  is_plain v = true ->
  convert_item F int_base16 int_base10 float_of_str
    (convert_hex_to_int F int_base16 int_base10 float_of_str) (key, v)
  = (key, v).
Proof. destruct v; try discriminate; reflexivity. Qed.

(** X26.  [convert_hex_to_int] is idempotent: converting a converted
    message changes nothing. *)
Theorem convert_hex_to_int_idempotent (data : PyData F) :
  convert_hex_to_int F int_base16 int_base10 float_of_str
    (convert_hex_to_int F int_base16 int_base10 float_of_str data)
  = convert_hex_to_int F int_base16 int_base10 float_of_str data.
Proof.
  induction data as [| b | n | x | s | items IH | items IH] using PyData_nested_ind;
    try reflexivity.
  - cbn [convert_hex_to_int]. f_equal. rewrite map_map.
    apply map_ext_in. intros [key value] Hin.
    rewrite Forall_forall in IH. specialize (IH _ Hin). cbn [snd] in IH.
    destruct value as [| b | n | x | v | sub | sub]; try reflexivity.
    + cbn [convert_item].
      destruct (convert_string_cases key v) as [Hplain | Hsame].
      * apply convert_item_plain, Hplain.
      * rewrite Hsame. cbn [convert_item]. rewrite Hsame. reflexivity.
    + cbn [convert_item convert_hex_to_int] in IH |- *.
      f_equal. exact IH.
    + cbn [convert_item convert_hex_to_int] in IH |- *.
      f_equal. exact IH.
  - cbn [convert_hex_to_int]. f_equal. rewrite map_map.
    apply map_ext_in. intros item Hin.
    rewrite Forall_forall in IH. exact (IH _ Hin).
Qed.

(** X27.  Which reading wins.  Under a key of [numeric_hex_fields] a
    non-empty string that reads as hexadecimal becomes that integer,
    even when it also reads as a decimal number; under a key of
    [numeric_fields] the decimal reading wins and the hexadecimal one is
    only the fallback; a string that no reading accepts stays as it
    is. *)
Theorem convert_hex_to_int_precedence (items : list (string * PyData F))
  (key value : string) :
  In (key, DStr value) items -> value <> ""%string ->
  exists items',
    convert_hex_to_int F int_base16 int_base10 float_of_str (DDict items) = DDict items'
    /\ (is_field key numeric_hex_fields = true ->
        forall n, int_base16 value = Some n -> In (key, DInt n) items')
    /\ (is_field key numeric_hex_fields = false ->
        is_field key numeric_fields = true ->
        forall v, parse_decimal F int_base10 float_of_str value = Some v ->
                  In (key, v) items')
    /\ (is_field key numeric_hex_fields = false ->
        is_field key numeric_fields = true ->
        parse_decimal F int_base10 float_of_str value = None ->
        forall n, int_base16 value = Some n -> In (key, DInt n) items')
    /\ (int_base16 value = None ->
        parse_decimal F int_base10 float_of_str value = None ->
        In (key, DStr value) items').
Proof.
  intros Hin Hne. eexists. split; [reflexivity|].
  apply String.eqb_neq in Hne.
  pose proof (converted_item_in _ _ _ Hin) as Hmapped.
  cbv beta iota delta [convert_item] in Hmapped. unfold convert_string in Hmapped.
  rewrite Hne in Hmapped. cbv beta iota delta [negb] in Hmapped.
  rewrite !andb_true_r in Hmapped.
  repeat split.
  - intros Hhex n H16. rewrite Hhex in Hmapped. unfold hex_first in Hmapped.
    rewrite H16 in Hmapped. exact Hmapped.
  - intros Hhex Hnum v Hdec. rewrite Hhex, Hnum in Hmapped.
    unfold decimal_first in Hmapped. rewrite Hdec in Hmapped. exact Hmapped.
  - intros Hhex Hnum Hdec n H16. rewrite Hhex, Hnum in Hmapped.
    unfold decimal_first in Hmapped. rewrite Hdec, H16 in Hmapped. exact Hmapped.
  - intros H16 Hdec. unfold hex_first, decimal_first in Hmapped.
    rewrite H16, Hdec in Hmapped.
    destruct (is_field key numeric_hex_fields); [exact Hmapped|].
    destruct (is_field key numeric_fields); exact Hmapped.
Qed.

(** X28.  What the decoder leaves alone: a dict keeps its keys in their
    order and a list its length; a value that is not a string or a
    container, an empty string, and a string under a key of neither field
    set are kept as they are. *)
Theorem convert_hex_to_int_frame (items : list (string * PyData F))
  (elements : list (PyData F)) :
  (exists items',
      convert_hex_to_int F int_base16 int_base10 float_of_str (DDict items) = DDict items'
      /\ map fst items' = map fst items
      /\ (forall key v, In (key, v) items -> is_plain v = true -> In (key, v) items')
      /\ (forall key, In (key, DStr ""%string) items -> In (key, DStr ""%string) items')
      /\ (forall key value,
          In (key, DStr value) items ->
          is_field key numeric_hex_fields = false ->
          is_field key numeric_fields = false ->
          In (key, DStr value) items'))
  /\ (exists elements',
      convert_hex_to_int F int_base16 int_base10 float_of_str (DList elements)
      = DList elements'
      /\ List.length elements' = List.length elements).
Proof.
  split.
  - eexists. split; [reflexivity|]. split; [|split; [|split]].
    + rewrite map_map. apply map_ext. intros [key value]. reflexivity.
    + intros key v Hin Hplain.
      rewrite <- (convert_item_plain key v Hplain).
      exact (converted_item_in _ _ _ Hin).
    + intros key Hin. pose proof (converted_item_in _ _ _ Hin) as Hmapped.
      cbv beta iota delta [convert_item] in Hmapped. unfold convert_string in Hmapped.
      cbn [String.eqb negb] in Hmapped. rewrite !andb_false_r in Hmapped.
      exact Hmapped.
    + intros key value Hin Hhex Hnum.
      pose proof (converted_item_in _ _ _ Hin) as Hmapped.
      cbv beta iota delta [convert_item] in Hmapped. unfold convert_string in Hmapped.
      rewrite Hhex, Hnum in Hmapped. exact Hmapped.
  - eexists. split; [reflexivity|]. apply length_map.
Qed.

End DecoderFacts.

Lemma convert_hex_to_int_precedence_witness :
  exists items',
    SampleDecoder.convert
      (DDict [("MaxAmountIn"%string, DStr "100"); ("Price"%string, DStr "100")])
    = DDict items'
    /\ In ("MaxAmountIn"%string, DInt 256) items'.
Proof.
  destruct (convert_hex_to_int_precedence Q (SampleDecoder.int_base 16)
              (SampleDecoder.int_base 10) SampleDecoder.no_float
              [("MaxAmountIn"%string, DStr "100"); ("Price"%string, DStr "100")]
              "MaxAmountIn" "100" (or_introl eq_refl) ltac:(discriminate))
    as (items' & Hrun & Hhex & _).
  exists items'. split; [exact Hrun|].
  apply Hhex; reflexivity.
Defined.

Lemma convert_hex_to_int_frame_witness :
  exists items',
    SampleDecoder.convert
      (DDict [("Symbol"%string, DStr "100"); ("Decimals"%string, DInt 18)])
    = DDict items'
    /\ map fst items' = ["Symbol"; "Decimals"]%string
    /\ In ("Symbol"%string, DStr "100") items'
    /\ In ("Decimals"%string, DInt 18) items'.
Proof.
  destruct (proj1 (convert_hex_to_int_frame Q (SampleDecoder.int_base 16)
                     (SampleDecoder.int_base 10) SampleDecoder.no_float
                     [("Symbol"%string, DStr "100"); ("Decimals"%string, DInt 18)]
                     []))
    as (items' & Hrun & Hkeys & Hplain & _ & Hother).
  exists items'. split; [exact Hrun|]. split; [exact Hkeys|]. split.
  - apply Hother; [left; reflexivity | reflexivity | reflexivity].
  - apply Hplain; [right; left; reflexivity | reflexivity].
Defined.

(** ** The swap transaction and positions that failed to close *)

Section TransactionFacts.

Variable W : Type.
Variable lib : PyLib.
Variable client : ChainClient W.

Lemma call_inv {A : Type} (f : W -> Res A * W) (s s' : Env W) (a : A) :
  call f s = (Ok a, s') ->
  f (chain s) = (Ok a, chain s') /\ broadcasts s' = broadcasts s.
Proof.
  unfold call. destruct (f (chain s)) as [r c]. intros [= -> <-]. auto.
Qed.

Lemma ok_pair_eq {A B : Type} (a a' : A) (b b' : B) :
  (Ok a, b) = (Ok a', b') -> a = a'.
Proof. intros [= -> _]. reflexivity. Qed.

Lemma lift_res_inv {A : Type} (r : Res A) (s s' : Env W) (a : A) :
  lift_res r s = (Ok a, s') -> r = Ok a /\ s' = s.
Proof. unfold lift_res. intros [= -> <-]. auto. Qed.

(** X29.  What a swap hands to the node, when building and signing
    return the transaction they are given: a V2 swap calls
    [swapExactETHForTokens] with the amount as value when the input is
    the wrapped native token, else [swapExactTokensForETH] when the
    output is, else [swapExactTokensForTokens], on the path of the two
    checksummed addresses; a V3 swap calls [exactInputSingle] with the fee
    and no price limit, the amount as value for a native input and 0
    otherwise.  Both pay to the trader's own address, with the deadline
    given, a gas limit of 300000 and the gas price the gas manager gave
    at the start. *)
Theorem swap_transaction_contents (address : string) (gm : GasManager.t)
  (token_in_address token_out_address : string) (amount_in amount_out_min fee : Z)
  (deadline : Z) (stream_gas_price_wei : option Z) (s s' : Env W) (tx_hash : string) :
  (forall tx w, build_transaction client tx w = (Ok tx, w)) ->
  (forall tx w, sign_transaction client tx w = (Ok tx, w)) ->
  let is_eth_in := String.eqb (lower token_in_address) (lower WETH_ADDRESS) in
  let is_eth_out := String.eqb (lower token_out_address) (lower WETH_ADDRESS) in
  (uniswap_v2_execute_swap W lib client address gm token_in_address
     token_out_address amount_in amount_out_min (Some deadline) stream_gas_price_wei s
   = (Ok (Some tx_hash), s') ->
   exists before path_in path_out gas_price nonce,
     to_checksum_address lib token_in_address = Ok path_in
     /\ to_checksum_address lib token_out_address = Ok path_out
     /\ fst (get_gas_price W lib client gm stream_gas_price_wei s) = Ok gas_price
     /\ broadcasts s'
        = broadcasts s ++ before
          ++ [mkTransaction UNISWAP_V2_ROUTER
                (if is_eth_in then
                   swapExactETHForTokens amount_out_min [path_in; path_out]
                     address deadline
                 else if is_eth_out then
                   swapExactTokensForETH amount_in amount_out_min [path_in; path_out]
                     address deadline
                 else
                   swapExactTokensForTokens amount_in amount_out_min
                     [path_in; path_out] address deadline)
                address (if is_eth_in then Some amount_in else None)
                300000 gas_price nonce])
  /\ (uniswap_v3_execute_swap W lib client address gm token_in_address
        token_out_address amount_in amount_out_min fee (Some deadline)
        stream_gas_price_wei s
      = (Ok (Some tx_hash), s') ->
      exists before token_in token_out gas_price nonce,
        to_checksum_address lib token_in_address = Ok token_in
        /\ to_checksum_address lib token_out_address = Ok token_out
        /\ fst (get_gas_price W lib client gm stream_gas_price_wei s) = Ok gas_price
        /\ broadcasts s'
           = broadcasts s ++ before
             ++ [mkTransaction UNISWAP_V3_ROUTER
                   (exactInputSingle token_in token_out fee address deadline
                      amount_in amount_out_min 0)
                   address (Some (if is_eth_in then amount_in else 0))
                   300000 gas_price nonce]).
Proof.
  intros Hbuild Hsign. cbv zeta. split.
  - intros H. unfold uniswap_v2_execute_swap in H.
    apply bind_inv_ok in H. destruct H as (d & s1 & E1 & H).
    injection E1 as <- <-.
    apply bind_inv_ok in H. destruct H as (path_in & s2 & E2 & H).
    apply lift_res_inv in E2. destruct E2 as [Hin ->].
    apply bind_inv_ok in H. destruct H as (path_out & s3 & E3 & H).
    apply lift_res_inv in E3. destruct E3 as [Hout ->].
    cbv zeta in H. apply try_except_inv_some in H.
    apply bind_inv_ok in H. destruct H as (gas_price & s4 & E4 & H).
    apply bind_inv_ok in H. destruct H as (ok & s5 & E5 & H).
    destruct ok; cbv beta iota zeta delta [negb] in H; [|discriminate H].
    apply bind_inv_ok in H. destruct H as (nonce & s6 & E6 & H).
    apply bind_inv_ok in H. destruct H as (transaction & s7 & E7 & H).
    apply bind_inv_ok in H. destruct H as (signed_txn & s8 & E8 & H).
    apply bind_inv_ok in H. destruct H as (h & s9 & E9 & H).
    injection H as -> <-.
    pose proof (sends_nothing _ _ _ _ _ (sends_get_gas_price _ _ _ _ _) E4) as L4.
    assert (exists before, broadcasts s5 = broadcasts s4 ++ before
                           /\ (List.length before <= 1)%nat) as (before & L5 & _).
    { refine (sends_run _ 1 _ _ _ _ _ E5).
      destruct (String.eqb (lower token_in_address) (lower WETH_ADDRESS)).
      - apply (sends_weaken _ 0); [lia | apply sends_check_eth_balance].
      - destruct (String.eqb (lower token_out_address) (lower WETH_ADDRESS));
          apply sends_check_and_approve_token. }
    apply call_inv in E6. destruct E6 as [_ L6].
    apply call_inv in E7. destruct E7 as [E7 L7]. rewrite Hbuild in E7.
    apply ok_pair_eq in E7. subst transaction.
    apply call_inv in E8. destruct E8 as [E8 L8]. rewrite Hsign in E8.
    apply ok_pair_eq in E8. subst signed_txn.
    destruct (send_raw_transaction_run _ _ _ _ _ _ E9) as [L9 _].
    exists before, path_in, path_out, gas_price, nonce.
    split; [exact Hin|]. split; [exact Hout|].
    split; [rewrite E4; reflexivity|].
    rewrite L9, L8, L7, L6, L5, L4, <- app_assoc.
    destruct (String.eqb (lower token_in_address) (lower WETH_ADDRESS));
      [reflexivity|].
    destruct (String.eqb (lower token_out_address) (lower WETH_ADDRESS)); reflexivity.
  - intros H. unfold uniswap_v3_execute_swap in H.
    apply bind_inv_ok in H. destruct H as (d & s1 & E1 & H).
    injection E1 as <- <-.
    apply try_except_inv_some in H.
    apply bind_inv_ok in H. destruct H as (gas_price & s4 & E4 & H).
    cbv zeta in H.
    apply bind_inv_ok in H. destruct H as (ok & s5 & E5 & H).
    destruct ok; cbv beta iota zeta delta [negb] in H; [|discriminate H].
    apply bind_inv_ok in H. destruct H as (nonce & s6 & E6 & H).
    apply bind_inv_ok in H. destruct H as (token_in & s7 & E7 & H).
    apply lift_res_inv in E7. destruct E7 as [Hin ->].
    apply bind_inv_ok in H. destruct H as (token_out & s8 & E8 & H).
    apply lift_res_inv in E8. destruct E8 as [Hout ->].
    apply bind_inv_ok in H. destruct H as (transaction & s9 & E9 & H).
    apply bind_inv_ok in H. destruct H as (signed_txn & s10 & E10 & H).
    apply bind_inv_ok in H. destruct H as (h & s11 & E11 & H).
    injection H as -> <-.
    pose proof (sends_nothing _ _ _ _ _ (sends_get_gas_price _ _ _ _ _) E4) as L4.
    destruct (sends_run _ 1 _ _ _ _ (sends_preflight _ _ _ _ _ _ _ _ _) E5)
      as (before & L5 & _).
    apply call_inv in E6. destruct E6 as [_ L6].
    apply call_inv in E9. destruct E9 as [E9 L9]. rewrite Hbuild in E9.
    apply ok_pair_eq in E9. subst transaction.
    apply call_inv in E10. destruct E10 as [E10 L10]. rewrite Hsign in E10.
    apply ok_pair_eq in E10. subst signed_txn.
    destruct (send_raw_transaction_run _ _ _ _ _ _ E11) as [L11 _].
    exists before, token_in, token_out, gas_price, nonce.
    split; [exact Hin|]. split; [exact Hout|].
    split; [rewrite E4; reflexivity|].
    rewrite L11, L10, L9, L6, L5, L4, <- app_assoc. reflexivity.
Qed.

Lemma Forall2_in_left {A B : Type} (R : A -> B -> Prop) (l : list A) (l' : list B)
  (a : A) :
  Forall2 R l l' -> In a l -> exists b, In b l' /\ R a b.
Proof.
  induction 1 as [|x y l l' Hxy Hl IH]; intros Hin; [contradiction|].
  destruct Hin as [<- | Hin].
  - exists y. split; [left; reflexivity | exact Hxy].
  - destruct (IH Hin) as (b & Hb & Hab). exists b. split; [right; exact Hb | exact Hab].
Qed.

Lemma set_open_positions_same (self : TradingStrategy.t) :
  TradingStrategy.set_open_positions self (TradingStrategy.open_positions self) = self.
Proof. destruct self. reflexivity. Qed.

(** X30.  A close that failed is never retried: a position marked
    [close_failed] or [close_error] stays in the list, unchanged, through
    every run of the closing loop; and on a strategy whose positions are
    all of that kind the loop changes nothing and asks the node nothing,
    while none of them counts as open, so that new trades are not
    blocked. *)
Theorem failed_close_is_never_retried (self : TradingStrategy.t) (current_block : Z) :
  (forall p s self' s',
      In p (TradingStrategy.open_positions self) ->
      Position.status p = Position.close_failed
      \/ Position.status p = Position.close_error ->
      check_and_close_positions W lib client self current_block s = (Ok self', s') ->
      In p (TradingStrategy.open_positions self'))
  /\ ((forall p, In p (TradingStrategy.open_positions self) ->
                 Position.status p = Position.close_failed
                 \/ Position.status p = Position.close_error) ->
      count_open (TradingStrategy.open_positions self) = 0%nat
      /\ forall s,
          check_and_close_positions W lib client self current_block s = (Ok self, s)).
Proof.
  assert (forall p, Position.status p = Position.close_failed
                    \/ Position.status p = Position.close_error ->
                    is_due self current_block p = false /\ kept p = true
                    /\ Position.is_open p = false) as Hinert.
  { intros p Hst. unfold is_due, kept, Position.is_open.
    destruct Hst as [-> | ->]; repeat split. }
  split.
  - intros p s self' s' Hin Hst Hrun.
    unfold check_and_close_positions in Hrun.
    destruct (TradingStrategy.enabled self); cbv beta iota delta [negb] in Hrun.
    + apply bind_inv_ok in Hrun. destruct Hrun as (l' & s1 & E & Hrun).
      injection Hrun as <- _. simpl.
      destruct (close_due_positions_outcomes W lib client self current_block
                  (TradingStrategy.open_positions self) s) as (l'' & s'' & E' & Hl).
      rewrite E in E'. injection E' as <- _.
      destruct (Forall2_in_left _ _ _ _ Hl Hin) as (p' & Hin' & _ & Hsame & _).
      destruct (Hinert p Hst) as (Hdue & Hkept & _).
      rewrite (Hsame Hdue) in Hin'.
      apply filter_In. split; assumption.
    + injection Hrun as <- _. exact Hin.
  - intros Hall. split.
    + unfold count_open.
      assert (filter Position.is_open (TradingStrategy.open_positions self) = [])
        as ->; [|reflexivity].
      induction (TradingStrategy.open_positions self) as [|p l IH]; [reflexivity|].
      simpl. destruct (Hinert p (Hall p (or_introl eq_refl))) as (_ & _ & ->).
      apply IH. intros q Hq. apply Hall. right. exact Hq.
    + intros s. unfold check_and_close_positions.
      destruct (TradingStrategy.enabled self); cbv beta iota delta [negb];
        [|reflexivity].
      rewrite (bind_ok _ _ _ _ _ _
                 (close_due_positions_not_due W lib client self current_block
                    (TradingStrategy.open_positions self) s
                    (fun p Hp => proj1 (Hinert p (Hall p Hp))))).
      unfold ret. f_equal. f_equal.
      assert (filter kept (TradingStrategy.open_positions self)
              = TradingStrategy.open_positions self) as ->;
        [|apply set_open_positions_same].
      induction (TradingStrategy.open_positions self) as [|p l IH]; [reflexivity|].
      simpl. destruct (Hinert p (Hall p (or_introl eq_refl))) as (_ & -> & _).
      f_equal. apply IH. intros q Hq. apply Hall. right. exact Hq.
Qed.

End TransactionFacts.

Lemma swap_transaction_contents_witness :
  exists s' before path_in path_out gas_price nonce,
    uniswap_v2_execute_swap unit SampleChain.lib SampleStrategy.node
      "0x00000000000000000000000000000000000000aa" (GasManager.mk None 200)
      WETH_ADDRESS "0xA0b86991c6218b36c1d19D4a2e9Eb0cE3606eB48" (10 ^ 18) 1
      (Some 5000) (Some 20000000000) SampleChain.start
    = (Ok (Some "0xabc"%string), s')
    /\ to_checksum_address SampleChain.lib WETH_ADDRESS = Ok path_in
    /\ to_checksum_address SampleChain.lib "0xA0b86991c6218b36c1d19D4a2e9Eb0cE3606eB48"
       = Ok path_out
    /\ fst (get_gas_price unit SampleChain.lib SampleStrategy.node
              (GasManager.mk None 200) (Some 20000000000) SampleChain.start)
       = Ok gas_price
    /\ broadcasts s'
       = broadcasts SampleChain.start ++ before
         ++ [mkTransaction UNISWAP_V2_ROUTER
               (swapExactETHForTokens 1 [path_in; path_out]
                  "0x00000000000000000000000000000000000000aa" 5000)
               "0x00000000000000000000000000000000000000aa" (Some (10 ^ 18))
               300000 gas_price nonce].
Proof.
  assert (exists s',
             uniswap_v2_execute_swap unit SampleChain.lib SampleStrategy.node
               "0x00000000000000000000000000000000000000aa" (GasManager.mk None 200)
               WETH_ADDRESS "0xA0b86991c6218b36c1d19D4a2e9Eb0cE3606eB48" (10 ^ 18) 1
               (Some 5000) (Some 20000000000) SampleChain.start
             = (Ok (Some "0xabc"%string), s')) as [s' Hrun].
  { vm_compute. eexists. reflexivity. }
  destruct (proj1
              (swap_transaction_contents unit SampleChain.lib SampleStrategy.node
                 "0x00000000000000000000000000000000000000aa" (GasManager.mk None 200)
                 WETH_ADDRESS "0xA0b86991c6218b36c1d19D4a2e9Eb0cE3606eB48" (10 ^ 18) 1
                 3000 5000 (Some 20000000000) SampleChain.start s' "0xabc"
                 (fun tx w => eq_refl) (fun tx w => eq_refl))
              Hrun)
    as (before & path_in & path_out & gas_price & nonce & Hin & Hout & Hgas & Hlog).
  exists s', before, path_in, path_out, gas_price, nonce.
  split; [exact Hrun|]. split; [exact Hin|]. split; [exact Hout|].
  split; [exact Hgas|]. exact Hlog.
Defined.

Lemma failed_close_is_never_retried_witness :
  count_open
    (TradingStrategy.open_positions
       (TradingStrategy.set_open_positions SampleStrategy.fresh
          [Position.set_status (SampleStrategy.position_100 1) Position.close_failed]))
  = 0%nat
  /\ forall s,
      check_and_close_positions unit SampleChain.lib SampleStrategy.node
        (TradingStrategy.set_open_positions SampleStrategy.fresh
           [Position.set_status (SampleStrategy.position_100 1) Position.close_failed])
        200 s
      = (Ok (TradingStrategy.set_open_positions SampleStrategy.fresh
               [Position.set_status (SampleStrategy.position_100 1)
                  Position.close_failed]), s).
Proof.
  apply (proj2
    (failed_close_is_never_retried unit SampleChain.lib SampleStrategy.node
       (TradingStrategy.set_open_positions SampleStrategy.fresh
          [Position.set_status (SampleStrategy.position_100 1) Position.close_failed])
       200)).
  intros p [<- | []]. left. reflexivity.
Defined.
